(** * libsoundtouch: the notification dispatcher of [device.py]

    A shallow embedding of [src/libsoundtouch/device.py]: the DOM helper
    functions, the value objects built from a parsed document ([Volume],
    [Status], [ContentItem], [Preset], [ZoneStatus], [Config]), the
    listener registries and the websocket message handler [_on_message].

    Conventions of the embedding.
    - A Python [str] is a [string] whose characters are code points below
      256; [strip] and [int] are modelled exactly on that range.
    - A DOM tree holds documents, elements, text and comment nodes; the
      other node kinds of [xml.dom.minidom] (processing instructions,
      document types) are not represented.
    - A Python call either returns or raises: pure code returns a
      [result], code that touches the device runs in the monad [M], which
      threads the [world] and keeps the state reached when an exception
      is raised (Python does not roll anything back).
    - [minidom.parseString], [requests.get], [Node.toxml] and the bodies
      of the registered callbacks are library or application code; they
      are the variables of Section [Device]. A callback is identified by
      a handle, returns or raises, and leaves the device alone.
    - The refreshes and the accessors [status], [volume], [presets] and
      [zone_status] run in [M] too. The commands that post to the device
      ([_send_key], [power_on], [play_url], the zone commands, [snapshot]
      and [restore]) run in the monad [Cmd], which adds the list of the
      posts made and the exceptions of the library; [requests.post], the
      values of the enumerations of [utils.py], [ET.tostring] and the
      template of [play_url] are the variables of Section [Commands]. *)

From Stdlib Require Import String Ascii List ZArith NArith Bool Lia DecimalString.
Import ListNotations.
Local Open Scope string_scope.
Local Open Scope list_scope.

(** ** Exceptions and results *)

Inductive exn : Type :=
| ExpatError
| AttributeError
| TypeError
| ValueError
| KeyError
| RequestException
| ListenerError (handle : nat).

Inductive result (A : Type) : Type :=
| Ok (a : A)
| Raise (e : exn).
Arguments Ok {A} a.
Arguments Raise {A} e.

Definition rbind {A B : Type} (r : result A) (k : A -> result B) : result B :=
  match r with
  | Ok a => k a
  | Raise e => Raise e
  end.

Declare Scope result_scope.
Delimit Scope result_scope with res.
Notation "x <- r ;; k" := (rbind r (fun x => k))
  (at level 61, r at next level, right associativity) : result_scope.

(** The loop [for x in xs: out.append(f(x))]. *)
Fixpoint rmap {A B : Type} (f : A -> result B) (xs : list A) : result (list B) :=
  match xs with
  | [] => Ok []
  | x :: xs' =>
      match f x with
      | Ok y => match rmap f xs' with
                | Ok ys => Ok (y :: ys)
                | Raise e => Raise e
                end
      | Raise e => Raise e
      end
  end.

(** ** Python strings *)

(** [str.isspace] on one character. *)
Definition py_isspace (c : ascii) : bool :=
  let n := nat_of_ascii c in
  (Nat.leb 9 n && Nat.leb n 13) || (Nat.leb 28 n && Nat.leb n 32)
  || Nat.eqb n 133 || Nat.eqb n 160.

(** The blanks [int] skips around a numeral: the separators 28..31 are
    [isspace] characters but [int] does not accept them. *)
Definition py_int_isspace (c : ascii) : bool :=
  let n := nat_of_ascii c in
  (Nat.leb 9 n && Nat.leb n 13) || Nat.eqb n 32 || Nat.eqb n 133
  || Nat.eqb n 160.

Fixpoint drop_while (p : ascii -> bool) (s : string) : string :=
  match s with
  | EmptyString => EmptyString
  | String c s' => if p c then drop_while p s' else s
  end.

Fixpoint rev_string (acc s : string) : string :=
  match s with
  | EmptyString => acc
  | String c s' => rev_string (String c acc) s'
  end.

Definition trim (p : ascii -> bool) (s : string) : string :=
  rev_string EmptyString
    (drop_while p (rev_string EmptyString (drop_while p s))).

(** [s.strip()]. *)
Definition strip (s : string) : string := trim py_isspace s.

Definition is_digit (c : ascii) : bool :=
  let n := nat_of_ascii c in Nat.leb 48 n && Nat.leb n 57.

Definition digit_value (c : ascii) : Z := (Z.of_nat (nat_of_ascii c) - 48)%Z.

(** The digits of a decimal numeral; a single underscore may stand
    between two digits. [after_digit] tells whether the previous
    character was a digit. *)
Fixpoint digits (acc : Z) (after_digit : bool) (s : string) : option Z :=
  match s with
  | EmptyString => if after_digit then Some acc else None
  | String c s' =>
      if is_digit c then digits (10 * acc + digit_value c)%Z true s'
      else if (Ascii.eqb c "_"%char) && after_digit then digits acc false s'
      else None
  end.

(** [int(s)] for a [str]. *)
Definition py_int (s : string) : result Z :=
  let numeral :=
    match trim py_int_isspace s with
    | String "-"%char s' => option_map Z.opp (digits 0%Z false s')
    | String "+"%char s' => digits 0%Z false s'
    | s' => digits 0%Z false s'
    end in
  match numeral with
  | Some z => Ok z
  | None => Raise ValueError
  end.

(** [int(x)] where [x] may be [None]. *)
Definition py_int_opt (x : option string) : result Z :=
  match x with
  | Some s => py_int s
  | None => Raise TypeError
  end.

(** [x == literal] where [x] may be [None]. *)
Definition py_eq_str (x : option string) (literal : string) : bool :=
  match x with
  | Some s => String.eqb s literal
  | None => false
  end.

(** [str(n)] for a port number. *)
Definition py_str (n : N) : string := NilZero.string_of_uint (N.to_uint n).

(** ** The DOM of [xml.dom.minidom] *)

#[warnings="-register-all"]
Inductive node : Type :=
| Document (children : list node)
| Element (tagName : string) (attrs : list (string * string))
    (children : list node)
| Text (data : string)
| Comment (data : string).

Definition nodeName (n : node) : string :=
  match n with
  | Document _ => "#document"
  | Element tag _ _ => tag
  | Text _ => "#text"
  | Comment _ => "#comment"
  end.

Definition nodeValue (n : node) : option string :=
  match n with
  | Document _ | Element _ _ _ => None
  | Text d | Comment d => Some d
  end.

Definition childNodes (n : node) : list node :=
  match n with
  | Document cs | Element _ _ cs => cs
  | Text _ | Comment _ => []
  end.

Definition firstChild (n : node) : option node := hd_error (childNodes n).

Definition hasChildNodes (n : node) : bool :=
  match childNodes n with
  | [] => false
  | _ :: _ => true
  end.

(** [node.attributes]: a map for an element, [None] for any other node. *)
Definition attributes (n : node) : option (list (string * string)) :=
  match n with
  | Element _ a _ => Some a
  | _ => None
  end.

Fixpoint lookup (key : string) (m : list (string * string)) : option string :=
  match m with
  | [] => None
  | (k, v) :: m' => if String.eqb k key then Some v else lookup key m'
  end.

Definition is_element_named (name : string) (n : node) : bool :=
  match n with
  | Element tag _ _ => String.eqb name "*" || String.eqb tag name
  | _ => false
  end.

(** minidom's [_get_elements_by_tagName_helper(parent, name, rc)]. *)
Fixpoint _get_elements_by_tagName_helper (parent : node) (name : string)
    (rc : list node) : list node :=
  let fix visit (nodes : list node) (rc : list node) : list node :=
    match nodes with
    | [] => rc
    | n :: rest =>
        let rc1 := if is_element_named name n then rc ++ [n] else rc in
        visit rest (_get_elements_by_tagName_helper n name rc1)
    end in
  match parent with
  | Document cs | Element _ _ cs => visit cs rc
  | Text _ | Comment _ => rc
  end.

(** [node.getElementsByTagName(name)]: only documents and elements have
    the method. *)
Definition getElementsByTagName (n : node) (name : string) : result (list node) :=
  match n with
  | Document _ | Element _ _ _ => Ok (_get_elements_by_tagName_helper n name [])
  | Text _ | Comment _ => Raise AttributeError
  end.

(** Induction on a DOM tree, with the hypothesis for every child. *)
Fixpoint node_forall_ind (P : node -> Prop)
    (HDocument : forall cs, Forall P cs -> P (Document cs))
    (HElement : forall tag a cs, Forall P cs -> P (Element tag a cs))
    (HText : forall d, P (Text d))
    (HComment : forall d, P (Comment d))
    (n : node) : P n :=
  let fix all (cs : list node) : Forall P cs :=
    match cs with
    | [] => Forall_nil P
    | c :: rest =>
        Forall_cons c
          (node_forall_ind P HDocument HElement HText HComment c) (all rest)
    end in
  match n with
  | Document cs => HDocument cs (all cs)
  | Element tag a cs => HElement tag a cs (all cs)
  | Text d => HText d
  | Comment d => HComment d
  end.

(** The nodes below [n], in document order. *)
Fixpoint descendants (n : node) : list node :=
  let fix below (nodes : list node) : list node :=
    match nodes with
    | [] => []
    | c :: rest => c :: descendants c ++ below rest
    end in
  match n with
  | Document cs | Element _ _ cs => below cs
  | Text _ | Comment _ => []
  end.

(** The elements named [name] below [n], in document order. *)
Definition elements_named (name : string) (n : node) : list node :=
  filter (is_element_named name) (descendants n).

(** The document element: the first element child of the document. *)
Definition documentElement (dom : node) : option node :=
  match dom with
  | Document cs =>
      find (fun c => match c with Element _ _ _ => true | _ => false end) cs
  | _ => None
  end.

(** The nodes that have [getElementsByTagName]. *)
Definition is_parent (n : node) : bool :=
  match n with
  | Document _ | Element _ _ _ => true
  | Text _ | Comment _ => false
  end.

(** ** The DOM helper functions of [device.py] *)

Local Open Scope result_scope.

Definition _get_dom_attribute (xml_dom : node) (attribute : string)
    (default_value : option string) : result (option string) :=
  match attributes xml_dom with
  | None => Raise AttributeError
  | Some a =>
      match lookup attribute a with
      | Some v => Ok (Some v)
      | None => Ok default_value
      end
  end.

Definition _get_dom_elements (xml_dom : node) (element : string)
    : result (list node) :=
  getElementsByTagName xml_dom element.

Definition _get_dom_element (xml_dom : node) (element : string)
    : result (option node) :=
  elements <- _get_dom_elements xml_dom element ;;
  match elements with
  | e :: _ => Ok (Some e)
  | [] => Ok None
  end.

Definition _get_dom_element_attribute (xml_dom : node)
    (element attribute : string) (default_value : option string)
    : result (option string) :=
  element <- _get_dom_element xml_dom element ;;
  match element with
  | Some element =>
      match attributes element with
      | None => Raise AttributeError
      | Some a =>
          match lookup attribute a with
          | Some v => Ok (Some v)
          | None => Ok None
          end
      end
  | None => Ok default_value
  end.

Definition _get_dom_element_value (xml_dom : node) (element : string)
    (default_value : option string) : result (option string) :=
  element <- _get_dom_element xml_dom element ;;
  match element with
  | Some element =>
      match firstChild element with
      | Some child =>
          match nodeValue child with
          | Some v => Ok (Some (strip v))
          | None => Raise AttributeError
          end
      | None => Ok default_value
      end
  | None => Ok default_value
  end.

(** Using [None] where a node is expected: the first attribute access or
    method call on it raises [AttributeError]. *)
Definition deref {A : Type} (x : option node) (k : node -> result A) : result A :=
  match x with
  | Some n => k n
  | None => Raise AttributeError
  end.

(** ** The value objects *)

Module Network.
Record t : Type := {
  _type : string;
  _mac_address : option string;
  _ip_address : option string
}.

Definition __init__ (network_dom : node) : result t :=
  type <- match attributes network_dom with
          | None => Raise TypeError
          | Some a => match lookup "type" a with
                      | Some v => Ok v
                      | None => Raise KeyError
                      end
          end ;;
  mac_address <- _get_dom_element_value network_dom "macAddress" None ;;
  ip_address <- _get_dom_element_value network_dom "ipAddress" None ;;
  Ok {| _type := type; _mac_address := mac_address;
        _ip_address := ip_address |}.
End Network.

Module Component.
Record t : Type := {
  _category : option string;
  _software_version : option string;
  _serial_number : option string
}.

Definition __init__ (component_dom : node) : result t :=
  category <- _get_dom_element_value component_dom "componentCategory" None ;;
  software_version <-
    _get_dom_element_value component_dom "softwareVersion" None ;;
  serial_number <- _get_dom_element_value component_dom "serialNumber" None ;;
  Ok {| _category := category; _software_version := software_version;
        _serial_number := serial_number |}.
End Component.

Module Config.
Record t : Type := {
  _id : option string;
  _name : option string;
  _type : option string;
  _account_uuid : option string;
  _module_type : option string;
  _variant : option string;
  _variant_mode : option string;
  _country_code : option string;
  _region_code : option string;
  _networks : list Network.t;
  _components : list Component.t
}.

(** The nested loop over [components] and their [component]s. *)
Fixpoint components_of (groups : list node) : result (list Component.t) :=
  match groups with
  | [] => Ok []
  | components :: rest =>
      found <- _get_dom_elements components "component" ;;
      here <- rmap Component.__init__ found ;;
      others <- components_of rest ;;
      Ok (here ++ others)
  end.

Definition __init__ (xml_dom : node) : result t :=
  id <- _get_dom_element_attribute xml_dom "info" "deviceID" None ;;
  name <- _get_dom_element_value xml_dom "name" None ;;
  type <- _get_dom_element_value xml_dom "type" None ;;
  account_uuid <- _get_dom_element_value xml_dom "margeAccountUUID" None ;;
  module_type <- _get_dom_element_value xml_dom "moduleType" None ;;
  variant <- _get_dom_element_value xml_dom "variant" None ;;
  variant_mode <- _get_dom_element_value xml_dom "variantMode" None ;;
  country_code <- _get_dom_element_value xml_dom "countryCode" None ;;
  region_code <- _get_dom_element_value xml_dom "regionCode" None ;;
  network_doms <- getElementsByTagName xml_dom "networkInfo" ;;
  networks <- rmap Network.__init__ network_doms ;;
  groups <- _get_dom_elements xml_dom "components" ;;
  components <- components_of groups ;;
  Ok {| _id := id; _name := name; _type := type;
        _account_uuid := account_uuid; _module_type := module_type;
        _variant := variant; _variant_mode := variant_mode;
        _country_code := country_code; _region_code := region_code;
        _networks := networks; _components := components |}.
End Config.

Module ContentItem.
Record t : Type := {
  _name : option string;
  _source : option string;
  _type : option string;
  _location : option string;
  _source_account : option string;
  _is_presetable : bool
}.

Definition __init__ (xml_dom : node) : result t :=
  name <- _get_dom_element_value xml_dom "itemName" None ;;
  source <- _get_dom_attribute xml_dom "source" None ;;
  type <- _get_dom_attribute xml_dom "type" None ;;
  location <- _get_dom_attribute xml_dom "location" None ;;
  source_account <- _get_dom_attribute xml_dom "sourceAccount" None ;;
  is_presetable <- _get_dom_attribute xml_dom "isPresetable" None ;;
  Ok {| _name := name; _source := source; _type := type;
        _location := location; _source_account := source_account;
        _is_presetable := py_eq_str is_presetable "true" |}.
End ContentItem.

Module Status.
Record t : Type := {
  _source : option string;
  _content_item : option ContentItem.t;
  _track : option string;
  _artist : option string;
  _album : option string;
  _image : option string;
  _duration : option Z;
  _position : option Z;
  _play_status : option string;
  _shuffle_setting : option string;
  _repeat_setting : option string;
  _stream_type : option string;
  _track_id : option string;
  _station_name : option string;
  _description : option string;
  _station_location : option string
}.

(** [int(x) if x is not None else None]. *)
Definition int_if_present (x : option string) : result (option Z) :=
  match x with
  | Some s => z <- py_int s ;; Ok (Some z)
  | None => Ok None
  end.

Definition __init__ (xml_dom : node) : result t :=
  source <- _get_dom_element_attribute xml_dom "nowPlaying" "source" None ;;
  content_item <- getElementsByTagName xml_dom "ContentItem" ;;
  content_item <-
    match content_item with
    | _ :: _ =>
        found <- _get_dom_element xml_dom "ContentItem" ;;
        item <- deref found ContentItem.__init__ ;;
        Ok (Some item)
    | [] => Ok None
    end ;;
  track <- _get_dom_element_value xml_dom "track" None ;;
  artist <- _get_dom_element_value xml_dom "artist" None ;;
  album <- _get_dom_element_value xml_dom "album" None ;;
  image_status <-
    _get_dom_element_attribute xml_dom "art" "artImageStatus" None ;;
  image <-
    (if py_eq_str image_status "IMAGE_PRESENT"
     then _get_dom_element_value xml_dom "art" None
     else Ok None) ;;
  duration <- _get_dom_element_attribute xml_dom "time" "total" None ;;
  duration <- int_if_present duration ;;
  position <- _get_dom_element_value xml_dom "time" None ;;
  position <- int_if_present position ;;
  play_status <- _get_dom_element_value xml_dom "playStatus" None ;;
  shuffle_setting <- _get_dom_element_value xml_dom "shuffleSetting" None ;;
  repeat_setting <- _get_dom_element_value xml_dom "repeatSetting" None ;;
  stream_type <- _get_dom_element_value xml_dom "streamType" None ;;
  track_id <- _get_dom_element_value xml_dom "trackID" None ;;
  station_name <- _get_dom_element_value xml_dom "stationName" None ;;
  description <- _get_dom_element_value xml_dom "description" None ;;
  station_location <-
    _get_dom_element_value xml_dom "stationLocation" None ;;
  Ok {| _source := source; _content_item := content_item;
        _track := track; _artist := artist; _album := album;
        _image := image; _duration := duration; _position := position;
        _play_status := play_status; _shuffle_setting := shuffle_setting;
        _repeat_setting := repeat_setting; _stream_type := stream_type;
        _track_id := track_id; _station_name := station_name;
        _description := description;
        _station_location := station_location |}.
End Status.

Module Volume.
Record t : Type := {
  _actual : Z;
  _target : Z;
  _muted : bool
}.

Definition __init__ (xml_dom : node) : result t :=
  actual <- _get_dom_element_value xml_dom "actualvolume" None ;;
  actual <- py_int_opt actual ;;
  target <- _get_dom_element_value xml_dom "targetvolume" None ;;
  target <- py_int_opt target ;;
  muted <- _get_dom_element_value xml_dom "muteenabled" None ;;
  Ok {| _actual := actual; _target := target;
        _muted := py_eq_str muted "true" |}.
End Volume.

Module Preset.
Record t : Type := {
  _name : option string;
  _id : option string;
  _source : option string;
  _type : option string;
  _location : option string;
  _source_account : option string;
  _is_presetable : bool;
  _source_xml : string
}.

Definition __init__ (toxml : node -> string) (preset_dom : node) : result t :=
  name <- _get_dom_element_value preset_dom "itemName" None ;;
  id <- _get_dom_attribute preset_dom "id" None ;;
  source <- _get_dom_element_attribute preset_dom "ContentItem" "source" None ;;
  type <- _get_dom_element_attribute preset_dom "ContentItem" "type" None ;;
  location <-
    _get_dom_element_attribute preset_dom "ContentItem" "location" None ;;
  source_account <-
    _get_dom_element_attribute preset_dom "ContentItem" "sourceAccount" None ;;
  is_presetable <-
    _get_dom_element_attribute preset_dom "ContentItem" "isPresetable" None ;;
  content_item <- _get_dom_element preset_dom "ContentItem" ;;
  source_xml <- deref content_item (fun e => Ok (toxml e)) ;;
  Ok {| _name := name; _id := id; _source := source; _type := type;
        _location := location; _source_account := source_account;
        _is_presetable := py_eq_str is_presetable "true";
        _source_xml := source_xml |}.
End Preset.

Module ZoneSlave.
Record t : Type := {
  _ip : option string;
  _role : option string
}.

Definition __init__ (member_dom : node) : result t :=
  ip <- _get_dom_attribute member_dom "ipaddress" None ;;
  role <- _get_dom_attribute member_dom "role" None ;;
  Ok {| _ip := ip; _role := role |}.
End ZoneSlave.

Module ZoneStatus.
Record t : Type := {
  _master_id : option string;
  _master_ip : option string;
  _is_master : bool;
  _slaves : list ZoneSlave.t
}.

Definition __init__ (zone_dom : node) : result t :=
  master_id <- _get_dom_element_attribute zone_dom "zone" "master" None ;;
  master_ip <-
    _get_dom_element_attribute zone_dom "zone" "senderIPAddress" None ;;
  members <- _get_dom_elements zone_dom "member" ;;
  slaves <- rmap ZoneSlave.__init__ members ;;
  Ok {| _master_id := master_id; _master_ip := master_ip;
        _is_master := match master_ip with None => true | Some _ => false end;
        _slaves := slaves |}.
End ZoneStatus.

(** ** The device *)

(** A registered callback, identified by its handle; two registrations
    are equal when their handles are. *)
Definition callback : Type := nat.

(** The values handed to the callbacks: what the cached field of the
    category holds at the time of the call. *)
Inductive payload : Type :=
| VolumeValue (volume : option Volume.t)
| StatusValue (status : option Status.t)
| PresetsValue (presets : option (list Preset.t))
| ZoneStatusValue (zone_status : option ZoneStatus.t)
| ConfigValue (config : Config.t).

Record SoundTouchDevice : Type := {
  _host : string;
  _port : N;
  _ws_port : N;
  _dlna_port : N;
  _config : Config.t;
  _status : option Status.t;
  _volume : option Volume.t;
  _zone_status : option ZoneStatus.t;
  _presets : option (list Preset.t);
  _volume_updated_listeners : list callback;
  _status_updated_listeners : list callback;
  _presets_updated_listeners : list callback;
  _zone_status_updated_listeners : list callback;
  _device_info_updated_listeners : list callback;
  _snapshot : option ContentItem.t
}.

Definition set_config (d : SoundTouchDevice) (x : Config.t) :=
  {| _host := _host d; _port := _port d; _ws_port := _ws_port d;
     _dlna_port := _dlna_port d; _config := x; _status := _status d;
     _volume := _volume d; _zone_status := _zone_status d;
     _presets := _presets d;
     _volume_updated_listeners := _volume_updated_listeners d;
     _status_updated_listeners := _status_updated_listeners d;
     _presets_updated_listeners := _presets_updated_listeners d;
     _zone_status_updated_listeners := _zone_status_updated_listeners d;
     _device_info_updated_listeners := _device_info_updated_listeners d;
     _snapshot := _snapshot d |}.

Definition set_status (d : SoundTouchDevice) (x : option Status.t) :=
  {| _host := _host d; _port := _port d; _ws_port := _ws_port d;
     _dlna_port := _dlna_port d; _config := _config d; _status := x;
     _volume := _volume d; _zone_status := _zone_status d;
     _presets := _presets d;
     _volume_updated_listeners := _volume_updated_listeners d;
     _status_updated_listeners := _status_updated_listeners d;
     _presets_updated_listeners := _presets_updated_listeners d;
     _zone_status_updated_listeners := _zone_status_updated_listeners d;
     _device_info_updated_listeners := _device_info_updated_listeners d;
     _snapshot := _snapshot d |}.

Definition set_volume (d : SoundTouchDevice) (x : option Volume.t) :=
  {| _host := _host d; _port := _port d; _ws_port := _ws_port d;
     _dlna_port := _dlna_port d; _config := _config d; _status := _status d;
     _volume := x; _zone_status := _zone_status d;
     _presets := _presets d;
     _volume_updated_listeners := _volume_updated_listeners d;
     _status_updated_listeners := _status_updated_listeners d;
     _presets_updated_listeners := _presets_updated_listeners d;
     _zone_status_updated_listeners := _zone_status_updated_listeners d;
     _device_info_updated_listeners := _device_info_updated_listeners d;
     _snapshot := _snapshot d |}.

Definition set_zone_status (d : SoundTouchDevice) (x : option ZoneStatus.t) :=
  {| _host := _host d; _port := _port d; _ws_port := _ws_port d;
     _dlna_port := _dlna_port d; _config := _config d; _status := _status d;
     _volume := _volume d; _zone_status := x;
     _presets := _presets d;
     _volume_updated_listeners := _volume_updated_listeners d;
     _status_updated_listeners := _status_updated_listeners d;
     _presets_updated_listeners := _presets_updated_listeners d;
     _zone_status_updated_listeners := _zone_status_updated_listeners d;
     _device_info_updated_listeners := _device_info_updated_listeners d;
     _snapshot := _snapshot d |}.

Definition set_presets (d : SoundTouchDevice) (x : option (list Preset.t)) :=
  {| _host := _host d; _port := _port d; _ws_port := _ws_port d;
     _dlna_port := _dlna_port d; _config := _config d; _status := _status d;
     _volume := _volume d; _zone_status := _zone_status d;
     _presets := x;
     _volume_updated_listeners := _volume_updated_listeners d;
     _status_updated_listeners := _status_updated_listeners d;
     _presets_updated_listeners := _presets_updated_listeners d;
     _zone_status_updated_listeners := _zone_status_updated_listeners d;
     _device_info_updated_listeners := _device_info_updated_listeners d;
     _snapshot := _snapshot d |}.

Definition set_volume_updated_listeners (d : SoundTouchDevice)
    (x : list callback) :=
  {| _host := _host d; _port := _port d; _ws_port := _ws_port d;
     _dlna_port := _dlna_port d; _config := _config d; _status := _status d;
     _volume := _volume d; _zone_status := _zone_status d;
     _presets := _presets d;
     _volume_updated_listeners := x;
     _status_updated_listeners := _status_updated_listeners d;
     _presets_updated_listeners := _presets_updated_listeners d;
     _zone_status_updated_listeners := _zone_status_updated_listeners d;
     _device_info_updated_listeners := _device_info_updated_listeners d;
     _snapshot := _snapshot d |}.

Definition set_status_updated_listeners (d : SoundTouchDevice)
    (x : list callback) :=
  {| _host := _host d; _port := _port d; _ws_port := _ws_port d;
     _dlna_port := _dlna_port d; _config := _config d; _status := _status d;
     _volume := _volume d; _zone_status := _zone_status d;
     _presets := _presets d;
     _volume_updated_listeners := _volume_updated_listeners d;
     _status_updated_listeners := x;
     _presets_updated_listeners := _presets_updated_listeners d;
     _zone_status_updated_listeners := _zone_status_updated_listeners d;
     _device_info_updated_listeners := _device_info_updated_listeners d;
     _snapshot := _snapshot d |}.

Definition set_presets_updated_listeners (d : SoundTouchDevice)
    (x : list callback) :=
  {| _host := _host d; _port := _port d; _ws_port := _ws_port d;
     _dlna_port := _dlna_port d; _config := _config d; _status := _status d;
     _volume := _volume d; _zone_status := _zone_status d;
     _presets := _presets d;
     _volume_updated_listeners := _volume_updated_listeners d;
     _status_updated_listeners := _status_updated_listeners d;
     _presets_updated_listeners := x;
     _zone_status_updated_listeners := _zone_status_updated_listeners d;
     _device_info_updated_listeners := _device_info_updated_listeners d;
     _snapshot := _snapshot d |}.

Definition set_zone_status_updated_listeners (d : SoundTouchDevice)
    (x : list callback) :=
  {| _host := _host d; _port := _port d; _ws_port := _ws_port d;
     _dlna_port := _dlna_port d; _config := _config d; _status := _status d;
     _volume := _volume d; _zone_status := _zone_status d;
     _presets := _presets d;
     _volume_updated_listeners := _volume_updated_listeners d;
     _status_updated_listeners := _status_updated_listeners d;
     _presets_updated_listeners := _presets_updated_listeners d;
     _zone_status_updated_listeners := x;
     _device_info_updated_listeners := _device_info_updated_listeners d;
     _snapshot := _snapshot d |}.

Definition set_device_info_updated_listeners (d : SoundTouchDevice)
    (x : list callback) :=
  {| _host := _host d; _port := _port d; _ws_port := _ws_port d;
     _dlna_port := _dlna_port d; _config := _config d; _status := _status d;
     _volume := _volume d; _zone_status := _zone_status d;
     _presets := _presets d;
     _volume_updated_listeners := _volume_updated_listeners d;
     _status_updated_listeners := _status_updated_listeners d;
     _presets_updated_listeners := _presets_updated_listeners d;
     _zone_status_updated_listeners := _zone_status_updated_listeners d;
     _device_info_updated_listeners := x;
     _snapshot := _snapshot d |}.

(** *** The listener registries *)

(** [x in xs], with callbacks compared by handle. *)
Fixpoint py_in (x : callback) (xs : list callback) : bool :=
  match xs with
  | [] => false
  | y :: ys => Nat.eqb y x || py_in x ys
  end.

(** [xs.remove(x)]: drops the first item equal to [x]; [ValueError] when
    there is none. *)
Fixpoint py_remove (x : callback) (xs : list callback) : result (list callback) :=
  match xs with
  | [] => Raise ValueError
  | y :: ys =>
      if Nat.eqb y x then Ok ys
      else ys' <- py_remove x ys ;; Ok (y :: ys')
  end.

(** The body shared by the five [remove_*_listener] methods:
    [if listener in registry: registry.remove(listener)]. *)
Definition remove_if_registered (listener : callback) (registry : list callback)
    : result (list callback) :=
  if py_in listener registry then py_remove listener registry
  else Ok registry.

Definition add_volume_listener (self : SoundTouchDevice) (listener : callback)
    : result SoundTouchDevice :=
  Ok (set_volume_updated_listeners self
        (_volume_updated_listeners self ++ [listener])).

Definition add_status_listener (self : SoundTouchDevice) (listener : callback)
    : result SoundTouchDevice :=
  Ok (set_status_updated_listeners self
        (_status_updated_listeners self ++ [listener])).

Definition add_presets_listener (self : SoundTouchDevice) (listener : callback)
    : result SoundTouchDevice :=
  Ok (set_presets_updated_listeners self
        (_presets_updated_listeners self ++ [listener])).

Definition add_zone_status_listener (self : SoundTouchDevice)
    (listener : callback) : result SoundTouchDevice :=
  Ok (set_zone_status_updated_listeners self
        (_zone_status_updated_listeners self ++ [listener])).

Definition add_device_info_listener (self : SoundTouchDevice)
    (listener : callback) : result SoundTouchDevice :=
  Ok (set_device_info_updated_listeners self
        (_device_info_updated_listeners self ++ [listener])).

Definition remove_volume_listener (self : SoundTouchDevice)
    (listener : callback) : result SoundTouchDevice :=
  registry <- remove_if_registered listener (_volume_updated_listeners self) ;;
  Ok (set_volume_updated_listeners self registry).

Definition remove_status_listener (self : SoundTouchDevice)
    (listener : callback) : result SoundTouchDevice :=
  registry <- remove_if_registered listener (_status_updated_listeners self) ;;
  Ok (set_status_updated_listeners self registry).

Definition remove_presets_listener (self : SoundTouchDevice)
    (listener : callback) : result SoundTouchDevice :=
  registry <- remove_if_registered listener (_presets_updated_listeners self) ;;
  Ok (set_presets_updated_listeners self registry).

Definition remove_zone_status_listener (self : SoundTouchDevice)
    (listener : callback) : result SoundTouchDevice :=
  registry <-
    remove_if_registered listener (_zone_status_updated_listeners self) ;;
  Ok (set_zone_status_updated_listeners self registry).

Definition remove_device_info_listener (self : SoundTouchDevice)
    (listener : callback) : result SoundTouchDevice :=
  registry <-
    remove_if_registered listener (_device_info_updated_listeners self) ;;
  Ok (set_device_info_updated_listeners self registry).

Definition clear_volume_listeners (self : SoundTouchDevice) : SoundTouchDevice :=
  set_volume_updated_listeners self [].

Definition clear_status_listener (self : SoundTouchDevice) : SoundTouchDevice :=
  set_status_updated_listeners self [].

Definition clear_presets_listeners (self : SoundTouchDevice) : SoundTouchDevice :=
  set_presets_updated_listeners self [].

Definition clear_zone_status_listeners (self : SoundTouchDevice)
    : SoundTouchDevice :=
  set_zone_status_updated_listeners self [].

Definition clear_device_info_listeners (self : SoundTouchDevice)
    : SoundTouchDevice :=
  set_device_info_updated_listeners self [].

(** *** Code that runs against the device *)

(** The device together with what the handler does to the outside: the
    URLs requested over HTTP and the callbacks invoked, both in order. *)
Record world : Type := {
  device : SoundTouchDevice;
  requested : list string;
  invoked : list (callback * payload)
}.

Definition M (A : Type) : Type := world -> result A * world.

Definition ret {A : Type} (a : A) : M A := fun w => (Ok a, w).

Definition mbind {A B : Type} (m : M A) (k : A -> M B) : M B :=
  fun w =>
    match m w with
    | (Ok a, w') => k a w'
    | (Raise e, w') => (Raise e, w')
    end.

Definition lift {A : Type} (r : result A) : M A := fun w => (r, w).

Definition gets {A : Type} (field : SoundTouchDevice -> A) : M A :=
  fun w => (Ok (field (device w)), w).

Definition assign {A : Type} (set : SoundTouchDevice -> A -> SoundTouchDevice)
    (x : A) : M unit :=
  fun w =>
    (Ok tt, {| device := set (device w) x; requested := requested w;
               invoked := invoked w |}).

(** [if cond: body]. *)
Definition when (cond : bool) (body : M unit) : M unit :=
  if cond then body else ret tt.

Declare Scope M_scope.
Delimit Scope M_scope with M.
Notation "x <- m ;; k" := (mbind m (fun x => k))
  (at level 61, m at next level, right associativity) : M_scope.
Notation "m ;; k" := (mbind m (fun _ => k))
  (at level 61, right associativity) : M_scope.

(** [for x in xs: body(x)]. *)
Fixpoint for_each {A : Type} (xs : list A) (body : A -> M unit) : M unit :=
  match xs with
  | [] => ret tt
  | x :: rest => mbind (body x) (fun _ => for_each rest body)
  end.

(** [self._presets.append(preset)]. *)
Definition append_preset (preset : Preset.t) : M unit :=
  mbind (gets _presets) (fun presets =>
    match presets with
    | Some ps => assign set_presets (Some (ps ++ [preset]))
    | None => lift (Raise AttributeError)
    end).

Section Device.

(** [minidom.parseString]. *)
Variable parseString : string -> result node.
(** [requests.get(url, timeout=TIMEOUT).text]. *)
Variable requests_get : string -> result string.
(** [Node.toxml]. *)
Variable toxml : node -> string.
(** What calling a registered callback on a value does. *)
Variable call : callback -> payload -> result unit.

Local Open Scope M_scope.

Definition http_get (url : string) : M string :=
  fun w =>
    (requests_get url,
     {| device := device w; requested := requested w ++ [url];
        invoked := invoked w |}).

(** [listener(value)]. *)
Definition invoke (listener : callback) (value : payload) : M unit :=
  fun w =>
    (call listener value,
     {| device := device w; requested := requested w;
        invoked := invoked w ++ [(listener, value)] |}).

Definition base_url (self : SoundTouchDevice) : string :=
  ("http://" ++ _host self ++ ":" ++ py_str (_port self))%string.

Definition __run_listener (listeners : list callback) (value : payload)
    : M unit :=
  for_each listeners (fun listener => invoke listener value).

Definition __init_config : M unit :=
  url <- gets (fun self => (base_url self ++ "/info")%string) ;;
  text <- http_get url ;;
  dom <- lift (parseString text) ;;
  config <- lift (Config.__init__ dom) ;;
  assign set_config config.

Definition refresh_zone_status : M unit :=
  url <- gets (fun self => (base_url self ++ "/getZone")%string) ;;
  text <- http_get url ;;
  dom <- lift (parseString text) ;;
  members <- lift (_get_dom_elements dom "member") ;;
  match members with
  | _ :: _ =>
      zone_status <- lift (ZoneStatus.__init__ dom) ;;
      assign set_zone_status (Some zone_status)
  | [] => assign set_zone_status None
  end.

Definition zone_status (refresh : bool) : M (option ZoneStatus.t) :=
  cached <- gets _zone_status ;;
  when (match cached with None => true | Some _ => false end || refresh)
    refresh_zone_status ;;
  gets _zone_status.

Definition _on_message (message : string) : M unit :=
  dom <- lift (parseString message) ;;
  root <- lift (deref (firstChild dom) Ok) ;;
  if String.eqb (nodeName root) "updates" then
    let action_node := firstChild root in
    action <- lift (deref action_node (fun n => Ok (nodeName n))) ;;
    when (String.eqb action "volumeUpdated") (
      volume <- lift (deref action_node (fun n =>
                  deref (firstChild n) Volume.__init__)) ;;
      assign set_volume (Some volume) ;;
      listeners <- gets _volume_updated_listeners ;;
      value <- gets _volume ;;
      __run_listener listeners (VolumeValue value)) ;;
    when (String.eqb action "nowPlayingUpdated") (
      status <- lift (deref action_node Status.__init__) ;;
      assign set_status (Some status) ;;
      listeners <- gets _status_updated_listeners ;;
      value <- gets _status ;;
      __run_listener listeners (StatusValue value)) ;;
    when (String.eqb action "presetsUpdated"
          && match action_node with
             | Some n => hasChildNodes n
             | None => false
             end) (
      assign set_presets (Some []) ;;
      presets <- lift (_get_dom_elements dom "preset") ;;
      for_each presets (fun preset =>
        preset <- lift (Preset.__init__ toxml preset) ;;
        append_preset preset) ;;
      listeners <- gets _presets_updated_listeners ;;
      value <- gets _presets ;;
      __run_listener listeners (PresetsValue value)) ;;
    when (String.eqb action "zoneUpdated") (
      listeners <- gets _zone_status_updated_listeners ;;
      value <- zone_status true ;;
      __run_listener listeners (ZoneStatusValue value)) ;;
    when (String.eqb action "infoUpdated") (
      __init_config ;;
      listeners <- gets _device_info_updated_listeners ;;
      value <- gets _config ;;
      __run_listener listeners (ConfigValue value))
  else ret tt.

End Device.

(** *** Refreshing and reading the cached values *)

Section Accessors.

Variable parseString : string -> result node.
Variable requests_get : string -> result string.
Variable toxml : node -> string.

Local Open Scope M_scope.

Definition refresh_status : M unit :=
  url <- gets (fun self => (base_url self ++ "/now_playing")%string) ;;
  text <- http_get requests_get url ;;
  dom <- lift (parseString text) ;;
  status <- lift (Status.__init__ dom) ;;
  assign set_status (Some status).

Definition refresh_volume : M unit :=
  url <- gets (fun self => (base_url self ++ "/volume")%string) ;;
  text <- http_get requests_get url ;;
  dom <- lift (parseString text) ;;
  volume <- lift (Volume.__init__ dom) ;;
  assign set_volume (Some volume).

Definition refresh_presets : M unit :=
  url <- gets (fun self => (base_url self ++ "/presets")%string) ;;
  text <- http_get requests_get url ;;
  dom <- lift (parseString text) ;;
  assign set_presets (Some []) ;;
  presets <- lift (_get_dom_elements dom "preset") ;;
  for_each presets (fun preset =>
    preset <- lift (Preset.__init__ toxml preset) ;;
    append_preset preset).

(** [x is None]. *)
Definition is_None {A : Type} (x : option A) : bool :=
  match x with
  | None => true
  | Some _ => false
  end.

Definition status (refresh : bool) : M (option Status.t) :=
  cached <- gets _status ;;
  when (is_None cached || refresh) refresh_status ;;
  gets _status.

Definition volume (refresh : bool) : M (option Volume.t) :=
  cached <- gets _volume ;;
  when (is_None cached || refresh) refresh_volume ;;
  gets _volume.

Definition presets (refresh : bool) : M (option (list Preset.t)) :=
  cached <- gets _presets ;;
  when (is_None cached || refresh) refresh_presets ;;
  gets _presets.

End Accessors.

(** The properties [device_ip] and [mac_address] of [Config]: the first
    network of type SMSC, or else the first network, if there is one. *)
Definition Config_network (config : Config.t) : option Network.t :=
  match find (fun network => String.eqb (Network._type network) "SMSC")
          (Config._networks config) with
  | Some network => Some network
  | None => hd_error (Config._networks config)
  end.

Definition Config_device_ip (config : Config.t) : option string :=
  match Config_network config with
  | Some network => Network._ip_address network
  | None => None
  end.

Definition Config_mac_address (config : Config.t) : option string :=
  match Config_network config with
  | Some network => Network._mac_address network
  | None => None
  end.

(** *** Commands *)

(** The exceptions of the library itself. *)
Inductive SoundtouchException : Type :=
| NoExistingZoneException
| NoSlavesException
| SoundtouchInvalidUrlException.

Inductive raised : Type :=
| Builtin (e : exn)
| Soundtouch (e : SoundtouchException).

Inductive outcome (A : Type) : Type :=
| Returned (a : A)
| Raised (e : raised).
Arguments Returned {A} a.
Arguments Raised {A} e.

(** A command runs against the world and posts to the device: [posted]
    keeps the URL and the body of every POST, in order. *)
Record session : Type := {
  state : world;
  posted : list (string * string)
}.

Definition Cmd (A : Type) : Type := session -> outcome A * session.

Definition cret {A : Type} (a : A) : Cmd A := fun s => (Returned a, s).

Definition craise {A : Type} (e : raised) : Cmd A := fun s => (Raised e, s).

Definition cbind {A B : Type} (c : Cmd A) (k : A -> Cmd B) : Cmd B :=
  fun s =>
    match c s with
    | (Returned a, s') => k a s'
    | (Raised e, s') => (Raised e, s')
    end.

(** Code of the monad [M] run within a command. *)
Definition run {A : Type} (m : M A) : Cmd A :=
  fun s =>
    match m (state s) with
    | (Ok a, w) => (Returned a, {| state := w; posted := posted s |})
    | (Raise e, w) => (Raised (Builtin e), {| state := w; posted := posted s |})
    end.

Declare Scope Cmd_scope.
Delimit Scope Cmd_scope with Cmd.
Notation "x <- c ;; k" := (cbind c (fun x => k))
  (at level 61, c at next level, right associativity) : Cmd_scope.
Notation "c ;; k" := (cbind c (fun _ => k))
  (at level 61, right associativity) : Cmd_scope.

(** The members of [Key] that [device.py] uses. *)
Inductive Key : Type :=
| MUTE | VOLUME_UP | VOLUME_DOWN | NEXT_TRACK | PREV_TRACK | PAUSE | PLAY
| PLAY_PAUSE | REPEAT_OFF | REPEAT_ONE | REPEAT_ALL | SHUFFLE_ON
| SHUFFLE_OFF | POWER.

Definition STATE_STANDBY : string := "STANDBY".

(** The double quote, and a string between double quotes. *)
Definition dquote : string := String "034"%char EmptyString.
Definition quoted (s : string) : string := (dquote ++ s ++ dquote)%string.

(** [str(x)] in an f-string, for a value that may be [None]. *)
Definition fmt (x : option string) : string :=
  match x with
  | Some s => s
  | None => "None"
  end.

(** [bool(x)] for a string that may be [None]. *)
Definition truthy (x : option string) : bool :=
  match x with
  | Some EmptyString | None => false
  | Some _ => true
  end.

Definition set_snapshot (d : SoundTouchDevice) (x : option ContentItem.t) :=
  {| _host := _host d; _port := _port d; _ws_port := _ws_port d;
     _dlna_port := _dlna_port d; _config := _config d; _status := _status d;
     _volume := _volume d; _zone_status := _zone_status d;
     _presets := _presets d;
     _volume_updated_listeners := _volume_updated_listeners d;
     _status_updated_listeners := _status_updated_listeners d;
     _presets_updated_listeners := _presets_updated_listeners d;
     _zone_status_updated_listeners := _zone_status_updated_listeners d;
     _device_info_updated_listeners := _device_info_updated_listeners d;
     _snapshot := x |}.

(** The [<member>] elements of a zone request, one per slave. *)
Definition member_xml (slave : SoundTouchDevice) : string :=
  ("<member ipaddress=" ++ quoted (fmt (Config_device_ip (_config slave)))
   ++ ">" ++ fmt (Config._id (_config slave)) ++ "</member>")%string.

(** The loop [for slave in slaves: request_body += ...]. *)
Fixpoint add_members (request_body : string) (slaves : list SoundTouchDevice)
    : string :=
  match slaves with
  | [] => request_body
  | slave :: rest => add_members (request_body ++ member_xml slave)%string rest
  end.

Definition _create_zone (self : SoundTouchDevice)
    (slaves : list SoundTouchDevice) : outcome string :=
  if Nat.leb (length slaves) 0 then Raised (Soundtouch NoSlavesException)
  else
    let request_body :=
      ("<zone master=" ++ quoted (fmt (Config._id (_config self)))
       ++ " senderIPAddress="
       ++ quoted (fmt (Config_device_ip (_config self))) ++ ">")%string in
    let request_body := add_members request_body slaves in
    Returned (request_body ++ "</zone>")%string.

Definition _get_zone_request_body (self : SoundTouchDevice)
    (slaves : list SoundTouchDevice) : outcome string :=
  if Nat.leb (length slaves) 0 then Raised (Soundtouch NoSlavesException)
  else
    let request_body :=
      ("<zone master=" ++ quoted (fmt (Config._id (_config self))) ++ ">")%string
    in
    let request_body := add_members request_body slaves in
    Returned (request_body ++ "</zone>")%string.

Section Commands.

Variable parseString : string -> result node.
Variable requests_get : string -> result string.
(** [requests.post(url, data, timeout=TIMEOUT)]: the answer is not
    looked at. *)
Variable requests_post : string -> string -> result unit.
(** The value of a member of [Key], from [utils.py]. *)
Variable Key_value : Key -> string.
(** [Source[name].value], from [utils.py]: [None] when [Source] has no
    member of that name. *)
Variable Source_value : string -> option string.
(** [ET.tostring(ET.Element(tag, attributes)).decode()]. *)
Variable ET_tostring : string -> list (string * string) -> string.
(** The template [templates/avt_transport_uri.xml] read and filled with
    the URL. *)
Variable render_template : string -> result string.

Local Open Scope Cmd_scope.

Definition http_post (url data : string) : Cmd unit :=
  fun s =>
    (match requests_post url data with
     | Ok _ => Returned tt
     | Raise e => Raised (Builtin e)
     end,
     {| state := state s; posted := posted s ++ [(url, data)] |}).

Definition self_ {A : Type} (field : SoundTouchDevice -> A) : Cmd A :=
  run (gets field).

Definition select_preset (preset : Preset.t) : Cmd unit :=
  url <- self_ (fun self => (base_url self ++ "/select")%string) ;;
  http_post url (Preset._source_xml preset).

(** [select_content_item], given the value of the source. *)
Definition select_content_item (source_value : string)
    (source_account location media_type : option string) : Cmd unit :=
  let attributes := [("source", source_value)] in
  let attributes :=
    if truthy source_account
    then attributes ++ [("sourceAccount", fmt source_account)]
    else attributes in
  let attributes :=
    if truthy location then attributes ++ [("location", fmt location)]
    else attributes in
  let attributes :=
    if truthy media_type then attributes ++ [("type", fmt media_type)]
    else attributes in
  let content := ET_tostring "ContentItem" attributes in
  url <- self_ (fun self => (base_url self ++ "/select")%string) ;;
  http_post url content.

Definition create_zone (slaves : list SoundTouchDevice) : Cmd unit :=
  self <- self_ (fun self => self) ;;
  match _create_zone self slaves with
  | Raised e => craise e
  | Returned request_body =>
      http_post (base_url self ++ "/setZone")%string request_body
  end.

Definition add_zone_slave (slaves : list SoundTouchDevice) : Cmd unit :=
  zone <- run (zone_status parseString requests_get true) ;;
  if is_None zone then craise (Soundtouch NoExistingZoneException)
  else
    self <- self_ (fun self => self) ;;
    match _get_zone_request_body self slaves with
    | Raised e => craise e
    | Returned request_body =>
        http_post (base_url self ++ "/addZoneSlave")%string request_body
    end.

Definition remove_zone_slave (slaves : list SoundTouchDevice) : Cmd unit :=
  zone <- run (zone_status parseString requests_get true) ;;
  if is_None zone then craise (Soundtouch NoExistingZoneException)
  else
    self <- self_ (fun self => self) ;;
    match _get_zone_request_body self slaves with
    | Raised e => craise e
    | Returned request_body =>
        http_post (base_url self ++ "/removeZoneSlave")%string request_body
    end.

Definition _send_key (key : string) : Cmd unit :=
  let press :=
    ("<key state=" ++ quoted "press" ++ " sender=" ++ quoted "Gabbo" ++ ">"
     ++ key ++ "</key>")%string in
  let release :=
    ("<key state=" ++ quoted "release" ++ " sender=" ++ quoted "Gabbo" ++ ">"
     ++ key ++ "</key>")%string in
  url <- self_ (fun self => (base_url self ++ "/key")%string) ;;
  http_post url press ;;
  url <- self_ (fun self => (base_url self ++ "/key")%string) ;;
  http_post url release.

Definition play_url (url : string) : Cmd unit :=
  if negb (String.prefix "http://" url)
  then craise (Soundtouch SoundtouchInvalidUrlException)
  else
    body <- run (lift (render_template url)) ;;
    target <- self_ (fun self =>
      ("http://" ++ _host self ++ ":" ++ py_str (_dlna_port self)
       ++ "/AVTransport/Control")%string) ;;
    http_post target body.

Definition mute : Cmd unit := _send_key (Key_value MUTE).
Definition volume_up : Cmd unit := _send_key (Key_value VOLUME_UP).
Definition volume_down : Cmd unit := _send_key (Key_value VOLUME_DOWN).
Definition next_track : Cmd unit := _send_key (Key_value NEXT_TRACK).
Definition previous_track : Cmd unit := _send_key (Key_value PREV_TRACK).
Definition pause : Cmd unit := _send_key (Key_value PAUSE).
Definition play : Cmd unit := _send_key (Key_value PLAY).
Definition play_pause : Cmd unit := _send_key (Key_value PLAY_PAUSE).
Definition repeat_off : Cmd unit := _send_key (Key_value REPEAT_OFF).
Definition repeat_one : Cmd unit := _send_key (Key_value REPEAT_ONE).
Definition repeat_all : Cmd unit := _send_key (Key_value REPEAT_ALL).

Definition shuffle (shuffle : bool) : Cmd unit :=
  if shuffle then _send_key (Key_value SHUFFLE_ON)
  else _send_key (Key_value SHUFFLE_OFF).

(** [self.status().source], the status being what [status()] returned. *)
Definition status_source : Cmd (option string) :=
  status <- run (status parseString requests_get true) ;;
  match status with
  | Some status => cret (Status._source status)
  | None => craise (Builtin AttributeError)
  end.

Definition power_on : Cmd unit :=
  source <- status_source ;;
  if py_eq_str source STATE_STANDBY then _send_key (Key_value POWER)
  else cret tt.

Definition power_off : Cmd unit :=
  source <- status_source ;;
  if negb (py_eq_str source STATE_STANDBY) then _send_key (Key_value POWER)
  else cret tt.

Definition snapshot : Cmd unit :=
  status <- run (status parseString requests_get true) ;;
  match status with
  | Some status =>
      match Status._content_item status with
      | Some item => run (assign set_snapshot (Some item))
      | None => cret tt
      end
  | None => cret tt
  end.

Definition restore : Cmd unit :=
  snapshot <- self_ _snapshot ;;
  match snapshot with
  | Some item =>
      match match ContentItem._source item with
            | Some name => Source_value name
            | None => None
            end with
      | Some source_value =>
          select_content_item source_value
            (ContentItem._source_account item)
            (ContentItem._location item) (ContentItem._type item)
      | None => craise (Builtin KeyError)
      end
  | None => cret tt
  end.

Definition select_source_aux : Cmd unit :=
  match Source_value "AUX" with
  | Some value => select_content_item value (Some value) None None
  | None => craise (Builtin AttributeError)
  end.

Definition select_source_bluetooth : Cmd unit :=
  match Source_value "BLUETOOTH" with
  | Some value => select_content_item value None None None
  | None => craise (Builtin AttributeError)
  end.

End Commands.

(** *** What a registry promises *)

(** [add] appends the callback, once more if it is there already;
    [remove] drops its first registration when there is one and does
    nothing, without an error, when there is none. *)
Definition registry_contract
    (registry : SoundTouchDevice -> list callback)
    (add remove : SoundTouchDevice -> callback -> result SoundTouchDevice)
    : Prop :=
  forall (self : SoundTouchDevice) (listener : callback),
    (exists self',
       add self listener = Ok self'
       /\ registry self' = registry self ++ [listener]
       /\ count_occ Nat.eq_dec (registry self') listener
          = S (count_occ Nat.eq_dec (registry self) listener))
    /\ (In listener (registry self) ->
        exists before after self',
          registry self = before ++ listener :: after
          /\ ~ In listener before
          /\ remove self listener = Ok self'
          /\ registry self' = before ++ after)
    /\ (~ In listener (registry self) -> remove self listener = Ok self).

(** *** What a frame may touch *)

(** The action tag under which a value is dispatched. *)
Definition category_of (value : payload) : string :=
  match value with
  | VolumeValue _ => "volumeUpdated"
  | StatusValue _ => "nowPlayingUpdated"
  | PresetsValue _ => "presetsUpdated"
  | ZoneStatusValue _ => "zoneUpdated"
  | ConfigValue _ => "infoUpdated"
  end.

(** The registry whose callbacks receive a value. *)
Definition registry_of (value : payload) (d : SoundTouchDevice) : list callback :=
  match value with
  | VolumeValue _ => _volume_updated_listeners d
  | StatusValue _ => _status_updated_listeners d
  | PresetsValue _ => _presets_updated_listeners d
  | ZoneStatusValue _ => _zone_status_updated_listeners d
  | ConfigValue _ => _device_info_updated_listeners d
  end.

Definition known_actions : list string :=
  ["volumeUpdated"; "nowPlayingUpdated"; "presetsUpdated"; "zoneUpdated";
   "infoUpdated"].

(** [w'] differs from [w] in the category [action] at most: the cached
    field of every other category is the same, the five registries are
    the same, and the calls added are calls of callbacks registered for
    [action], with a value of that category. *)
Record touches_only (action : string) (w w' : world) : Prop := {
  same_volume :
    action <> "volumeUpdated" -> _volume (device w') = _volume (device w);
  same_status :
    action <> "nowPlayingUpdated" -> _status (device w') = _status (device w);
  same_presets :
    action <> "presetsUpdated" -> _presets (device w') = _presets (device w);
  same_zone_status :
    action <> "zoneUpdated"
    -> _zone_status (device w') = _zone_status (device w);
  same_config :
    action <> "infoUpdated" -> _config (device w') = _config (device w);
  same_registries :
    forall value, registry_of value (device w') = registry_of value (device w);
  calls_of_category :
    exists calls,
      invoked w' = invoked w ++ calls
      /\ Forall (fun c => category_of (snd c) = action
                          /\ In (fst c) (registry_of (snd c) (device w)))
           calls
}.

(** [m] run from a world reached from [w0] within the category [action]
    ends in such a world, whether it returns or raises. *)
Definition keeps {A : Type} (action : string) (w0 : world) (m : M A) : Prop :=
  forall w, touches_only action w0 w -> touches_only action w0 (snd (m w)).

(** *** Loops that stop at the first failure *)

(** What the loop [for x in xs: out.append(f(x))] has appended when it
    ends, and the exception that ended it, if any. *)
Fixpoint read_until_failure {A B : Type} (f : A -> result B) (xs : list A)
    : list B * option exn :=
  match xs with
  | [] => ([], None)
  | x :: rest =>
      match f x with
      | Ok y => let (ys, e) := read_until_failure f rest in (y :: ys, e)
      | Raise e => ([], Some e)
      end
  end.

Definition ended_with (e : option exn) : result unit :=
  match e with
  | None => Ok tt
  | Some e => Raise e
  end.

(** *** Reading strings and elements *)

Definition first_char (s : string) : option ascii :=
  match s with
  | EmptyString => None
  | String c _ => Some c
  end.

Fixpoint last_char (s : string) : option ascii :=
  match s with
  | EmptyString => None
  | String c s' =>
      match last_char s' with
      | Some d => Some d
      | None => Some c
      end
  end.

(** The value of an attribute of an element, if it has it. *)
Definition attribute_of (name : string) (n : node) : option string :=
  match attributes n with
  | Some a => lookup name a
  | None => None
  end.

(** *** The texts a status is read from *)

(** The call ended without an exception. *)
Definition returns {A : Type} (r : result A) : bool :=
  match r with
  | Ok _ => true
  | Raise _ => false
  end.

(** The elements whose text [Status] reads with
    [_get_dom_element_value]. *)
Definition Status_text_elements : list string :=
  ["track"; "artist"; "album"; "art"; "time"; "playStatus";
   "shuffleSetting"; "repeatSetting"; "streamType"; "trackID";
   "stationName"; "description"; "stationLocation"].

(** The texts of a status payload can be extracted: none of these
    elements, nor the [itemName] of the first [ContentItem], makes
    [_get_dom_element_value] raise: the payload is a document or an
    element, and the first element of each name is empty or starts with
    a text or comment node. *)
Definition Status_texts_readable (xml_dom : node) : bool :=
  forallb
    (fun element => returns (_get_dom_element_value xml_dom element None))
    Status_text_elements
  && match _get_dom_element xml_dom "ContentItem" with
     | Ok (Some item) => returns (_get_dom_element_value item "itemName" None)
     | _ => true
     end.

(** ** Sample inputs *)

Definition volume_frame : string :=
  "<updates><volumeUpdated><volume><actualvolume>30</actualvolume><targetvolume>32</targetvolume><muteenabled>false</muteenabled></volume></volumeUpdated></updates>".

Definition volume_dom : node :=
  Document [Element "updates" [] [Element "volumeUpdated" [] [
    Element "volume" [] [
      Element "actualvolume" [] [Text "30"];
      Element "targetvolume" [] [Text "32"];
      Element "muteenabled" [] [Text "false"]]]]].

Definition empty_updates_frame : string := "<updates/>".
Definition empty_updates_dom : node := Document [Element "updates" [] []].

Definition truncated_frame : string := "<updates><volumeUpdated>".

Definition zone_frame : string := "<updates><zoneUpdated><zone/></zoneUpdated></updates>".
Definition zone_frame_dom : node :=
  Document [Element "updates" [] [Element "zoneUpdated" [] [
    Element "zone" [] []]]].

Definition zone_text : string :=
  "<zone master='A0B1C2'><member ipaddress='192.168.1.3'>D3E4F5</member></zone>".
Definition zone_dom : node :=
  Document [Element "zone" [("master", "A0B1C2")] [
    Element "member" [("ipaddress", "192.168.1.3")] [Text "D3E4F5"]]].

(** The frame a device sends first on a new connection. *)
Definition sdk_info_frame : string :=
  "<SoundTouchSdkInfo serverVersion='4' serverBuild='trunk'/>".
Definition sdk_info_dom : node :=
  Document [Element "SoundTouchSdkInfo"
              [("serverVersion", "4"); ("serverBuild", "trunk")] []].

Definition presets_frame : string :=
  "<updates><presetsUpdated><presets><preset id='1'><ContentItem source='TUNEIN' location='/v1/playback/station/s1'><itemName>Radio</itemName></ContentItem></preset></presets></presetsUpdated></updates>".
Definition presets_dom : node :=
  Document [Element "updates" [] [Element "presetsUpdated" [] [
    Element "presets" [] [
      Element "preset" [("id", "1")] [
        Element "ContentItem"
          [("source", "TUNEIN"); ("location", "/v1/playback/station/s1")]
          [Element "itemName" [] [Text "Radio"]]]]]]].

Definition empty_presets_frame : string := "<updates><presetsUpdated/></updates>".
Definition empty_presets_dom : node :=
  Document [Element "updates" [] [Element "presetsUpdated" [] []]].

(** A now-playing payload: a track 42 seconds into its 237, with an
    [art] element that holds a URL but is flagged as having no image. *)
Definition now_playing (time_attrs : list (string * string)) : node :=
  Element "nowPlayingUpdated" [] [
    Element "nowPlaying" [("source", "SPOTIFY")] [
      Element "track" [] [Text "Song"];
      Element "art" [("artImageStatus", "IMAGE_NOT_PRESENT")]
        [Text "http://192.168.1.2/art.png"];
      Element "time" time_attrs [Text "42"]]].

(** A volume payload that lacks its [actualvolume] element. *)
Definition volume_without_actual : node :=
  Element "volume" [] [
    Element "targetvolume" [] [Text "32"];
    Element "muteenabled" [] [Text "false"]].

(** A volume payload that lacks its [targetvolume] element. *)
Definition volume_without_target (actual : string) : node :=
  Element "volume" [] [
    Element "actualvolume" [] [Text actual];
    Element "muteenabled" [] [Text "false"]].

(** A complete volume payload. *)
Definition volume_payload : node :=
  Element "volume" [] [
    Element "actualvolume" [] [Text "30"];
    Element "targetvolume" [] [Text "32"];
    Element "muteenabled" [] [Text "false"]].

(** A now-playing payload without a [time] element. *)
Definition now_playing_without_time : node :=
  Element "nowPlayingUpdated" [] [
    Element "nowPlaying" [("source", "SPOTIFY")] [
      Element "track" [] [Text "Song"]]].

(** The frames above as [minidom.parseString] reads them; it is consulted
    on these frames only. *)
Definition sample_parseString (s : string) : result node :=
  if String.eqb s volume_frame then Ok volume_dom
  else if String.eqb s empty_updates_frame then Ok empty_updates_dom
  else if String.eqb s zone_frame then Ok zone_frame_dom
  else if String.eqb s zone_text then Ok zone_dom
  else if String.eqb s sdk_info_frame then Ok sdk_info_dom
  else if String.eqb s presets_frame then Ok presets_dom
  else if String.eqb s empty_presets_frame then Ok empty_presets_dom
  else Raise ExpatError.

(** The device answers [/getZone]; any other request fails. *)
Definition sample_requests_get (url : string) : result string :=
  if String.eqb url "http://192.168.1.2:8090/getZone" then Ok zone_text
  else Raise RequestException.

Definition sample_toxml (n : node) : string :=
  ("<" ++ nodeName n ++ "/>")%string.

(** Every callback returns, except callback 13, which raises. *)
Definition sample_call (listener : callback) (value : payload) : result unit :=
  if Nat.eqb listener 13 then Raise (ListenerError listener) else Ok tt.

Definition sample_config : Config.t :=
  {| Config._id := Some "A0B1C2"; Config._name := Some "Kitchen";
     Config._type := Some "SoundTouch 10"; Config._account_uuid := None;
     Config._module_type := None; Config._variant := None;
     Config._variant_mode := None; Config._country_code := None;
     Config._region_code := None; Config._networks := [];
     Config._components := [] |}.

Definition sample_device : SoundTouchDevice :=
  {| _host := "192.168.1.2"; _port := 8090; _ws_port := 8080;
     _dlna_port := 8091; _config := sample_config; _status := None;
     _volume := None; _zone_status := None; _presets := None;
     _volume_updated_listeners := [1; 2; 1]%nat;
     _status_updated_listeners := [3]%nat;
     _presets_updated_listeners := [4; 5]%nat;
     _zone_status_updated_listeners := [6]%nat;
     _device_info_updated_listeners := [7]%nat;
     _snapshot := None |}.

Definition sample_world : world :=
  {| device := sample_device; requested := []; invoked := [] |}.

Definition sample_on_message : string -> M unit :=
  _on_message sample_parseString sample_requests_get sample_toxml sample_call.

Definition sample_volume : Volume.t :=
  {| Volume._actual := 30; Volume._target := 32; Volume._muted := false |}.

Definition sample_preset : Preset.t :=
  {| Preset._name := Some "Radio"; Preset._id := Some "1";
     Preset._source := Some "TUNEIN"; Preset._type := None;
     Preset._location := Some "/v1/playback/station/s1";
     Preset._source_account := None; Preset._is_presetable := false;
     Preset._source_xml := "<ContentItem/>" |}.

(** *** More frames, answers and collaborators *)

Definition now_playing_frame : string :=
  "<updates><nowPlayingUpdated><nowPlaying source='SPOTIFY'><ContentItem source='SPOTIFY' type='uri' location='spotify:track:1' sourceAccount='user'><itemName>Song</itemName></ContentItem><track>Song</track><time total='237'>42</time></nowPlaying></nowPlayingUpdated></updates>".
Definition now_playing_dom : node :=
  Document [Element "updates" [] [Element "nowPlayingUpdated" [] [
    Element "nowPlaying" [("source", "SPOTIFY")] [
      Element "ContentItem"
        [("source", "SPOTIFY"); ("type", "uri");
         ("location", "spotify:track:1"); ("sourceAccount", "user")]
        [Element "itemName" [] [Text "Song"]];
      Element "track" [] [Text "Song"];
      Element "time" [("total", "237")] [Text "42"]]]]].

Definition info_frame : string := "<updates><infoUpdated/></updates>".
Definition info_frame_dom : node :=
  Document [Element "updates" [] [Element "infoUpdated" [] []]].

Definition info_text : string :=
  "<info deviceID='A0B1C2'><name>Kitchen</name><type>SoundTouch 10</type><networkInfo type='SCM'><macAddress>A0B1C2</macAddress><ipAddress>192.168.1.2</ipAddress></networkInfo><networkInfo type='SMSC'><macAddress>D3E4F5</macAddress><ipAddress>192.168.1.9</ipAddress></networkInfo></info>".
Definition info_dom : node :=
  Document [Element "info" [("deviceID", "A0B1C2")] [
    Element "name" [] [Text "Kitchen"];
    Element "type" [] [Text "SoundTouch 10"];
    Element "networkInfo" [("type", "SCM")] [
      Element "macAddress" [] [Text "A0B1C2"];
      Element "ipAddress" [] [Text "192.168.1.2"]];
    Element "networkInfo" [("type", "SMSC")] [
      Element "macAddress" [] [Text "D3E4F5"];
      Element "ipAddress" [] [Text "192.168.1.9"]]]].

(** A presets frame whose second preset has no content item. *)
Definition bad_presets_frame : string :=
  "<updates><presetsUpdated><presets><preset id='1'><ContentItem source='TUNEIN'><itemName>Radio</itemName></ContentItem></preset><preset id='2'/></presets></presetsUpdated></updates>".
Definition bad_presets_dom : node :=
  Document [Element "updates" [] [Element "presetsUpdated" [] [
    Element "presets" [] [
      Element "preset" [("id", "1")] [
        Element "ContentItem" [("source", "TUNEIN")]
          [Element "itemName" [] [Text "Radio"]]];
      Element "preset" [("id", "2")] []]]]].

Definition standby_text : string :=
  "<nowPlaying source='STANDBY'><ContentItem source='STANDBY' isPresetable='true'/></nowPlaying>".
Definition standby_dom : node :=
  Document [Element "nowPlaying" [("source", "STANDBY")] [
    Element "ContentItem" [("source", "STANDBY"); ("isPresetable", "true")]
      []]].

Definition volume_text : string :=
  "<volume><actualvolume>30</actualvolume><targetvolume>32</targetvolume><muteenabled>false</muteenabled></volume>".
Definition volume_text_dom : node :=
  Document [Element "volume" [] [
    Element "actualvolume" [] [Text "30"];
    Element "targetvolume" [] [Text "32"];
    Element "muteenabled" [] [Text "false"]]].

(** These documents too, as [minidom.parseString] reads them. *)
Definition more_parseString (s : string) : result node :=
  if String.eqb s now_playing_frame then Ok now_playing_dom
  else if String.eqb s info_frame then Ok info_frame_dom
  else if String.eqb s info_text then Ok info_dom
  else if String.eqb s bad_presets_frame then Ok bad_presets_dom
  else if String.eqb s standby_text then Ok standby_dom
  else if String.eqb s volume_text then Ok volume_text_dom
  else sample_parseString s.

(** A device in standby that answers every request for its state. *)
Definition more_requests_get (url : string) : result string :=
  if String.eqb url "http://192.168.1.2:8090/info" then Ok info_text
  else if String.eqb url "http://192.168.1.2:8090/presets" then Ok presets_frame
  else if String.eqb url "http://192.168.1.2:8090/now_playing"
  then Ok standby_text
  else if String.eqb url "http://192.168.1.2:8090/volume" then Ok volume_text
  else sample_requests_get url.

Definition more_on_message : string -> M unit :=
  _on_message more_parseString more_requests_get sample_toxml sample_call.

(** A device that accepts every post. *)
Definition sample_requests_post (url data : string) : result unit := Ok tt.

(** A device that refuses every post. *)
Definition refusing_requests_post (url data : string) : result unit :=
  Raise RequestException.

(** The keys under their own names. *)
Definition sample_Key_value (key : Key) : string :=
  match key with
  | MUTE => "MUTE" | VOLUME_UP => "VOLUME_UP" | VOLUME_DOWN => "VOLUME_DOWN"
  | NEXT_TRACK => "NEXT_TRACK" | PREV_TRACK => "PREV_TRACK"
  | PAUSE => "PAUSE" | PLAY => "PLAY" | PLAY_PAUSE => "PLAY_PAUSE"
  | REPEAT_OFF => "REPEAT_OFF" | REPEAT_ONE => "REPEAT_ONE"
  | REPEAT_ALL => "REPEAT_ALL" | SHUFFLE_ON => "SHUFFLE_ON"
  | SHUFFLE_OFF => "SHUFFLE_OFF" | POWER => "POWER"
  end.

(** Three sources under their own names. *)
Definition sample_Source_value (name : string) : option string :=
  if String.eqb name "STANDBY" || String.eqb name "SPOTIFY"
     || String.eqb name "AUX"
  then Some name else None.

(** A stand-in serialiser: the tag and the names of the attributes. *)
Definition sample_ET_tostring (tag : string) (attributes : list (string * string))
    : string :=
  ("<" ++ tag
   ++ fold_right (fun a rest => (" " ++ fst a ++ rest)%string) EmptyString
        attributes
   ++ "/>")%string.

(** A stand-in template: the URL between two tags. *)
Definition sample_render_template (url : string) : result string :=
  Ok ("<CurrentURI>" ++ url ++ "</CurrentURI>")%string.

Definition sample_session : session :=
  {| state := sample_world; posted := [] |}.

(** A second device, configured from [info_dom]. *)
Definition sample_slave_config : Config.t :=
  {| Config._id := Some "D3E4F5"; Config._name := Some "Bedroom";
     Config._type := Some "SoundTouch 10"; Config._account_uuid := None;
     Config._module_type := None; Config._variant := None;
     Config._variant_mode := None; Config._country_code := None;
     Config._region_code := None;
     Config._networks :=
       [{| Network._type := "SCM"; Network._mac_address := Some "A0B1C2";
           Network._ip_address := Some "192.168.1.2" |};
        {| Network._type := "SMSC"; Network._mac_address := Some "D3E4F5";
           Network._ip_address := Some "192.168.1.9" |}];
     Config._components := [] |}.

Definition sample_slave : SoundTouchDevice :=
  set_config sample_device sample_slave_config.

(** The configuration [info_dom] reads as. *)
Definition sample_slave_config_read : Config.t :=
  {| Config._id := Some "A0B1C2"; Config._name := Some "Kitchen";
     Config._type := Some "SoundTouch 10"; Config._account_uuid := None;
     Config._module_type := None; Config._variant := None;
     Config._variant_mode := None; Config._country_code := None;
     Config._region_code := None;
     Config._networks :=
       [{| Network._type := "SCM"; Network._mac_address := Some "A0B1C2";
           Network._ip_address := Some "192.168.1.2" |};
        {| Network._type := "SMSC"; Network._mac_address := Some "D3E4F5";
           Network._ip_address := Some "192.168.1.9" |}];
     Config._components := [] |}.

(** ** Properties *)

(** [int] and [strip] on the strings tried against Python. *)
Example py_int_examples :
  py_int "237" = Ok 237%Z /\ py_int " 42 " = Ok 42%Z
  /\ py_int "-1_000" = Ok (-1000)%Z /\ py_int "+7" = Ok 7%Z
  /\ py_int "007" = Ok 7%Z /\ py_int EmptyString = Raise ValueError
  /\ py_int "1__0" = Raise ValueError /\ py_int "_1" = Raise ValueError
  /\ py_int "1_" = Raise ValueError /\ py_int "- 12" = Raise ValueError
  /\ py_int "0x10" = Raise ValueError /\ py_int "4.2" = Raise ValueError.
Proof. repeat split. Qed.

Example strip_examples :
  strip "  42 " = "42" /\ strip "a b" = "a b" /\ strip "   " = EmptyString.
Proof. repeat split. Qed.

Lemma world_eta (w : world) :
  {| device := device w; requested := requested w; invoked := invoked w |} = w.
Proof. destruct w; reflexivity. Qed.

(** *** Stepping through monadic code *)

Lemma bind_ret {A B : Type} (a : A) (k : A -> M B) (w : world) :
  mbind (ret a) k w = k a w.
Proof. reflexivity. Qed.

Lemma bind_lift_Ok {A B : Type} (a : A) (k : A -> M B) (w : world) :
  mbind (lift (Ok a)) k w = k a w.
Proof. reflexivity. Qed.

Lemma bind_lift_Raise {A B : Type} (e : exn) (k : A -> M B) (w : world) :
  mbind (lift (Raise e)) k w = (Raise e, w).
Proof. reflexivity. Qed.

Lemma bind_gets {A B : Type} (field : SoundTouchDevice -> A) (k : A -> M B)
    (w : world) :
  mbind (gets field) k w = k (field (device w)) w.
Proof. reflexivity. Qed.

Lemma bind_assign {A B : Type}
    (set : SoundTouchDevice -> A -> SoundTouchDevice) (x : A)
    (k : unit -> M B) (w : world) :
  mbind (assign set x) k w
  = k tt {| device := set (device w) x; requested := requested w;
            invoked := invoked w |}.
Proof. reflexivity. Qed.

Lemma bind_bind {A B C : Type} (m : M A) (k : A -> M B) (k' : B -> M C)
    (w : world) :
  mbind (mbind m k) k' w = mbind m (fun a => mbind (k a) k') w.
Proof.
  unfold mbind. destruct (m w) as [[a|e] w']; reflexivity.
Qed.

Lemma bind_returns {A B : Type} (m : M A) (k : A -> M B) (a : A) (w w' : world) :
  m w = (Ok a, w') -> mbind m k w = k a w'.
Proof. intros H. unfold mbind. rewrite H. reflexivity. Qed.

Lemma bind_raises {A B : Type} (m : M A) (k : A -> M B) (e : exn) (w w' : world) :
  m w = (Raise e, w') -> mbind m k w = (Raise e, w').
Proof. intros H. unfold mbind. rewrite H. reflexivity. Qed.

Ltac mstep :=
  first [ rewrite bind_ret | rewrite bind_lift_Ok | rewrite bind_lift_Raise
        | rewrite bind_gets | rewrite bind_assign | rewrite bind_bind ];
  cbv beta.

Section Run.

Variable call : callback -> payload -> result unit.

Lemma invoke_eq (l : callback) (value : payload) (w : world) :
  invoke call l value w
  = (call l value, {| device := device w; requested := requested w;
                      invoked := invoked w ++ [(l, value)] |}).
Proof. reflexivity. Qed.

(** When every callback of the list returns, all of them are called,
    once each and in the order of the list. *)
Lemma run_listener_all_return (listeners : list callback) (value : payload) :
  (forall l, In l listeners -> call l value = Ok tt) ->
  forall w,
    __run_listener call listeners value w
    = (Ok tt, {| device := device w; requested := requested w;
                 invoked := invoked w
                            ++ map (fun l => (l, value)) listeners |}).
Proof.
  unfold __run_listener.
  induction listeners as [|l ls IH]; intros Hret w; simpl.
  - rewrite app_nil_r, world_eta. reflexivity.
  - unfold mbind. rewrite invoke_eq, (Hret l (or_introl eq_refl)).
    rewrite IH by (intros; apply Hret; right; assumption).
    simpl. rewrite <- app_assoc. reflexivity.
Qed.

(** A callback that raises ends the loop: the callbacks after it are
    not called, and its exception leaves [__run_listener]. *)
Lemma run_listener_stops_at_raise
    (before after : list callback) (l : callback) (e : exn) (value : payload) :
  (forall l', In l' before -> call l' value = Ok tt) ->
  call l value = Raise e ->
  forall w,
    __run_listener call (before ++ l :: after) value w
    = (Raise e, {| device := device w; requested := requested w;
                   invoked := invoked w
                              ++ map (fun l => (l, value)) (before ++ [l]) |}).
Proof.
  unfold __run_listener.
  induction before as [|b bs IH]; intros Hret Hl w; simpl.
  - unfold mbind. rewrite invoke_eq, Hl. reflexivity.
  - unfold mbind. rewrite invoke_eq, (Hret b (or_introl eq_refl)).
    rewrite IH by (try assumption; intros; apply Hret; right; assumption).
    simpl. rewrite <- app_assoc. reflexivity.
Qed.

(** Whatever the callbacks do, [__run_listener] leaves the device and
    the requests alone and calls callbacks of its list only, with the
    value it was given. *)
Lemma run_listener_frame (listeners : list callback) (value : payload) (w : world) :
  let w' := snd (__run_listener call listeners value w) in
  device w' = device w /\ requested w' = requested w
  /\ exists called,
       invoked w' = invoked w ++ map (fun l => (l, value)) called
       /\ incl called listeners.
Proof.
  unfold __run_listener. revert w.
  induction listeners as [|l ls IH]; intros w; simpl.
  - repeat split. exists []. simpl. rewrite app_nil_r. split; [reflexivity|].
    apply incl_refl.
  - unfold mbind. rewrite invoke_eq.
    destruct (call l value) as [[]|e]; simpl.
    + match goal with
      | |- context [for_each ls ?b ?w0] =>
          destruct (IH w0) as (Hd & Hr & called & Hi & Hincl)
      end.
      simpl in *. rewrite Hd, Hr, Hi. repeat split.
      exists (l :: called). simpl. rewrite <- app_assoc. split; [reflexivity|].
      intros x [->|Hx]; [left; reflexivity | right; apply Hincl, Hx].
    + repeat split. exists [l]. split; [reflexivity|].
      intros x [->|[]]; left; reflexivity.
Qed.

End Run.

(** ** [getElementsByTagName] *)

Lemma helper_descendants (name : string) (n : node) :
  forall rc,
    _get_elements_by_tagName_helper n name rc = rc ++ elements_named name n.
Proof.
  unfold elements_named.
  induction n as [cs IH|tag a cs IH|d|d] using node_forall_ind; intros rc;
    simpl; try (rewrite app_nil_r; reflexivity).
  all: revert rc; induction IH as [|c rest Hc _ IHrest]; intros rc; simpl;
    [rewrite app_nil_r; reflexivity|].
  all: rewrite IHrest, Hc, filter_app.
  all: destruct (is_element_named name c); simpl;
    rewrite <- ?app_assoc; reflexivity.
Qed.

(** [getElementsByTagName] returns the elements of that name below the
    node, in document order. *)
Lemma getElementsByTagName_spec (n : node) (name : string) (found : list node) :
  getElementsByTagName n name = Ok found -> found = elements_named name n.
Proof.
  intros H. destruct n; try discriminate H; unfold getElementsByTagName in H;
    rewrite (helper_descendants name _ []) in H; injection H as <-;
    reflexivity.
Qed.

Lemma getElementsByTagName_parent (n child : node) (name : string) :
  firstChild n = Some child ->
  getElementsByTagName n name = Ok (elements_named name n).
Proof.
  intros H. destruct n; try discriminate H; unfold getElementsByTagName;
    rewrite (helper_descendants name _ []); reflexivity.
Qed.

Lemma getElementsByTagName_Ok (n : node) (name : string) :
  is_parent n = true ->
  getElementsByTagName n name = Ok (elements_named name n).
Proof.
  intros H. destruct n; try discriminate H; unfold getElementsByTagName;
    rewrite (helper_descendants name _ []); reflexivity.
Qed.

(** An element is found under a name when it lies below the node and
    carries that tag. *)
Lemma elements_named_In (name : string) (n e : node) :
  name <> "*" ->
  In e (elements_named name n)
  <-> In e (descendants n) /\ exists a cs, e = Element name a cs.
Proof.
  intros Hname. unfold elements_named. rewrite filter_In.
  apply String.eqb_neq in Hname.
  split; intros [Hin He]; (split; [exact Hin|]).
  - destruct e as [|tag a cs| |]; try discriminate. simpl in He.
    rewrite Hname in He. apply String.eqb_eq in He. subst tag. eauto.
  - destruct He as (a & cs & ->). simpl. rewrite String.eqb_refl.
    apply orb_true_r.
Qed.

Lemma elements_named_are_elements (name : string) (n : node) :
  Forall (fun e => exists a, attributes e = Some a) (elements_named name n).
Proof.
  unfold elements_named. apply Forall_forall. intros e He.
  apply filter_In in He. destruct He as [_ He].
  destruct e; try discriminate. simpl. eauto.
Qed.

(** ** The value objects *)

Lemma rbind_Ok {A B : Type} (r : result A) (k : A -> result B) (b : B) :
  rbind r k = Ok b -> exists a, r = Ok a /\ k a = Ok b.
Proof. destruct r as [a|e]; simpl; [eauto | discriminate]. Qed.

(** A loop that completes has read every item, in order. *)
Lemma rmap_Forall2 {A B : Type} (f : A -> result B) (xs : list A) (ys : list B) :
  rmap f xs = Ok ys -> Forall2 (fun x y => f x = Ok y) xs ys.
Proof.
  revert ys. induction xs as [|x xs IH]; simpl; intros ys H.
  - injection H as <-. constructor.
  - destruct (f x) as [y|e] eqn:Hx; [|discriminate].
    destruct (rmap f xs) as [ys'|e]; [|discriminate].
    injection H as <-. constructor; [exact Hx | apply IH; reflexivity].
Qed.

Lemma rmap_total {A B : Type} (f : A -> result B) (xs : list A) :
  Forall (fun x => exists y, f x = Ok y) xs -> exists ys, rmap f xs = Ok ys.
Proof.
  induction 1 as [|x xs [y Hy] _ [ys Hys]]; simpl.
  - eauto.
  - rewrite Hy, Hys. eauto.
Qed.

Lemma get_dom_element_attribute_total (n : node) (element attribute : string) :
  is_parent n = true ->
  exists v, _get_dom_element_attribute n element attribute None = Ok v.
Proof.
  intros Hn. unfold _get_dom_element_attribute, _get_dom_element,
    _get_dom_elements.
  rewrite (getElementsByTagName_Ok n element Hn). simpl.
  pose proof (elements_named_are_elements element n) as Hall.
  destruct (elements_named element n) as [|e es]; simpl; [eauto|].
  inversion Hall as [|? ? [a Ha] _]; subst. rewrite Ha.
  destruct (lookup attribute a); eauto.
Qed.

Lemma ZoneSlave_init_total (member_dom : node) (a : list (string * string)) :
  attributes member_dom = Some a ->
  exists slave, ZoneSlave.__init__ member_dom = Ok slave.
Proof.
  intros Ha. unfold ZoneSlave.__init__, _get_dom_attribute. rewrite Ha.
  destruct (lookup "ipaddress" a), (lookup "role" a); simpl; eauto.
Qed.

(** A zone document always reads as a zone status. *)
Lemma ZoneStatus_init_total (zone_dom : node) :
  is_parent zone_dom = true ->
  exists zone, ZoneStatus.__init__ zone_dom = Ok zone.
Proof.
  intros Hn. unfold ZoneStatus.__init__.
  destruct (get_dom_element_attribute_total zone_dom "zone" "master" Hn)
    as [master ->].
  destruct (get_dom_element_attribute_total zone_dom "zone" "senderIPAddress" Hn)
    as [ip ->].
  unfold _get_dom_elements. rewrite (getElementsByTagName_Ok _ _ Hn). simpl.
  destruct (rmap_total ZoneSlave.__init__ (elements_named "member" zone_dom))
    as [slaves ->]; [|simpl; eauto].
  eapply Forall_impl; [|apply elements_named_are_elements].
  intros e [a Ha]. exact (ZoneSlave_init_total e a Ha).
Qed.

Ltac rinv H :=
  repeat (let a := fresh "x" in
          let E := fresh "E" in
          apply rbind_Ok in H; destruct H as (a & E & H)).

Lemma int_if_present_spec (x : option string) (d : option Z) :
  Status.int_if_present x = Ok d ->
  match x with
  | None => d = None
  | Some s => exists z, py_int s = Ok z /\ d = Some z
  end.
Proof.
  destruct x as [s|]; simpl; intros H.
  - destruct (py_int s) as [z|e]; simpl in H; [|discriminate].
    injection H as <-. eauto.
  - injection H as <-. reflexivity.
Qed.

Lemma py_int_opt_spec (x : option string) (z : Z) :
  py_int_opt x = Ok z -> exists s, x = Some s /\ py_int s = Ok z.
Proof. destruct x as [s|]; simpl; [eauto | discriminate]. Qed.

(** What [Status] reads from the first [time] element. *)
Lemma Status_time (xml_dom : node) (status : Status.t) :
  Status.__init__ xml_dom = Ok status ->
  exists total text,
    _get_dom_element_attribute xml_dom "time" "total" None = Ok total
    /\ _get_dom_element_value xml_dom "time" None = Ok text
    /\ Status.int_if_present total = Ok (Status._duration status)
    /\ Status.int_if_present text = Ok (Status._position status).
Proof.
  intros H. unfold Status.__init__ in H. rinv H. injection H as <-. simpl.
  eauto 10.
Qed.

(** What [Status] reads from the first [art] element. *)
Lemma Status_image (xml_dom : node) (status : Status.t) :
  Status.__init__ xml_dom = Ok status ->
  exists image_status,
    _get_dom_element_attribute xml_dom "art" "artImageStatus" None
    = Ok image_status
    /\ (py_eq_str image_status "IMAGE_PRESENT" = false ->
        Status._image status = None).
Proof.
  intros H. unfold Status.__init__ in H. rinv H. injection H as <-. simpl.
  eexists. split; [eassumption|]. intros Hno.
  match goal with
  | E : (if py_eq_str _ "IMAGE_PRESENT" then _ else _) = Ok _ |- _ =>
      rewrite Hno in E; injection E as <-
  end.
  reflexivity.
Qed.

(** The attribute and the text of an element found by the helpers. *)
Lemma get_dom_element_attribute_found
    (xml_dom : node) (element attribute tag : string)
    (a : list (string * string)) (kids : list node) :
  _get_dom_element xml_dom element = Ok (Some (Element tag a kids)) ->
  _get_dom_element_attribute xml_dom element attribute None
  = Ok (lookup attribute a).
Proof.
  intros H. unfold _get_dom_element_attribute. rewrite H. simpl.
  destruct (lookup attribute a); reflexivity.
Qed.

Lemma get_dom_element_value_found
    (xml_dom : node) (element tag : string)
    (a : list (string * string)) (text : string) (rest : list node) :
  _get_dom_element xml_dom element
  = Ok (Some (Element tag a (Text text :: rest))) ->
  _get_dom_element_value xml_dom element None = Ok (Some (strip text)).
Proof.
  intros H. unfold _get_dom_element_value. rewrite H. reflexivity.
Qed.

(** *** The exceptions of the value objects *)

Lemma rbind_Raise {A B : Type} (r : result A) (k : A -> result B) (e : exn) :
  rbind r k = Raise e -> r = Raise e \/ exists a, r = Ok a /\ k a = Raise e.
Proof.
  destruct r as [a|e']; simpl; intros H.
  - right. exists a. auto.
  - left. injection H as <-. reflexivity.
Qed.

Lemma returns_Ok {A : Type} (r : result A) :
  returns r = true -> exists a, r = Ok a.
Proof. destruct r as [a|e]; [eauto | discriminate]. Qed.

(** [int] raises [ValueError] only. *)
Lemma py_int_raises (s : string) (e : exn) :
  py_int s = Raise e -> e = ValueError.
Proof.
  unfold py_int. cbv zeta.
  match goal with
  | |- match ?numeral with _ => _ end = _ -> _ => destruct numeral
  end; intros H; [discriminate | injection H as <-; reflexivity].
Qed.

Lemma int_if_present_raises (x : option string) (e : exn) :
  Status.int_if_present x = Raise e ->
  e = ValueError /\ exists s, x = Some s /\ py_int s = Raise ValueError.
Proof.
  destruct x as [s|]; simpl; [|discriminate].
  destruct (py_int s) as [z|e'] eqn:Hs; simpl; [discriminate|].
  intros H. injection H as <-.
  pose proof (py_int_raises s e' Hs) as ->. eauto.
Qed.

(** The helpers raise [AttributeError] only. *)
Lemma getElementsByTagName_raises (n : node) (name : string) (e : exn) :
  getElementsByTagName n name = Raise e -> e = AttributeError.
Proof.
  unfold getElementsByTagName.
  destruct n; intros H; try discriminate H; injection H as <-; reflexivity.
Qed.

Lemma get_dom_element_raises (xml_dom : node) (element : string) (e : exn) :
  _get_dom_element xml_dom element = Raise e -> e = AttributeError.
Proof.
  unfold _get_dom_element, _get_dom_elements. intros H.
  apply rbind_Raise in H. destruct H as [H | (elements & _ & H)];
    [exact (getElementsByTagName_raises _ _ _ H)|].
  destruct elements; discriminate.
Qed.

Lemma get_dom_attribute_raises
    (xml_dom : node) (attribute : string) (d : option string) (e : exn) :
  _get_dom_attribute xml_dom attribute d = Raise e -> e = AttributeError.
Proof.
  unfold _get_dom_attribute.
  destruct (attributes xml_dom) as [a|];
    [destruct (lookup attribute a); discriminate|].
  intros H. injection H as <-. reflexivity.
Qed.

Lemma get_dom_element_attribute_raises
    (xml_dom : node) (element attribute : string) (d : option string)
    (e : exn) :
  _get_dom_element_attribute xml_dom element attribute d = Raise e ->
  e = AttributeError.
Proof.
  unfold _get_dom_element_attribute. intros H.
  apply rbind_Raise in H. destruct H as [H | (found & _ & H)];
    [exact (get_dom_element_raises _ _ _ H)|].
  destruct found as [found|]; [|discriminate].
  destruct (attributes found) as [a|];
    [destruct (lookup attribute a); discriminate|].
  injection H as <-. reflexivity.
Qed.

Lemma get_dom_element_value_raises
    (xml_dom : node) (element : string) (d : option string) (e : exn) :
  _get_dom_element_value xml_dom element d = Raise e -> e = AttributeError.
Proof.
  unfold _get_dom_element_value. intros H.
  apply rbind_Raise in H. destruct H as [H | (found & _ & H)];
    [exact (get_dom_element_raises _ _ _ H)|].
  destruct found as [found|]; [|discriminate].
  destruct (firstChild found) as [child|]; [|discriminate].
  destruct (nodeValue child); [discriminate|].
  injection H as <-. reflexivity.
Qed.

Lemma get_dom_element_value_parent
    (xml_dom : node) (element : string) (d v : option string) :
  _get_dom_element_value xml_dom element d = Ok v -> is_parent xml_dom = true.
Proof. destruct xml_dom; try reflexivity; discriminate. Qed.

Ltac raise_inv H :=
  let a := fresh "x" in
  let E := fresh "E" in
  apply rbind_Raise in H; destruct H as [H | (a & E & H)].

Lemma ContentItem_raises (xml_dom : node) (e : exn) :
  ContentItem.__init__ xml_dom = Raise e -> e = AttributeError.
Proof.
  unfold ContentItem.__init__. intros H.
  raise_inv H; [exact (get_dom_element_value_raises _ _ _ _ H)|].
  repeat (raise_inv H; [exact (get_dom_attribute_raises _ _ _ _ H)|]).
  discriminate.
Qed.

Lemma ContentItem_init_total (item : node) (a : list (string * string)) :
  attributes item = Some a ->
  returns (_get_dom_element_value item "itemName" None) = true ->
  exists content_item, ContentItem.__init__ item = Ok content_item.
Proof.
  intros Ha Hname. apply returns_Ok in Hname. destruct Hname as [name Hname].
  unfold ContentItem.__init__, _get_dom_attribute. rewrite Hname, Ha.
  cbn [rbind].
  repeat match goal with
         | |- context [lookup ?key a] => destruct (lookup key a)
         end; cbn [rbind]; eauto.
Qed.

(** A status ends in [AttributeError], raised while the payload is read,
    or in the [ValueError] of a [total] attribute or [time] text that is
    there and is not an integer. *)
Lemma Status_init_raises (xml_dom : node) (e : exn) :
  Status.__init__ xml_dom = Raise e ->
  e = AttributeError
  \/ e = ValueError
     /\ exists s,
          (_get_dom_element_attribute xml_dom "time" "total" None
           = Ok (Some s)
           \/ _get_dom_element_value xml_dom "time" None = Ok (Some s))
          /\ py_int s = Raise ValueError.
Proof.
  unfold Status.__init__. intros H.
  raise_inv H; [left; exact (get_dom_element_attribute_raises _ _ _ _ _ H)|].
  raise_inv H; [left; exact (getElementsByTagName_raises _ _ _ H)|].
  raise_inv H.
  { left.
    match type of H with
    | match ?elements with _ => _ end = _ =>
        destruct elements as [|first others]; [discriminate|]
    end.
    apply rbind_Raise in H. destruct H as [H | (found & _ & H)];
      [exact (get_dom_element_raises _ _ _ H)|].
    apply rbind_Raise in H. destruct H as [H | (item & _ & H)];
      [|discriminate].
    destruct found as [found|]; simpl in H;
      [exact (ContentItem_raises _ _ H) | injection H as <-; reflexivity]. }
  do 3 (raise_inv H; [left; exact (get_dom_element_value_raises _ _ _ _ H)|]).
  raise_inv H; [left; exact (get_dom_element_attribute_raises _ _ _ _ _ H)|].
  raise_inv H.
  { left. destruct (py_eq_str _ _); [|discriminate].
    exact (get_dom_element_value_raises _ _ _ _ H). }
  raise_inv H; [left; exact (get_dom_element_attribute_raises _ _ _ _ _ H)|].
  raise_inv H.
  { right. apply int_if_present_raises in H.
    destruct H as (-> & s & -> & Hs). eauto. }
  raise_inv H; [left; exact (get_dom_element_value_raises _ _ _ _ H)|].
  raise_inv H.
  { right. apply int_if_present_raises in H.
    destruct H as (-> & s & -> & Hs). eauto. }
  repeat (raise_inv H;
          [left; exact (get_dom_element_value_raises _ _ _ _ H)|]).
  discriminate.
Qed.

(** In a payload whose texts can be extracted, what is left of
    [Status.__init__] is the two conversions. *)
Lemma Status_reads (xml_dom : node) (total text : option string) :
  Status_texts_readable xml_dom = true ->
  _get_dom_element_attribute xml_dom "time" "total" None = Ok total ->
  _get_dom_element_value xml_dom "time" None = Ok text ->
  exists build : option Z -> option Z -> Status.t,
    (forall duration position,
       Status._duration (build duration position) = duration
       /\ Status._position (build duration position) = position)
    /\ Status.__init__ xml_dom
       = (duration <- Status.int_if_present total ;;
          position <- Status.int_if_present text ;;
          Ok (build duration position)).
Proof.
  intros Hreadable Htotal Htext.
  pose proof (get_dom_element_value_parent _ _ _ _ Htext) as Hparent.
  apply andb_true_iff in Hreadable. destruct Hreadable as [Hall Hitem].
  assert (Hread : forall element,
             In element Status_text_elements ->
             exists v, _get_dom_element_value xml_dom element None = Ok v).
  { intros element Hin. apply returns_Ok.
    exact (proj1 (forallb_forall _ _) Hall element Hin). }
  assert (Hcontent :
            exists content_item,
              match elements_named "ContentItem" xml_dom with
              | _ :: _ =>
                  found <- _get_dom_element xml_dom "ContentItem" ;;
                  item <- deref found ContentItem.__init__ ;;
                  Ok (Some item)
              | [] => Ok None
              end = Ok content_item).
  { pose proof (elements_named_are_elements "ContentItem" xml_dom) as Helem.
    revert Hitem. unfold _get_dom_element, _get_dom_elements.
    rewrite (getElementsByTagName_Ok _ "ContentItem" Hparent). cbn [rbind].
    destruct (elements_named "ContentItem" xml_dom) as [|first others];
      [eauto|].
    cbn [rbind deref]. intros Hitem.
    inversion Helem as [|? ? [a Ha] _]; subst.
    destruct (ContentItem_init_total first a Ha Hitem) as [item Hinit].
    rewrite Hinit. cbn [rbind]. eauto. }
  unfold Status.__init__.
  destruct (get_dom_element_attribute_total xml_dom "nowPlaying" "source"
              Hparent) as [source ->].
  rewrite (getElementsByTagName_Ok _ "ContentItem" Hparent).
  cbn [rbind]. destruct Hcontent as [content_item ->].
  destruct (get_dom_element_attribute_total xml_dom "art" "artImageStatus"
              Hparent) as [image_status ->].
  rewrite Htotal, Htext.
  destruct (Hread "track") as [track ->]; [simpl; auto 20|].
  destruct (Hread "artist") as [artist ->]; [simpl; auto 20|].
  destruct (Hread "album") as [album ->]; [simpl; auto 20|].
  destruct (Hread "playStatus") as [play_status ->]; [simpl; auto 20|].
  destruct (Hread "shuffleSetting") as [shuffle_setting ->];
    [simpl; auto 20|].
  destruct (Hread "repeatSetting") as [repeat_setting ->]; [simpl; auto 20|].
  destruct (Hread "streamType") as [stream_type ->]; [simpl; auto 20|].
  destruct (Hread "trackID") as [track_id ->]; [simpl; auto 20|].
  destruct (Hread "stationName") as [station_name ->]; [simpl; auto 20|].
  destruct (Hread "description") as [description ->]; [simpl; auto 20|].
  destruct (Hread "stationLocation") as [station_location ->];
    [simpl; auto 20|].
  destruct (Hread "art") as [art Hart]; [simpl; auto 20|].
  cbn [rbind].
  assert (Himage :
            exists image,
              (if py_eq_str image_status "IMAGE_PRESENT"
               then _get_dom_element_value xml_dom "art" None
               else Ok None) = Ok image).
  { destruct (py_eq_str image_status "IMAGE_PRESENT"); eauto. }
  destruct Himage as [image ->]. cbn [rbind].
  exists (fun duration position =>
            {| Status._source := source;
               Status._content_item := content_item;
               Status._track := track; Status._artist := artist;
               Status._album := album; Status._image := image;
               Status._duration := duration; Status._position := position;
               Status._play_status := play_status;
               Status._shuffle_setting := shuffle_setting;
               Status._repeat_setting := repeat_setting;
               Status._stream_type := stream_type;
               Status._track_id := track_id;
               Status._station_name := station_name;
               Status._description := description;
               Status._station_location := station_location |}).
  split; [intros; split; reflexivity | reflexivity].
Qed.

(** In such a payload a status is constructed when the [total]
    attribute and the [time] text, each if it is there, read as
    integers; what is absent gives an absent field. *)
Lemma Status_constructed (xml_dom : node) (total text : option string) :
  Status_texts_readable xml_dom = true ->
  _get_dom_element_attribute xml_dom "time" "total" None = Ok total ->
  _get_dom_element_value xml_dom "time" None = Ok text ->
  (forall s, total = Some s -> exists z, py_int s = Ok z) ->
  (forall s, text = Some s -> exists z, py_int s = Ok z) ->
  exists status,
    Status.__init__ xml_dom = Ok status
    /\ (total = None -> Status._duration status = None)
    /\ (text = None -> Status._position status = None).
Proof.
  intros Hreadable Htotal Htext Hnt Hnx.
  destruct (Status_reads xml_dom total text Hreadable Htotal Htext)
    as (build & Hbuild & ->).
  assert (Hd : exists d, Status.int_if_present total = Ok d
                         /\ (total = None -> d = None)).
  { destruct total as [s|]; simpl.
    - destruct (Hnt s eq_refl) as [z ->]. simpl. eexists.
      split; [reflexivity | discriminate].
    - eauto. }
  assert (Hp : exists p, Status.int_if_present text = Ok p
                         /\ (text = None -> p = None)).
  { destruct text as [s|]; simpl.
    - destruct (Hnx s eq_refl) as [z ->]. simpl. eexists.
      split; [reflexivity | discriminate].
    - eauto. }
  destruct Hd as (d & -> & Hd), Hp as (p & -> & Hp). cbn [rbind].
  exists (build d p). destruct (Hbuild d p) as [-> ->]. auto.
Qed.

(** In such a payload a status ends in no other exception than the
    [ValueError] of a conversion. *)
Lemma Status_readable_raises (xml_dom : node) (e : exn) :
  Status_texts_readable xml_dom = true ->
  Status.__init__ xml_dom = Raise e ->
  e = ValueError.
Proof.
  intros Hreadable H.
  assert (Htext : exists text,
             _get_dom_element_value xml_dom "time" None = Ok text).
  { apply andb_true_iff in Hreadable. destruct Hreadable as [Hall _].
    apply returns_Ok.
    apply (proj1 (forallb_forall _ _) Hall "time"). simpl. auto 20. }
  destruct Htext as [text Htext].
  pose proof (get_dom_element_value_parent _ _ _ _ Htext) as Hparent.
  destruct (get_dom_element_attribute_total xml_dom "time" "total" Hparent)
    as [total Htotal].
  destruct (Status_reads xml_dom total text Hreadable Htotal Htext)
    as (build & _ & Hrun).
  rewrite Hrun in H.
  raise_inv H; [exact (proj1 (int_if_present_raises _ _ H))|].
  raise_inv H; [exact (proj1 (int_if_present_raises _ _ H))|].
  discriminate.
Qed.

(** ** What a computation may touch *)

Lemma touches_only_refl (action : string) (w : world) : touches_only action w w.
Proof.
  split; try reflexivity. exists []. rewrite app_nil_r. split; constructor.
Qed.

(** A step that keeps the registries, changes of the cached fields only
    those allowed for [action], and adds calls of the category only,
    extends what has been established from [w0]. *)
Lemma touches_only_step (action : string) (w0 w w' : world)
    (calls : list (callback * payload)) :
  touches_only action w0 w ->
  (action <> "volumeUpdated" -> _volume (device w') = _volume (device w)) ->
  (action <> "nowPlayingUpdated" -> _status (device w') = _status (device w)) ->
  (action <> "presetsUpdated" -> _presets (device w') = _presets (device w)) ->
  (action <> "zoneUpdated"
   -> _zone_status (device w') = _zone_status (device w)) ->
  (action <> "infoUpdated" -> _config (device w') = _config (device w)) ->
  (forall value, registry_of value (device w') = registry_of value (device w)) ->
  invoked w' = invoked w ++ calls ->
  Forall (fun c => category_of (snd c) = action
                   /\ In (fst c) (registry_of (snd c) (device w0))) calls ->
  touches_only action w0 w'.
Proof.
  intros [Hv Hs Hp Hz Hc Hr (calls0 & Hi & Hcalls)] Hv' Hs' Hp' Hz' Hc' Hr' Hi'
    Hcalls'.
  split; intros.
  - rewrite Hv', Hv by assumption. reflexivity.
  - rewrite Hs', Hs by assumption. reflexivity.
  - rewrite Hp', Hp by assumption. reflexivity.
  - rewrite Hz', Hz by assumption. reflexivity.
  - rewrite Hc', Hc by assumption. reflexivity.
  - rewrite Hr', Hr. reflexivity.
  - exists (calls0 ++ calls). rewrite Hi', Hi, app_assoc. split; [reflexivity|].
    apply Forall_app. split; assumption.
Qed.

Section Keeps.

Variable action : string.
Variable w0 : world.

Lemma keeps_ret {A : Type} (a : A) : keeps action w0 (ret a).
Proof. intros w Hw. exact Hw. Qed.

Lemma keeps_lift {A : Type} (r : result A) : keeps action w0 (lift r).
Proof. intros w Hw. exact Hw. Qed.

Lemma keeps_gets {A : Type} (field : SoundTouchDevice -> A) :
  keeps action w0 (gets field).
Proof. intros w Hw. exact Hw. Qed.

Lemma keeps_bind {A B : Type} (m : M A) (k : A -> M B) :
  keeps action w0 m -> (forall a, keeps action w0 (k a)) ->
  keeps action w0 (mbind m k).
Proof.
  intros Hm Hk w Hw. specialize (Hm w Hw). unfold mbind.
  destruct (m w) as [[a|e] w1]; simpl in *; [apply Hk|]; assumption.
Qed.

(** A value read from the device may be used knowing the world it was
    read in. *)
Lemma keeps_bind_gets {A B : Type} (field : SoundTouchDevice -> A)
    (k : A -> M B) :
  (forall w, touches_only action w0 w -> keeps action w0 (k (field (device w)))) ->
  keeps action w0 (mbind (gets field) k).
Proof. intros Hk w Hw. rewrite bind_gets. exact (Hk w Hw w Hw). Qed.

Lemma keeps_when (cond : bool) (body : M unit) :
  (cond = true -> keeps action w0 body) -> keeps action w0 (when cond body).
Proof.
  intros Hbody. destruct cond; simpl; [auto | apply keeps_ret].
Qed.

Lemma keeps_for_each {A : Type} (xs : list A) (body : A -> M unit) :
  (forall x, keeps action w0 (body x)) -> keeps action w0 (for_each xs body).
Proof.
  intros Hbody. induction xs as [|x xs IH]; simpl.
  - apply keeps_ret.
  - apply keeps_bind; [apply Hbody | intros _; exact IH].
Qed.

Lemma keeps_assign_volume (x : option Volume.t) :
  action = "volumeUpdated" -> keeps action w0 (assign set_volume x).
Proof.
  intros Ha w Hw.
  apply (touches_only_step action w0 w _ []); simpl; auto;
    try congruence; try (destruct value; reflexivity).
  rewrite app_nil_r; reflexivity.
Qed.

Lemma keeps_assign_status (x : option Status.t) :
  action = "nowPlayingUpdated" -> keeps action w0 (assign set_status x).
Proof.
  intros Ha w Hw.
  apply (touches_only_step action w0 w _ []); simpl; auto;
    try congruence; try (destruct value; reflexivity).
  rewrite app_nil_r; reflexivity.
Qed.

Lemma keeps_assign_presets (x : option (list Preset.t)) :
  action = "presetsUpdated" -> keeps action w0 (assign set_presets x).
Proof.
  intros Ha w Hw.
  apply (touches_only_step action w0 w _ []); simpl; auto;
    try congruence; try (destruct value; reflexivity).
  rewrite app_nil_r; reflexivity.
Qed.

Lemma keeps_assign_zone_status (x : option ZoneStatus.t) :
  action = "zoneUpdated" -> keeps action w0 (assign set_zone_status x).
Proof.
  intros Ha w Hw.
  apply (touches_only_step action w0 w _ []); simpl; auto;
    try congruence; try (destruct value; reflexivity).
  rewrite app_nil_r; reflexivity.
Qed.

Lemma keeps_assign_config (x : Config.t) :
  action = "infoUpdated" -> keeps action w0 (assign set_config x).
Proof.
  intros Ha w Hw.
  apply (touches_only_step action w0 w _ []); simpl; auto;
    try congruence; try (destruct value; reflexivity).
  rewrite app_nil_r; reflexivity.
Qed.

Lemma keeps_append_preset (preset : Preset.t) :
  action = "presetsUpdated" -> keeps action w0 (append_preset preset).
Proof.
  intros Ha. unfold append_preset. apply keeps_bind; [apply keeps_gets|].
  intros [ps|]; [apply keeps_assign_presets; exact Ha | apply keeps_lift].
Qed.

Variable requests_get : string -> result string.
Variable call : callback -> payload -> result unit.

Lemma keeps_http_get (url : string) :
  keeps action w0 (http_get requests_get url).
Proof.
  intros w Hw.
  apply (touches_only_step action w0 w _ []); simpl; auto.
  rewrite app_nil_r; reflexivity.
Qed.

Lemma keeps_run_listener (listeners : list callback) (value : payload) :
  category_of value = action ->
  incl listeners (registry_of value (device w0)) ->
  keeps action w0 (__run_listener call listeners value).
Proof.
  intros Hcat Hincl w Hw.
  destruct (run_listener_frame call listeners value w)
    as (Hd & _ & called & Hi & Hcalled).
  apply (touches_only_step action w0 w _
           (map (fun l => (l, value)) called) Hw);
    try (rewrite Hd; reflexivity).
  - exact Hi.
  - apply Forall_forall. intros [l v] Hin. apply in_map_iff in Hin.
    destruct Hin as (l' & [= <- <-] & Hl'). simpl. split; [exact Hcat|].
    apply Hincl, Hcalled, Hl'.
Qed.

End Keeps.

Section Handler.

Variable parseString : string -> result node.
Variable requests_get : string -> result string.
Variable toxml : node -> string.
Variable call : callback -> payload -> result unit.

Local Abbreviation on_message :=
  (_on_message parseString requests_get toxml call).

(** The handler up to the point where the action is known. *)
Lemma on_message_not_updates (message : string) (dom root : node) (w : world) :
  parseString message = Ok dom ->
  firstChild dom = Some root ->
  nodeName root <> "updates" ->
  on_message message w = (Ok tt, w).
Proof.
  intros Hparse Hroot Hname.
  unfold _on_message, mbind, lift. rewrite Hparse, Hroot. simpl.
  apply String.eqb_neq in Hname. rewrite Hname. reflexivity.
Qed.

(** C10: an [updates] element without any child makes the handler fail:
    the tag name of the missing first child is read from [None], which
    raises [AttributeError]; nothing has been touched by then. *)
Theorem empty_updates_raises
    (message : string) (dom root : node) (w : world) :
  parseString message = Ok dom ->
  firstChild dom = Some root ->
  nodeName root = "updates" ->
  childNodes root = [] ->
  on_message message w = (Raise AttributeError, w).
Proof.
  intros Hparse Hroot Hname Hkids.
  unfold _on_message, mbind, lift. rewrite Hparse, Hroot. simpl.
  rewrite Hname. simpl. unfold firstChild. rewrite Hkids. reflexivity.
Qed.

(** C5: a frame whose root element is not named [updates] changes
    nothing and calls nobody: the handler returns with the world as it
    found it. *)
Theorem other_root_is_ignored
    (message : string) (children : list node) (root : node) (w : world) :
  parseString message = Ok (Document children) ->
  documentElement (Document children) = Some root ->
  nodeName root <> "updates" ->
  on_message message w = (Ok tt, w).
Proof.
  intros Hparse Hdoc Hname.
  destruct children as [|first rest]; [discriminate|].
  apply (on_message_not_updates message (Document (first :: rest)) first);
    [assumption | reflexivity |].
  destruct first; simpl in *; try discriminate.
  injection Hdoc as <-. exact Hname.
Qed.

(** C3, as the code has it: a failure while parsing a frame is not
    caught in the handler. The exception of [minidom.parseString]
    leaves [_on_message], and so does the exception raised while a
    volume or now-playing payload of an unexpected shape is read; in
    each case no cached value has changed and no callback has run. *)
Theorem parse_failure_propagates (message : string) (e : exn) (w : world) :
  (parseString message = Raise e ->
   on_message message w = (Raise e, w))
  /\ (forall dom root action_node,
        parseString message = Ok dom ->
        firstChild dom = Some root ->
        nodeName root = "updates" ->
        firstChild root = Some action_node ->
        (nodeName action_node = "volumeUpdated"
         /\ deref (firstChild action_node) Volume.__init__ = Raise e
         \/ nodeName action_node = "nowPlayingUpdated"
            /\ Status.__init__ action_node = Raise e) ->
        on_message message w = (Raise e, w)).
Proof.
  split.
  - intros Hparse. unfold _on_message, mbind, lift. rewrite Hparse.
    reflexivity.
  - intros dom root action_node Hparse Hroot Hname Haction Hshape.
    unfold _on_message, mbind, lift. rewrite Hparse, Hroot. simpl.
    rewrite Hname, Haction. simpl.
    destruct Hshape as [[Htag Hfail]|[Htag Hfail]];
      rewrite Htag; simpl; rewrite Hfail; reflexivity.
Qed.

(** C1: a [volumeUpdated] envelope whose payload reads as the volume
    [volume] stores [volume] in the cache and, the volume callbacks
    returning normally, calls each registered one once with the cached
    volume, in the order of registration. *)
Theorem volume_updated
    (message : string) (dom root action_node : node) (volume : Volume.t)
    (w : world) :
  parseString message = Ok dom ->
  firstChild dom = Some root ->
  nodeName root = "updates" ->
  firstChild root = Some action_node ->
  nodeName action_node = "volumeUpdated" ->
  deref (firstChild action_node) Volume.__init__ = Ok volume ->
  (forall l, In l (_volume_updated_listeners (device w)) ->
             call l (VolumeValue (Some volume)) = Ok tt) ->
  on_message message w
  = (Ok tt,
     {| device := set_volume (device w) (Some volume);
        requested := requested w;
        invoked := invoked w
                   ++ map (fun l => (l, VolumeValue (Some volume)))
                        (_volume_updated_listeners (device w)) |}).
Proof.
  intros Hparse Hroot Hname Haction Htag Hvolume Hret.
  unfold _on_message, mbind, lift. rewrite Hparse, Hroot. simpl.
  rewrite Hname, Haction. simpl. rewrite Htag. simpl.
  rewrite Hvolume. simpl.
  rewrite run_listener_all_return by exact Hret.
  reflexivity.
Qed.

Lemma append_preset_eq (preset : Preset.t) (acc : list Preset.t) (w : world) :
  _presets (device w) = Some acc ->
  append_preset preset w
  = (Ok tt, {| device := set_presets (device w) (Some (acc ++ [preset]));
               requested := requested w; invoked := invoked w |}).
Proof.
  intros Hacc. unfold append_preset, mbind, gets. rewrite Hacc. reflexivity.
Qed.

(** The preset loop: every [preset] that parses is appended to the
    cached list. *)
Lemma preset_loop (presets : list node) :
  forall (parsed acc : list Preset.t) (w : world),
    rmap (Preset.__init__ toxml) presets = Ok parsed ->
    _presets (device w) = Some acc ->
    for_each presets (fun preset =>
      mbind (lift (Preset.__init__ toxml preset)) append_preset) w
    = (Ok tt, {| device := set_presets (device w) (Some (acc ++ parsed));
                 requested := requested w; invoked := invoked w |}).
Proof.
  induction presets as [|p ps IH]; intros parsed acc w Hparsed Hacc;
    cbn [rmap for_each] in *.
  - injection Hparsed as <-. rewrite app_nil_r.
    destruct w as [d r i]; destruct d; simpl in *; subst; reflexivity.
  - destruct (Preset.__init__ toxml p) as [x|e] eqn:Hp; [|discriminate].
    destruct (rmap (Preset.__init__ toxml) ps) as [xs|e] eqn:Hps;
      [|discriminate].
    injection Hparsed as <-.
    unfold mbind at 1 2, lift at 1.
    rewrite (append_preset_eq x acc w Hacc).
    rewrite (IH xs (acc ++ [x])) by reflexivity.
    simpl. rewrite <- app_assoc. reflexivity.
Qed.

(** C2: for a [presetsUpdated] envelope, an action node without child
    nodes leaves the world as it was (no cache change, no callback
    called); with child nodes, and every [preset] element of the
    document reading as a preset, the cached list becomes the presets
    read from the [preset] elements found anywhere in the document, in
    document order, and the presets callbacks are dispatched with that
    list. *)
Theorem presets_updated
    (message : string) (dom root action_node : node) (w : world) :
  parseString message = Ok dom ->
  firstChild dom = Some root ->
  nodeName root = "updates" ->
  firstChild root = Some action_node ->
  nodeName action_node = "presetsUpdated" ->
  (childNodes action_node = [] -> on_message message w = (Ok tt, w))
  /\ (childNodes action_node <> [] ->
      forall presets,
        rmap (Preset.__init__ toxml) (elements_named "preset" dom)
        = Ok presets ->
        (forall l, In l (_presets_updated_listeners (device w)) ->
                   call l (PresetsValue (Some presets)) = Ok tt) ->
        on_message message w
        = (Ok tt,
           {| device := set_presets (device w) (Some presets);
              requested := requested w;
              invoked := invoked w
                         ++ map (fun l => (l, PresetsValue (Some presets)))
                              (_presets_updated_listeners (device w)) |})).
Proof.
  intros Hparse Hroot Hname Haction Htag.
  split.
  - intros Hkids.
    unfold _on_message, mbind, lift. rewrite Hparse, Hroot. simpl.
    rewrite Hname, Haction. simpl. rewrite Htag. simpl.
    unfold hasChildNodes. rewrite Hkids. reflexivity.
  - intros Hkids presets Hpresets Hret.
    unfold _on_message. rewrite Hparse. mstep. rewrite Hroot. simpl deref.
    mstep. rewrite Hname, Haction, String.eqb_refl. simpl deref. mstep.
    rewrite Htag. simpl String.eqb.
    unfold hasChildNodes.
    destruct (childNodes action_node) as [|k ks]; [contradiction|].
    simpl when. repeat mstep.
    unfold _get_dom_elements.
    rewrite (getElementsByTagName_parent dom root "preset" Hroot).
    repeat mstep.
    erewrite bind_returns
      by (apply (preset_loop _ presets []); [exact Hpresets | reflexivity]).
    repeat mstep.
    rewrite (bind_returns _ _ _ _ _
               (run_listener_all_return call _ _ Hret _)).
    reflexivity.
Qed.

Lemma bind_http_get {B : Type} (url text : string) (k : string -> M B)
    (w : world) :
  requests_get url = Ok text ->
  mbind (http_get requests_get url) k w
  = k text {| device := device w; requested := requested w ++ [url];
              invoked := invoked w |}.
Proof. intros H. unfold mbind, http_get. rewrite H. reflexivity. Qed.

(** [zone_status(True)] when the request is answered with a document:
    one request, and the cache holds what the document says. *)
Lemma zone_status_fetches (text : string) (zone_dom : node) (w : world) :
  requests_get (base_url (device w) ++ "/getZone")%string = Ok text ->
  parseString text = Ok zone_dom ->
  is_parent zone_dom = true ->
  exists fetched,
    zone_status parseString requests_get true w
    = (Ok fetched,
       {| device := set_zone_status (device w) fetched;
          requested :=
            requested w ++ [(base_url (device w) ++ "/getZone")%string];
          invoked := invoked w |})
    /\ (elements_named "member" zone_dom = [] -> fetched = None)
    /\ (elements_named "member" zone_dom <> [] ->
        exists zone,
          ZoneStatus.__init__ zone_dom = Ok zone /\ fetched = Some zone).
Proof.
  intros Hget Hparse Hdoc.
  destruct (ZoneStatus_init_total zone_dom Hdoc) as [zone Hzone].
  exists (match elements_named "member" zone_dom with
          | [] => None
          | _ :: _ => Some zone
          end).
  split; [|split].
  - unfold zone_status. mstep. rewrite orb_true_r. simpl when.
    unfold refresh_zone_status. repeat mstep.
    rewrite (bind_http_get _ text) by exact Hget.
    rewrite Hparse. repeat mstep. unfold _get_dom_elements.
    rewrite (getElementsByTagName_Ok _ _ Hdoc). repeat mstep.
    destruct (elements_named "member" zone_dom) as [|m ms].
    + reflexivity.
    + repeat mstep. rewrite Hzone. reflexivity.
  - intros ->. reflexivity.
  - intros Hmembers. exists zone. split; [assumption|].
    destruct (elements_named "member" zone_dom); [contradiction|reflexivity].
Qed.

(** C4: a [zoneUpdated] envelope makes one request for the zone status;
    the request being answered with a document, the cache takes what
    that document says (nothing when it has no [member] element, the
    zone status read from it otherwise) and, the zone callbacks
    returning normally, each registered one is called with that
    value. *)
Theorem zone_updated
    (message : string) (dom root action_node : node)
    (text : string) (zone_dom : node) (w : world) :
  parseString message = Ok dom ->
  firstChild dom = Some root ->
  nodeName root = "updates" ->
  firstChild root = Some action_node ->
  nodeName action_node = "zoneUpdated" ->
  requests_get (base_url (device w) ++ "/getZone")%string = Ok text ->
  parseString text = Ok zone_dom ->
  is_parent zone_dom = true ->
  (forall l value, In l (_zone_status_updated_listeners (device w)) ->
                   call l (ZoneStatusValue value) = Ok tt) ->
  exists fetched,
    on_message message w
    = (Ok tt,
       {| device := set_zone_status (device w) fetched;
          requested :=
            requested w ++ [(base_url (device w) ++ "/getZone")%string];
          invoked := invoked w
                     ++ map (fun l => (l, ZoneStatusValue fetched))
                          (_zone_status_updated_listeners (device w)) |})
    /\ (elements_named "member" zone_dom = [] -> fetched = None)
    /\ (elements_named "member" zone_dom <> [] ->
        exists zone,
          ZoneStatus.__init__ zone_dom = Ok zone /\ fetched = Some zone).
Proof.
  intros Hparse Hroot Hname Haction Htag Hget Hzparse Hdoc Hret.
  destruct (zone_status_fetches text zone_dom w Hget Hzparse Hdoc)
    as (fetched & Hfetch & Hnone & Hsome).
  exists fetched. split; [|split; assumption].
  unfold _on_message. rewrite Hparse. mstep. rewrite Hroot. simpl deref.
  mstep. rewrite Hname, Haction, String.eqb_refl. simpl deref. mstep.
  rewrite Htag. simpl String.eqb. simpl when. repeat mstep.
  rewrite (bind_returns _ _ _ _ _ Hfetch).
  erewrite bind_returns
    by (apply run_listener_all_return; intros l Hl; apply Hret, Hl).
  reflexivity.
Qed.

Lemma keeps_refresh_zone_status (w0 : world) :
  keeps "zoneUpdated" w0 (refresh_zone_status parseString requests_get).
Proof.
  unfold refresh_zone_status.
  apply keeps_bind; [apply keeps_gets | intros url].
  apply keeps_bind; [apply keeps_http_get | intros text].
  apply keeps_bind; [apply keeps_lift | intros zone_dom].
  apply keeps_bind; [apply keeps_lift | intros [|m ms]].
  - apply keeps_assign_zone_status; reflexivity.
  - apply keeps_bind; [apply keeps_lift | intros zone].
    apply keeps_assign_zone_status; reflexivity.
Qed.

Lemma keeps_zone_status (w0 : world) (refresh : bool) :
  keeps "zoneUpdated" w0 (zone_status parseString requests_get refresh).
Proof.
  unfold zone_status.
  apply keeps_bind; [apply keeps_gets | intros cached].
  apply keeps_bind; [|intros _; apply keeps_gets].
  apply keeps_when. intros _. apply keeps_refresh_zone_status.
Qed.

Lemma keeps_init_config (w0 : world) :
  keeps "infoUpdated" w0 (__init_config parseString requests_get).
Proof.
  unfold __init_config.
  apply keeps_bind; [apply keeps_gets | intros url].
  apply keeps_bind; [apply keeps_http_get | intros text].
  apply keeps_bind; [apply keeps_lift | intros info_dom].
  apply keeps_bind; [apply keeps_lift | intros config].
  apply keeps_assign_config; reflexivity.
Qed.

(** A registry read in a world reached within the category is the
    registry of the starting world. *)
Lemma registry_kept (action : string) (w0 w : world) (value : payload) :
  touches_only action w0 w ->
  incl (registry_of value (device w)) (registry_of value (device w0)).
Proof.
  intros Hw. rewrite (same_registries _ _ _ Hw value). apply incl_refl.
Qed.

(** C9: an [updates] frame touches the category named by its action
    tag at most. The cached field of every other category and all the
    registries stay as they were, and every callback called is one
    registered for that category, called with a value of that
    category; this holds whether the handler returns or raises. A
    frame whose action tag is none of the five known tags leaves the
    world as it was. *)
Theorem frame_touches_one_category
    (message : string) (dom root action_node : node) (w : world) :
  parseString message = Ok dom ->
  firstChild dom = Some root ->
  nodeName root = "updates" ->
  firstChild root = Some action_node ->
  touches_only (nodeName action_node) w (snd (on_message message w))
  /\ (~ In (nodeName action_node) known_actions ->
      on_message message w = (Ok tt, w)).
Proof.
  intros Hparse Hroot Hname Haction.
  unfold _on_message. rewrite Hparse. mstep. rewrite Hroot. simpl deref.
  mstep. rewrite Hname, Haction, String.eqb_refl. simpl deref. mstep.
  simpl hasChildNodes.
  generalize (nodeName action_node) as action. intros action.
  split.
  - rename w into w0.
    match goal with
    | |- touches_only _ _ (snd (?m w0)) =>
        cut (keeps action w0 m);
        [intros H; exact (H w0 (touches_only_refl action w0))|]
    end.
    repeat (apply keeps_bind; [|intros _]);
      apply keeps_when; intros Htag;
      try (apply andb_prop in Htag; destruct Htag as [Htag _]);
      apply String.eqb_eq in Htag; subst action.
    + apply keeps_bind; [apply keeps_lift | intros volume].
      apply keeps_bind; [apply keeps_assign_volume; reflexivity | intros _].
      apply keeps_bind_gets. intros w1 Hw1.
      apply keeps_bind_gets. intros w2 Hw2.
      apply keeps_run_listener; [reflexivity|].
      apply (registry_kept _ _ _ (VolumeValue None) Hw1).
    + apply keeps_bind; [apply keeps_lift | intros status].
      apply keeps_bind; [apply keeps_assign_status; reflexivity | intros _].
      apply keeps_bind_gets. intros w1 Hw1.
      apply keeps_bind_gets. intros w2 Hw2.
      apply keeps_run_listener; [reflexivity|].
      apply (registry_kept _ _ _ (StatusValue None) Hw1).
    + apply keeps_bind; [apply keeps_assign_presets; reflexivity | intros _].
      apply keeps_bind; [apply keeps_lift | intros presets].
      apply keeps_bind.
      { apply keeps_for_each. intros preset.
        apply keeps_bind; [apply keeps_lift | intros parsed].
        apply keeps_append_preset; reflexivity. }
      intros _.
      apply keeps_bind_gets. intros w1 Hw1.
      apply keeps_bind_gets. intros w2 Hw2.
      apply keeps_run_listener; [reflexivity|].
      apply (registry_kept _ _ _ (PresetsValue None) Hw1).
    + apply keeps_bind_gets. intros w1 Hw1.
      apply keeps_bind; [apply keeps_zone_status | intros value].
      apply keeps_run_listener; [reflexivity|].
      apply (registry_kept _ _ _ (ZoneStatusValue None) Hw1).
    + apply keeps_bind; [apply keeps_init_config | intros _].
      apply keeps_bind_gets. intros w1 Hw1.
      apply keeps_bind_gets. intros w2 Hw2.
      apply keeps_run_listener; [reflexivity|].
      apply (registry_kept _ _ _ (ConfigValue (_config (device w0))) Hw1).
  - intros Hunknown. unfold known_actions in Hunknown. simpl in Hunknown.
    assert (Hneq : forall tag, In tag known_actions ->
                               String.eqb action tag = false).
    { intros tag Htag. apply String.eqb_neq. intros ->.
      apply Hunknown. simpl in Htag. intuition. }
    rewrite !Hneq by (simpl; auto 6).
    reflexivity.
Qed.

End Handler.

(** ** Parsing the value objects *)

(** C6, as the code has it. [duration] and [position] are read with
    [int] from the [total] attribute and the text of the first [time]
    element. A status that is constructed holds, for each of the two, the
    integer read from it when it is there and nothing when it is absent.
    In a payload whose texts can be extracted the status is constructed
    whenever each of the two that is there reads as an integer, so that
    an absent attribute or text gives an absent field and no error. A
    status that is not constructed ends in the [AttributeError] of an
    element that cannot be read or in the [ValueError] of a [total]
    attribute or [time] text that is there and is no integer, never in
    [TypeError]. The actual and target volume are read with [int] too:
    a volume that is constructed holds the integers read from the two
    texts, and it is constructed when both read as integers and
    [muteenabled] can be read. But the two are required: without the
    [actualvolume] text [Volume] raises [TypeError], and without the
    [targetvolume] text it raises [TypeError] when the [actualvolume]
    text reads as an integer and the [ValueError] of that text when it
    does not. A [time] element with text 42 gives position 42, and
    duration 237 with total=237, no duration without the attribute. *)
Theorem numeric_fields :
  (forall xml_dom status,
     Status.__init__ xml_dom = Ok status ->
     exists total text,
       _get_dom_element_attribute xml_dom "time" "total" None = Ok total
       /\ _get_dom_element_value xml_dom "time" None = Ok text
       /\ match total with
          | None => Status._duration status = None
          | Some s =>
              exists z, py_int s = Ok z /\ Status._duration status = Some z
          end
       /\ match text with
          | None => Status._position status = None
          | Some s =>
              exists z, py_int s = Ok z /\ Status._position status = Some z
          end)
  /\ (forall xml_dom total text,
        Status_texts_readable xml_dom = true ->
        _get_dom_element_attribute xml_dom "time" "total" None = Ok total ->
        _get_dom_element_value xml_dom "time" None = Ok text ->
        (forall s, total = Some s -> exists z, py_int s = Ok z) ->
        (forall s, text = Some s -> exists z, py_int s = Ok z) ->
        exists status,
          Status.__init__ xml_dom = Ok status
          /\ (total = None -> Status._duration status = None)
          /\ (text = None -> Status._position status = None))
  /\ (forall xml_dom e,
        Status.__init__ xml_dom = Raise e ->
        e = AttributeError /\ Status_texts_readable xml_dom = false
        \/ e = ValueError
           /\ exists s,
                (_get_dom_element_attribute xml_dom "time" "total" None
                 = Ok (Some s)
                 \/ _get_dom_element_value xml_dom "time" None = Ok (Some s))
                /\ py_int s = Raise ValueError)
  /\ (forall xml_dom volume,
        Volume.__init__ xml_dom = Ok volume ->
        exists actual target,
          _get_dom_element_value xml_dom "actualvolume" None = Ok (Some actual)
          /\ py_int actual = Ok (Volume._actual volume)
          /\ _get_dom_element_value xml_dom "targetvolume" None
             = Ok (Some target)
          /\ py_int target = Ok (Volume._target volume))
  /\ (forall xml_dom actual_text target_text muted actual target,
        _get_dom_element_value xml_dom "actualvolume" None
        = Ok (Some actual_text) ->
        py_int actual_text = Ok actual ->
        _get_dom_element_value xml_dom "targetvolume" None
        = Ok (Some target_text) ->
        py_int target_text = Ok target ->
        _get_dom_element_value xml_dom "muteenabled" None = Ok muted ->
        Volume.__init__ xml_dom
        = Ok {| Volume._actual := actual; Volume._target := target;
                Volume._muted := py_eq_str muted "true" |})
  /\ (forall xml_dom,
        _get_dom_element_value xml_dom "actualvolume" None = Ok None ->
        Volume.__init__ xml_dom = Raise TypeError)
  /\ (forall xml_dom actual,
        _get_dom_element_value xml_dom "actualvolume" None = Ok (Some actual) ->
        _get_dom_element_value xml_dom "targetvolume" None = Ok None ->
        Volume.__init__ xml_dom
        = Raise match py_int actual with
                | Ok _ => TypeError
                | Raise _ => ValueError
                end)
  /\ (forall xml_dom attrs rest,
        _get_dom_element xml_dom "time"
        = Ok (Some (Element "time" attrs (Text "42" :: rest))) ->
        (forall status,
           Status.__init__ xml_dom = Ok status ->
           Status._position status = Some 42%Z
           /\ (lookup "total" attrs = Some "237" ->
               Status._duration status = Some 237%Z)
           /\ (lookup "total" attrs = None ->
               Status._duration status = None))
        /\ (Status_texts_readable xml_dom = true ->
            lookup "total" attrs = Some "237" \/ lookup "total" attrs = None ->
            exists status, Status.__init__ xml_dom = Ok status)).
Proof.
  split; [|split; [|split; [|split; [|split; [|split; [|split]]]]]].
  - intros xml_dom status H.
    destruct (Status_time xml_dom status H)
      as (total & text & Htotal & Htext & Hd & Hp).
    exists total, text. repeat split; try assumption.
    + exact (int_if_present_spec _ _ Hd).
    + exact (int_if_present_spec _ _ Hp).
  - exact Status_constructed.
  - intros xml_dom e H.
    destruct (Status_init_raises xml_dom e H) as [-> | Hvalue];
      [|right; exact Hvalue].
    destruct (Status_texts_readable xml_dom) eqn:Hreadable;
      [|left; split; reflexivity].
    discriminate (Status_readable_raises xml_dom _ Hreadable H).
  - intros xml_dom volume H. unfold Volume.__init__ in H. rinv H.
    injection H as <-. simpl.
    repeat match goal with
           | E : py_int_opt _ = Ok _ |- _ =>
               apply py_int_opt_spec in E; destruct E as (? & -> & ?)
           end.
    eauto 10.
  - intros xml_dom actual_text target_text muted actual target
      Ha Hactual Ht Htarget Hm.
    unfold Volume.__init__. rewrite Ha. simpl. rewrite Hactual. simpl.
    rewrite Ht. simpl. rewrite Htarget. simpl. rewrite Hm. reflexivity.
  - intros xml_dom H. unfold Volume.__init__. rewrite H. reflexivity.
  - intros xml_dom actual Ha Ht. unfold Volume.__init__.
    rewrite Ha. simpl.
    destruct (py_int actual) as [z|e] eqn:Hactual; simpl.
    + rewrite Ht. reflexivity.
    + rewrite (py_int_raises actual e Hactual). reflexivity.
  - intros xml_dom attrs rest Htime.
    pose proof (get_dom_element_attribute_found _ _ "total" _ _ _ Htime)
      as Htotal.
    pose proof (get_dom_element_value_found _ _ _ _ _ _ Htime) as Htext.
    split.
    + intros status H.
      destruct (Status_time xml_dom status H)
        as (total & text & Htotal' & Htext' & Hd & Hp).
      rewrite Htotal in Htotal'. rewrite Htext in Htext'.
      injection Htotal' as <-. injection Htext' as <-.
      split; [|split].
      * simpl in Hp. injection Hp as <-. reflexivity.
      * intros Hl. rewrite Hl in Hd. simpl in Hd. injection Hd as <-.
        reflexivity.
      * intros Hl. rewrite Hl in Hd. simpl in Hd. injection Hd as <-.
        reflexivity.
    + intros Hreadable Hl.
      destruct (Status_constructed xml_dom _ _ Hreadable Htotal Htext)
        as (status & Hstatus & _).
      * intros s Hs. destruct Hl as [Hl | Hl]; rewrite Hl in Hs;
          [|discriminate].
        injection Hs as <-. exists 237%Z. reflexivity.
      * intros s Hs. injection Hs as <-. exists 42%Z. reflexivity.
      * exists status. exact Hstatus.
Qed.

(** C7: when the first [art] element of a status payload carries an
    [artImageStatus] other than IMAGE_PRESENT, or none, the status has
    no image, whatever the element contains. *)
Theorem image_needs_image_present
    (xml_dom : node) (status : Status.t)
    (attrs : list (string * string)) (content : list node) :
  Status.__init__ xml_dom = Ok status ->
  _get_dom_element xml_dom "art" = Ok (Some (Element "art" attrs content)) ->
  lookup "artImageStatus" attrs <> Some "IMAGE_PRESENT" ->
  Status._image status = None.
Proof.
  intros H Hart Hattr.
  destruct (Status_image xml_dom status H) as (image_status & Hs & Himage).
  rewrite (get_dom_element_attribute_found _ _ _ _ _ _ Hart) in Hs.
  injection Hs as <-. apply Himage.
  destruct (lookup "artImageStatus" attrs) as [v|]; simpl; [|reflexivity].
  apply String.eqb_neq. congruence.
Qed.

(** ** The listener registries *)

Lemma py_in_spec (x : callback) (xs : list callback) :
  py_in x xs = true <-> In x xs.
Proof.
  induction xs as [|y ys IH]; simpl.
  - split; [discriminate | contradiction].
  - rewrite orb_true_iff, Nat.eqb_eq, IH. reflexivity.
Qed.

Lemma py_remove_first (x : callback) (xs : list callback) :
  In x xs ->
  exists before after,
    xs = before ++ x :: after /\ ~ In x before
    /\ py_remove x xs = Ok (before ++ after).
Proof.
  induction xs as [|y ys IH]; simpl; [contradiction|].
  intros Hin. destruct (Nat.eqb_spec y x) as [->|Hneq].
  - exists [], ys. repeat split. intros [].
  - destruct Hin as [Heq|Hin]; [contradiction|].
    destruct (IH Hin) as (before & after & -> & Hnot & ->).
    exists (y :: before), after. repeat split.
    intros [Heq|Hb]; [contradiction | exact (Hnot Hb)].
Qed.

Lemma remove_if_registered_present (x : callback) (xs : list callback) :
  In x xs ->
  exists before after,
    xs = before ++ x :: after /\ ~ In x before
    /\ remove_if_registered x xs = Ok (before ++ after).
Proof.
  intros Hin. unfold remove_if_registered.
  rewrite (proj2 (py_in_spec x xs) Hin). exact (py_remove_first x xs Hin).
Qed.

Lemma remove_if_registered_absent (x : callback) (xs : list callback) :
  ~ In x xs -> remove_if_registered x xs = Ok xs.
Proof.
  intros Hnot. unfold remove_if_registered.
  destruct (py_in x xs) eqn:E; [|reflexivity].
  apply py_in_spec in E. contradiction.
Qed.

Lemma count_occ_snoc (x : callback) (xs : list callback) :
  count_occ Nat.eq_dec (xs ++ [x]) x = S (count_occ Nat.eq_dec xs x).
Proof.
  rewrite count_occ_app. simpl.
  destruct (Nat.eq_dec x x); [apply Nat.add_1_r | contradiction].
Qed.

Ltac solve_registry :=
  intros self listener; split; [|split];
  [ eexists; split; [reflexivity|]; split;
    [reflexivity | apply count_occ_snoc]
  | intros Hin;
    destruct (remove_if_registered_present listener _ Hin)
      as (before & after & Hsplit & Hnot & Hremove);
    exists before, after; eexists; split; [exact Hsplit|];
    split; [exact Hnot|]; split;
    [ match goal with
      | |- ?remove self listener = _ => unfold remove
      end; rewrite Hremove; reflexivity
    | reflexivity ]
  | intros Hnot;
    match goal with
    | |- ?remove self listener = _ => unfold remove
    end;
    rewrite (remove_if_registered_absent listener _ Hnot);
    destruct self; reflexivity ].

(** C8: each of the five registries appends on registration, keeping
    duplicates as registrations of their own, and on removal drops the
    first registration equal to the callback; removing a callback that is
    not registered returns without an error and leaves the device as it
    was. *)
Theorem listener_registries :
  registry_contract _volume_updated_listeners
    add_volume_listener remove_volume_listener
  /\ registry_contract _status_updated_listeners
       add_status_listener remove_status_listener
  /\ registry_contract _presets_updated_listeners
       add_presets_listener remove_presets_listener
  /\ registry_contract _zone_status_updated_listeners
       add_zone_status_listener remove_zone_status_listener
  /\ registry_contract _device_info_updated_listeners
       add_device_info_listener remove_device_info_listener.
Proof.
  split; [|split; [|split; [|split]]]; solve_registry.
Qed.

(** ** The theorems at the sample inputs *)

Lemma sample_callbacks_return (registry : list callback) (value : payload) :
  ~ In 13%nat registry ->
  forall l, In l registry -> sample_call l value = Ok tt.
Proof.
  intros Hnot l Hl. unfold sample_call.
  destruct (Nat.eqb_spec l 13) as [->|_]; [contradiction | reflexivity].
Defined.

Lemma volume_updated_witness :
  sample_on_message volume_frame sample_world
  = (Ok tt,
     {| device := set_volume sample_device (Some sample_volume);
        requested := [];
        invoked := [(1, VolumeValue (Some sample_volume));
                    (2, VolumeValue (Some sample_volume));
                    (1, VolumeValue (Some sample_volume))]%nat |}).
Proof.
  apply (volume_updated sample_parseString sample_requests_get sample_toxml
           sample_call volume_frame volume_dom
           (Element "updates" [] (childNodes (Element "updates" []
              [Element "volumeUpdated" [] [
                 Element "volume" [] [
                   Element "actualvolume" [] [Text "30"];
                   Element "targetvolume" [] [Text "32"];
                   Element "muteenabled" [] [Text "false"]]]])))
           (Element "volumeUpdated" [] [
              Element "volume" [] [
                Element "actualvolume" [] [Text "30"];
                Element "targetvolume" [] [Text "32"];
                Element "muteenabled" [] [Text "false"]]])
           sample_volume sample_world); try reflexivity.
  apply sample_callbacks_return. simpl. intuition discriminate.
Defined.

Lemma empty_updates_raises_witness :
  sample_on_message empty_updates_frame sample_world
  = (Raise AttributeError, sample_world).
Proof.
  apply (empty_updates_raises sample_parseString sample_requests_get
           sample_toxml sample_call empty_updates_frame empty_updates_dom
           (Element "updates" [] []) sample_world); reflexivity.
Defined.

Lemma other_root_is_ignored_witness :
  sample_on_message sdk_info_frame sample_world = (Ok tt, sample_world).
Proof.
  apply (other_root_is_ignored sample_parseString sample_requests_get
           sample_toxml sample_call sdk_info_frame
           (childNodes sdk_info_dom)
           (Element "SoundTouchSdkInfo"
              [("serverVersion", "4"); ("serverBuild", "trunk")] [])
           sample_world); [reflexivity | reflexivity | discriminate].
Defined.

(** C3, as the claim has it, fails: the frame breaks off in the middle,
    the parser raises, and the exception leaves the handler. *)
Lemma parse_failure_leaves_handler :
  sample_on_message truncated_frame sample_world
  = (Raise ExpatError, sample_world).
Proof. reflexivity. Qed.

Lemma parse_failure_propagates_witness :
  sample_on_message truncated_frame sample_world
  = (Raise ExpatError, sample_world).
Proof.
  apply (proj1 (parse_failure_propagates sample_parseString
                  sample_requests_get sample_toxml sample_call
                  truncated_frame ExpatError sample_world)).
  reflexivity.
Defined.

Lemma presets_updated_witness :
  sample_on_message empty_presets_frame sample_world = (Ok tt, sample_world)
  /\ sample_on_message presets_frame sample_world
     = (Ok tt,
        {| device := set_presets sample_device (Some [sample_preset]);
           requested := [];
           invoked := [(4, PresetsValue (Some [sample_preset]));
                       (5, PresetsValue (Some [sample_preset]))]%nat |}).
Proof.
  split.
  - apply (proj1 (presets_updated sample_parseString sample_requests_get
                    sample_toxml sample_call empty_presets_frame
                    empty_presets_dom
                    (Element "updates" [] [Element "presetsUpdated" [] []])
                    (Element "presetsUpdated" [] []) sample_world
                    eq_refl eq_refl eq_refl eq_refl eq_refl)).
    reflexivity.
  - apply (proj2 (presets_updated sample_parseString sample_requests_get
                    sample_toxml sample_call presets_frame presets_dom
                    (Element "updates" [] (childNodes (Element "updates" []
                       [Element "presetsUpdated" [] [
                          Element "presets" [] [
                            Element "preset" [("id", "1")] [
                              Element "ContentItem"
                                [("source", "TUNEIN");
                                 ("location", "/v1/playback/station/s1")]
                                [Element "itemName" [] [Text "Radio"]]]]]])))
                    (Element "presetsUpdated" [] [
                       Element "presets" [] [
                         Element "preset" [("id", "1")] [
                           Element "ContentItem"
                             [("source", "TUNEIN");
                              ("location", "/v1/playback/station/s1")]
                             [Element "itemName" [] [Text "Radio"]]]]])
                    sample_world
                    eq_refl eq_refl eq_refl eq_refl eq_refl)).
    + discriminate.
    + reflexivity.
    + apply sample_callbacks_return. simpl. intuition discriminate.
Defined.

Lemma zone_updated_witness :
  exists fetched,
    sample_on_message zone_frame sample_world
    = (Ok tt,
       {| device := set_zone_status sample_device fetched;
          requested := ["http://192.168.1.2:8090/getZone"];
          invoked := [(6%nat, ZoneStatusValue fetched)] |})
    /\ (elements_named "member" zone_dom = [] -> fetched = None)
    /\ (elements_named "member" zone_dom <> [] ->
        exists zone,
          ZoneStatus.__init__ zone_dom = Ok zone /\ fetched = Some zone).
Proof.
  apply (zone_updated sample_parseString sample_requests_get sample_toxml
           sample_call zone_frame zone_frame_dom
           (Element "updates" [] [Element "zoneUpdated" [] [
              Element "zone" [] []]])
           (Element "zoneUpdated" [] [Element "zone" [] []])
           zone_text zone_dom sample_world);
    try reflexivity.
  intros l value. apply sample_callbacks_return. simpl. intuition discriminate.
Defined.

Lemma frame_touches_one_category_witness :
  touches_only "volumeUpdated" sample_world
    (snd (sample_on_message volume_frame sample_world))
  /\ (~ In "volumeUpdated" known_actions ->
      sample_on_message volume_frame sample_world = (Ok tt, sample_world)).
Proof.
  apply (frame_touches_one_category sample_parseString sample_requests_get
           sample_toxml sample_call volume_frame volume_dom
           (Element "updates" [] (childNodes (Element "updates" []
              [Element "volumeUpdated" [] [
                 Element "volume" [] [
                   Element "actualvolume" [] [Text "30"];
                   Element "targetvolume" [] [Text "32"];
                   Element "muteenabled" [] [Text "false"]]]])))
           (Element "volumeUpdated" [] [
              Element "volume" [] [
                Element "actualvolume" [] [Text "30"];
                Element "targetvolume" [] [Text "32"];
                Element "muteenabled" [] [Text "false"]]])
           sample_world); reflexivity.
Defined.

(** C6, as the claim has it, fails for the volume: without the
    [actualvolume] text the field is not absent, [Volume] raises. *)
Lemma volume_without_actual_raises :
  Volume.__init__ volume_without_actual = Raise TypeError.
Proof. reflexivity. Qed.

Lemma numeric_fields_witness :
  (exists status,
     Status.__init__ (now_playing [("total", "237")]) = Ok status
     /\ Status._position status = Some 42%Z
     /\ Status._duration status = Some 237%Z)
  /\ (exists status,
        Status.__init__ (now_playing []) = Ok status
        /\ Status._position status = Some 42%Z
        /\ Status._duration status = None)
  /\ (exists status,
        Status.__init__ now_playing_without_time = Ok status
        /\ Status._duration status = None
        /\ Status._position status = None)
  /\ (exists status total text,
        Status.__init__ (now_playing [("total", "237")]) = Ok status
        /\ _get_dom_element_attribute (now_playing [("total", "237")])
             "time" "total" None = Ok (Some total)
        /\ py_int total = Ok 237%Z
        /\ _get_dom_element_value (now_playing [("total", "237")]) "time" None
           = Ok (Some text)
        /\ py_int text = Ok 42%Z)
  /\ (Status.__init__ (now_playing [("total", "3:57")]) = Raise ValueError
      /\ exists s,
           (_get_dom_element_attribute (now_playing [("total", "3:57")])
              "time" "total" None = Ok (Some s)
            \/ _get_dom_element_value (now_playing [("total", "3:57")])
                 "time" None = Ok (Some s))
           /\ py_int s = Raise ValueError)
  /\ (exists actual target,
        _get_dom_element_value volume_payload "actualvolume" None
        = Ok (Some actual)
        /\ py_int actual = Ok 30%Z
        /\ _get_dom_element_value volume_payload "targetvolume" None
           = Ok (Some target)
        /\ py_int target = Ok 32%Z)
  /\ Volume.__init__ volume_payload
     = Ok {| Volume._actual := 30; Volume._target := 32;
             Volume._muted := false |}
  /\ Volume.__init__ volume_without_actual = Raise TypeError
  /\ Volume.__init__ (volume_without_target "30") = Raise TypeError
  /\ Volume.__init__ (volume_without_target "loud") = Raise ValueError.
Proof.
  pose proof numeric_fields
    as (Hstatus & Hconstructed & Hraises & Hvolume & Hreturns & Hactual
        & Htarget & Htime).
  repeat match goal with |- _ /\ _ => split end.
  - destruct (Htime (now_playing [("total", "237")]) [("total", "237")] []
                eq_refl) as (Hfields & Hexists).
    destruct (Hexists eq_refl (or_introl eq_refl)) as (status & Hinit).
    destruct (Hfields status Hinit) as (Hp & Hd & _).
    exists status. split; [exact Hinit|]. split; [exact Hp | exact (Hd eq_refl)].
  - destruct (Htime (now_playing []) [] [] eq_refl) as (Hfields & Hexists).
    destruct (Hexists eq_refl (or_intror eq_refl)) as (status & Hinit).
    destruct (Hfields status Hinit) as (Hp & _ & Hd).
    exists status. split; [exact Hinit|]. split; [exact Hp | exact (Hd eq_refl)].
  - destruct (Hconstructed now_playing_without_time None None
                eq_refl eq_refl eq_refl)
      as (status & Hinit & Hd & Hp); try (intros s Hs; discriminate Hs).
    exists status. split; [exact Hinit|].
    split; [exact (Hd eq_refl) | exact (Hp eq_refl)].
  - destruct (Hstatus (now_playing [("total", "237")]) _ eq_refl)
      as (total & text & Htotal & Htext & Hd & Hp).
    destruct total as [total|]; [|discriminate Htotal].
    destruct text as [text|]; [|discriminate Htext].
    destruct Hd as (d & Hd & Hduration), Hp as (p & Hp & Hposition).
    eexists. exists total, text.
    split; [reflexivity|].
    split; [exact Htotal|].
    split; [rewrite Hd; f_equal; injection Hduration as <-; reflexivity|].
    split; [exact Htext|].
    rewrite Hp. f_equal. injection Hposition as <-. reflexivity.
  - reflexivity.
  - destruct (Hraises (now_playing [("total", "3:57")]) ValueError eq_refl)
      as [[Hno _] | [_ Hcause]]; [discriminate Hno | exact Hcause].
  - exact (Hvolume volume_payload _ eq_refl).
  - apply (Hreturns volume_payload "30" "32" (Some "false")); reflexivity.
  - apply Hactual. reflexivity.
  - apply (Htarget (volume_without_target "30") "30"); reflexivity.
  - apply (Htarget (volume_without_target "loud") "loud"); reflexivity.
Defined.

Lemma image_needs_image_present_witness :
  exists status,
    Status.__init__ (now_playing [("total", "237")]) = Ok status
    /\ Status._image status = None.
Proof.
  eexists. split; [reflexivity|].
  apply (image_needs_image_present (now_playing [("total", "237")]) _
           [("artImageStatus", "IMAGE_NOT_PRESENT")]
           [Text "http://192.168.1.2/art.png"]);
    [reflexivity | reflexivity | discriminate].
Defined.

Lemma listener_registries_witness :
  remove_volume_listener sample_device 9 = Ok sample_device
  /\ exists self',
       add_volume_listener sample_device 1 = Ok self'
       /\ _volume_updated_listeners self' = [1; 2; 1; 1]%nat.
Proof.
  pose proof listener_registries as (Hvolume & _).
  destruct (Hvolume sample_device 1%nat) as ((self' & Hadd & Hreg & _) & _ & _).
  destruct (Hvolume sample_device 9%nat) as (_ & _ & Habsent).
  split.
  - apply Habsent. simpl. intuition discriminate.
  - exists self'. split; [exact Hadd | exact Hreg].
Defined.

(** ** The other branches of the handler, and its failures *)

Lemma read_until_failure_all {A B : Type} (f : A -> result B) (xs : list A)
    (ys : list B) :
  rmap f xs = Ok ys -> read_until_failure f xs = (ys, None).
Proof.
  revert ys. induction xs as [|x xs IH]; simpl; intros ys H.
  - injection H as <-. reflexivity.
  - destruct (f x) as [y|e]; [|discriminate].
    destruct (rmap f xs) as [ys'|e]; [|discriminate].
    injection H as <-. rewrite (IH ys' eq_refl). reflexivity.
Qed.

Lemma read_until_failure_stops {A B : Type} (f : A -> result B)
    (good : list A) (bad : A) (rest : list A) (ys : list B) (e : exn) :
  rmap f good = Ok ys -> f bad = Raise e ->
  read_until_failure f (good ++ bad :: rest) = (ys, Some e).
Proof.
  revert ys. induction good as [|x xs IH]; simpl; intros ys H Hbad.
  - injection H as <-. rewrite Hbad. reflexivity.
  - destruct (f x) as [y|e']; [|discriminate].
    destruct (rmap f xs) as [ys'|e']; [|discriminate].
    injection H as <-. rewrite (IH ys' eq_refl Hbad). reflexivity.
Qed.

Section Loop.

Variable toxml : node -> string.

(** The preset loop, however it ends: the cached list has grown by the
    presets read before the first element that does not read as one. *)
Lemma preset_loop_ends (presets : list node) :
  forall (acc : list Preset.t) (w : world),
    _presets (device w) = Some acc ->
    for_each presets (fun preset =>
      mbind (lift (Preset.__init__ toxml preset)) append_preset) w
    = (ended_with (snd (read_until_failure (Preset.__init__ toxml) presets)),
       {| device :=
            set_presets (device w)
              (Some (acc ++ fst (read_until_failure (Preset.__init__ toxml)
                                   presets)));
          requested := requested w; invoked := invoked w |}).
Proof.
  induction presets as [|p ps IH]; intros acc w Hacc;
    cbn [read_until_failure for_each].
  - simpl. rewrite app_nil_r.
    destruct w as [d r i]; destruct d; simpl in *; subst; reflexivity.
  - unfold mbind at 1 2, lift at 1.
    destruct (Preset.__init__ toxml p) as [x|e].
    + rewrite (append_preset_eq x acc w Hacc).
      rewrite (IH (acc ++ [x])) by reflexivity.
      destruct (read_until_failure (Preset.__init__ toxml) ps) as [xs e].
      simpl. rewrite <- app_assoc. reflexivity.
    + simpl. rewrite app_nil_r.
      destruct w as [d r i]; destruct d; simpl in *; subst; reflexivity.
Qed.

End Loop.

Section Branches.

Variable parseString : string -> result node.
Variable requests_get : string -> result string.
Variable toxml : node -> string.
Variable call : callback -> payload -> result unit.

Local Abbreviation handle :=
  (_on_message parseString requests_get toxml call).

(** Into the branch of the action [tag]. *)
Ltac enter Hparse Hroot Hname Haction Htag :=
  unfold _on_message; rewrite Hparse; mstep; rewrite Hroot; simpl deref;
  mstep; rewrite Hname, Haction, String.eqb_refl; simpl deref; mstep;
  rewrite Htag; simpl String.eqb.

(** A [nowPlayingUpdated] envelope whose action node reads as a status
    stores that status and calls every status callback once with it, in
    the order of registration; nothing is requested from the device. *)
Theorem now_playing_updated
    (message : string) (dom root action_node : node) (status : Status.t)
    (w : world) :
  parseString message = Ok dom ->
  firstChild dom = Some root ->
  nodeName root = "updates" ->
  firstChild root = Some action_node ->
  nodeName action_node = "nowPlayingUpdated" ->
  Status.__init__ action_node = Ok status ->
  (forall l, In l (_status_updated_listeners (device w)) ->
             call l (StatusValue (Some status)) = Ok tt) ->
  handle message w
  = (Ok tt,
     {| device := set_status (device w) (Some status);
        requested := requested w;
        invoked := invoked w
                   ++ map (fun l => (l, StatusValue (Some status)))
                        (_status_updated_listeners (device w)) |}).
Proof.
  intros Hparse Hroot Hname Haction Htag Hstatus Hret.
  enter Hparse Hroot Hname Haction Htag. simpl when. repeat mstep.
  rewrite Hstatus. repeat mstep.
  erewrite bind_returns by (apply run_listener_all_return; exact Hret).
  reflexivity.
Qed.

(** An [infoUpdated] envelope makes one request, for [/info]; when the
    answer reads as a configuration, that configuration replaces the
    cached one and every device-info callback is called once with it. *)
Theorem info_updated
    (message : string) (dom root action_node : node)
    (text : string) (info_dom : node) (config : Config.t) (w : world) :
  parseString message = Ok dom ->
  firstChild dom = Some root ->
  nodeName root = "updates" ->
  firstChild root = Some action_node ->
  nodeName action_node = "infoUpdated" ->
  requests_get (base_url (device w) ++ "/info")%string = Ok text ->
  parseString text = Ok info_dom ->
  Config.__init__ info_dom = Ok config ->
  (forall l, In l (_device_info_updated_listeners (device w)) ->
             call l (ConfigValue config) = Ok tt) ->
  handle message w
  = (Ok tt,
     {| device := set_config (device w) config;
        requested := requested w ++ [(base_url (device w) ++ "/info")%string];
        invoked := invoked w
                   ++ map (fun l => (l, ConfigValue config))
                        (_device_info_updated_listeners (device w)) |}).
Proof.
  intros Hparse Hroot Hname Haction Htag Hget Hinfo Hconfig Hret.
  enter Hparse Hroot Hname Haction Htag. simpl when. repeat mstep.
  unfold __init_config. repeat mstep.
  rewrite (bind_http_get requests_get _ text) by exact Hget.
  rewrite Hinfo. repeat mstep. rewrite Hconfig. repeat mstep.
  rewrite run_listener_all_return by exact Hret.
  reflexivity.
Qed.

(** When a volume callback raises, the volume is cached all the same,
    the callbacks registered before it have been called, those after it
    are not, and its exception leaves the handler. *)
Theorem volume_callback_raises
    (message : string) (dom root action_node : node) (volume : Volume.t)
    (before after : list callback) (l : callback) (e : exn) (w : world) :
  parseString message = Ok dom ->
  firstChild dom = Some root ->
  nodeName root = "updates" ->
  firstChild root = Some action_node ->
  nodeName action_node = "volumeUpdated" ->
  deref (firstChild action_node) Volume.__init__ = Ok volume ->
  _volume_updated_listeners (device w) = before ++ l :: after ->
  (forall l', In l' before -> call l' (VolumeValue (Some volume)) = Ok tt) ->
  call l (VolumeValue (Some volume)) = Raise e ->
  handle message w
  = (Raise e,
     {| device := set_volume (device w) (Some volume);
        requested := requested w;
        invoked := invoked w
                   ++ map (fun l => (l, VolumeValue (Some volume)))
                        (before ++ [l]) |}).
Proof.
  intros Hparse Hroot Hname Haction Htag Hvolume Hreg Hret Hraise.
  enter Hparse Hroot Hname Haction Htag. simpl when. repeat mstep.
  rewrite Hvolume. repeat mstep. simpl _volume_updated_listeners.
  rewrite Hreg.
  erewrite bind_raises
    by (apply run_listener_stops_at_raise; [exact Hret | exact Hraise]).
  reflexivity.
Qed.

(** When a [preset] element of a [presetsUpdated] frame does not read as
    a preset, the handler raises with the cache holding the presets of
    the elements before it only, whatever it held before, and no
    callback is called. *)
Theorem presets_updated_stops_at_bad_preset
    (message : string) (dom root action_node : node)
    (good : list node) (bad : node) (rest : list node)
    (parsed : list Preset.t) (e : exn) (w : world) :
  parseString message = Ok dom ->
  firstChild dom = Some root ->
  nodeName root = "updates" ->
  firstChild root = Some action_node ->
  nodeName action_node = "presetsUpdated" ->
  childNodes action_node <> [] ->
  elements_named "preset" dom = good ++ bad :: rest ->
  rmap (Preset.__init__ toxml) good = Ok parsed ->
  Preset.__init__ toxml bad = Raise e ->
  handle message w
  = (Raise e,
     {| device := set_presets (device w) (Some parsed);
        requested := requested w; invoked := invoked w |}).
Proof.
  intros Hparse Hroot Hname Haction Htag Hkids Hfound Hgood Hbad.
  enter Hparse Hroot Hname Haction Htag.
  unfold hasChildNodes.
  destruct (childNodes action_node) as [|k ks]; [contradiction|].
  simpl when. repeat mstep.
  unfold _get_dom_elements.
  rewrite (getElementsByTagName_parent dom root "preset" Hroot).
  repeat mstep.
  erewrite bind_raises; [reflexivity|].
  rewrite (preset_loop_ends toxml _ []) by reflexivity.
  rewrite Hfound, (read_until_failure_stops _ _ _ _ _ _ Hgood Hbad).
  reflexivity.
Qed.

(** When the request for the zone status fails, or its answer is not
    XML, a [zoneUpdated] frame leaves the device as it was, calls no
    callback and lets the exception out, after its one request. *)
Theorem zone_updated_fetch_fails
    (message : string) (dom root action_node : node) (e : exn) (w : world) :
  parseString message = Ok dom ->
  firstChild dom = Some root ->
  nodeName root = "updates" ->
  firstChild root = Some action_node ->
  nodeName action_node = "zoneUpdated" ->
  (requests_get (base_url (device w) ++ "/getZone")%string = Raise e
   \/ exists text,
        requests_get (base_url (device w) ++ "/getZone")%string = Ok text
        /\ parseString text = Raise e) ->
  handle message w
  = (Raise e,
     {| device := device w;
        requested :=
          requested w ++ [(base_url (device w) ++ "/getZone")%string];
        invoked := invoked w |}).
Proof.
  intros Hparse Hroot Hname Haction Htag Hfail.
  enter Hparse Hroot Hname Haction Htag. simpl when. repeat mstep.
  unfold zone_status. repeat mstep. rewrite orb_true_r. simpl when.
  unfold refresh_zone_status. repeat mstep.
  destruct Hfail as [Hget | (text & Hget & Htext)].
  - unfold mbind, http_get. rewrite Hget. reflexivity.
  - rewrite (bind_http_get requests_get _ text) by exact Hget.
    rewrite Htext. repeat mstep. reflexivity.
Qed.

End Branches.

(** ** Refreshing and reading the cached values *)

Section Reading.

Variable parseString : string -> result node.
Variable requests_get : string -> result string.
Variable toxml : node -> string.

(** What one refresh of a single-valued cache does. *)
Ltac run_refresh :=
  unfold mbind, gets, http_get, lift, assign, ret; simpl;
  repeat match goal with
         | |- context [match ?r with Ok _ => _ | Raise _ => _ end] =>
             destruct r; simpl
         | |- context [match ?l with [] => _ | _ :: _ => _ end] =>
             destruct l; simpl
         end.

Lemma refresh_status_outcome (w : world) :
  match refresh_status parseString requests_get w with
  | (Ok _, w') =>
      exists status, device w' = set_status (device w) (Some status)
  | (Raise _, w') => device w' = device w
  end.
Proof. unfold refresh_status. run_refresh; eauto. Qed.

Lemma refresh_volume_outcome (w : world) :
  match refresh_volume parseString requests_get w with
  | (Ok _, w') =>
      exists volume, device w' = set_volume (device w) (Some volume)
  | (Raise _, w') => device w' = device w
  end.
Proof. unfold refresh_volume. run_refresh; eauto. Qed.

Lemma refresh_zone_status_outcome (w : world) :
  match refresh_zone_status parseString requests_get w with
  | (Ok _, w') =>
      exists zone_status, device w' = set_zone_status (device w) zone_status
  | (Raise _, w') => device w' = device w
  end.
Proof. unfold refresh_zone_status. run_refresh; eauto. Qed.

Lemma init_config_outcome (w : world) :
  match __init_config parseString requests_get w with
  | (Ok _, w') => exists config, device w' = set_config (device w) config
  | (Raise _, w') => device w' = device w
  end.
Proof. unfold __init_config. run_refresh; eauto. Qed.

(** A refresh of the status, the volume, the zone status or the
    configuration that fails leaves the device as it was: the value
    cached before is still there. *)
Theorem failed_refresh_keeps_the_cache (refresh : bool) (w : world) (e : exn) :
  (fst (status parseString requests_get refresh w) = Raise e ->
   device (snd (status parseString requests_get refresh w)) = device w)
  /\ (fst (volume parseString requests_get refresh w) = Raise e ->
      device (snd (volume parseString requests_get refresh w)) = device w)
  /\ (fst (zone_status parseString requests_get refresh w) = Raise e ->
      device (snd (zone_status parseString requests_get refresh w))
      = device w)
  /\ (fst (__init_config parseString requests_get w) = Raise e ->
      device (snd (__init_config parseString requests_get w)) = device w).
Proof.
  split; [|split; [|split]].
  - unfold status. rewrite bind_gets.
    destruct (is_None (_status (device w)) || refresh); simpl when.
    + pose proof (refresh_status_outcome w) as H. unfold mbind.
      destruct (refresh_status parseString requests_get w) as [[[]|e'] w'];
        simpl; [discriminate | intros _; exact H].
    + discriminate.
  - unfold volume. rewrite bind_gets.
    destruct (is_None (_volume (device w)) || refresh); simpl when.
    + pose proof (refresh_volume_outcome w) as H. unfold mbind.
      destruct (refresh_volume parseString requests_get w) as [[[]|e'] w'];
        simpl; [discriminate | intros _; exact H].
    + discriminate.
  - unfold zone_status. rewrite bind_gets.
    destruct (match _zone_status (device w) with
              | Some _ => false
              | None => true
              end || refresh); simpl when.
    + pose proof (refresh_zone_status_outcome w) as H. unfold mbind.
      destruct (refresh_zone_status parseString requests_get w)
        as [[[]|e'] w']; simpl; [discriminate | intros _; exact H].
    + discriminate.
  - pose proof (init_config_outcome w) as H.
    destruct (__init_config parseString requests_get w) as [[[]|e'] w'];
      simpl; [discriminate | intros _; exact H].
Qed.

(** Reading a value that is cached, without asking for a refresh,
    returns it and requests nothing; reading one that is not cached
    refreshes even when no refresh is asked for. *)
Theorem reads_use_the_cache (w : world) :
  (forall x, _status (device w) = Some x ->
             status parseString requests_get false w = (Ok (Some x), w))
  /\ (forall x, _volume (device w) = Some x ->
                volume parseString requests_get false w = (Ok (Some x), w))
  /\ (forall x, _presets (device w) = Some x ->
                presets parseString requests_get toxml false w
                = (Ok (Some x), w))
  /\ (forall x, _zone_status (device w) = Some x ->
                zone_status parseString requests_get false w
                = (Ok (Some x), w))
  /\ (_status (device w) = None ->
      status parseString requests_get false w
      = status parseString requests_get true w)
  /\ (_volume (device w) = None ->
      volume parseString requests_get false w
      = volume parseString requests_get true w)
  /\ (_presets (device w) = None ->
      presets parseString requests_get toxml false w
      = presets parseString requests_get toxml true w)
  /\ (_zone_status (device w) = None ->
      zone_status parseString requests_get false w
      = zone_status parseString requests_get true w).
Proof.
  unfold status, volume, presets, zone_status.
  repeat split; intros; rewrite !bind_gets;
    match goal with
    | H : _ = Some _ |- _ =>
        rewrite H; simpl; unfold mbind, ret, gets; rewrite H; reflexivity
    | H : _ = None |- _ => rewrite H; reflexivity
    end.
Qed.

(** A refresh of the presets ends with a list in the cache as soon as
    the device has answered with XML, also when it fails later. *)
Lemma refresh_presets_outcome (w : world) :
  match refresh_presets parseString requests_get toxml w with
  | (Ok _, w') =>
      exists presets, device w' = set_presets (device w) (Some presets)
  | (Raise _, w') =>
      device w' = device w
      \/ exists presets, device w' = set_presets (device w) (Some presets)
  end.
Proof.
  unfold refresh_presets. rewrite bind_gets.
  unfold mbind at 1, http_get.
  destruct (requests_get _) as [text|e]; [|left; reflexivity].
  unfold mbind at 1, lift at 1.
  destruct (parseString text) as [dom|e]; [|left; reflexivity].
  rewrite bind_assign.
  unfold mbind at 1, lift at 1.
  destruct (_get_dom_elements dom "preset") as [found|e];
    [|right; eexists; reflexivity].
  rewrite (preset_loop_ends toxml found []) by reflexivity.
  destruct (read_until_failure (Preset.__init__ toxml) found)
    as [parsed [e|]]; simpl; [right|]; eexists; reflexivity.
Qed.

(** [status()], [volume()] and [presets()] never return [None]: when
    they return, they return the value the cache then holds, and it is
    there. *)
Theorem reads_return_a_value (refresh : bool) (w : world) :
  (forall r w', status parseString requests_get refresh w = (Ok r, w') ->
                r = _status (device w') /\ r <> None)
  /\ (forall r w', volume parseString requests_get refresh w = (Ok r, w') ->
                   r = _volume (device w') /\ r <> None)
  /\ (forall r w',
        presets parseString requests_get toxml refresh w = (Ok r, w') ->
        r = _presets (device w') /\ r <> None).
Proof.
  split; [|split]; intros r w'.
  - unfold status. rewrite bind_gets.
    destruct (_status (device w)) as [x|] eqn:Hcached;
      destruct refresh; simpl when.
    2: { rewrite bind_ret. unfold gets. intros [= <- <-].
         rewrite Hcached. split; [reflexivity | discriminate]. }
    all: pose proof (refresh_status_outcome w) as H; unfold mbind;
      destruct (refresh_status parseString requests_get w) as [[[]|e'] w1];
      [|discriminate]; destruct H as (s & Hs); unfold gets;
      intros [= <- <-]; rewrite Hs; simpl; split;
      [reflexivity | discriminate].
  - unfold volume. rewrite bind_gets.
    destruct (_volume (device w)) as [x|] eqn:Hcached;
      destruct refresh; simpl when.
    2: { rewrite bind_ret. unfold gets. intros [= <- <-].
         rewrite Hcached. split; [reflexivity | discriminate]. }
    all: pose proof (refresh_volume_outcome w) as H; unfold mbind;
      destruct (refresh_volume parseString requests_get w) as [[[]|e'] w1];
      [|discriminate]; destruct H as (s & Hs); unfold gets;
      intros [= <- <-]; rewrite Hs; simpl; split;
      [reflexivity | discriminate].
  - unfold presets. rewrite bind_gets.
    destruct (_presets (device w)) as [x|] eqn:Hcached;
      destruct refresh; simpl when.
    2: { rewrite bind_ret. unfold gets. intros [= <- <-].
         rewrite Hcached. split; [reflexivity | discriminate]. }
    all: pose proof (refresh_presets_outcome w) as H; unfold mbind;
      destruct (refresh_presets parseString requests_get toxml w)
        as [[[]|e'] w1];
      [|discriminate]; destruct H as (s & Hs); unfold gets;
      intros [= <- <-]; rewrite Hs; simpl; split;
      [reflexivity | discriminate].
Qed.

End Reading.

Section Presets.

Variable parseString : string -> result node.
Variable requests_get : string -> result string.
Variable toxml : node -> string.
Variable call : callback -> payload -> result unit.

(** A refresh of the presets that is answered with a document replaces
    the cached list by the presets read, in document order, from the
    [preset] elements before the first one that does not read as a
    preset; it raises what that element raised, and returns when every
    element reads. The list cached before is gone in both cases. *)
Theorem refresh_presets_reads_the_document
    (text : string) (dom : node) (w : world) :
  requests_get (base_url (device w) ++ "/presets")%string = Ok text ->
  parseString text = Ok dom ->
  is_parent dom = true ->
  refresh_presets parseString requests_get toxml w
  = (ended_with
       (snd (read_until_failure (Preset.__init__ toxml)
               (elements_named "preset" dom))),
     {| device :=
          set_presets (device w)
            (Some (fst (read_until_failure (Preset.__init__ toxml)
                          (elements_named "preset" dom))));
        requested :=
          requested w ++ [(base_url (device w) ++ "/presets")%string];
        invoked := invoked w |}).
Proof.
  intros Hget Hparse Hdoc.
  unfold refresh_presets. rewrite bind_gets.
  rewrite (bind_http_get requests_get _ text) by exact Hget.
  rewrite Hparse. repeat mstep.
  unfold _get_dom_elements. rewrite (getElementsByTagName_Ok _ _ Hdoc).
  mstep.
  rewrite (preset_loop_ends toxml _ []) by reflexivity.
  reflexivity.
Qed.



End Presets.

(** ** What the helpers read *)

(** The helpers look at the first element of that name in document
    order. Without such an element they give the default; with one,
    the attribute helper gives its attribute, or [None] (not the
    default) when it lacks it, and the value helper gives the stripped
    text or comment it starts with, the default when it is empty, or
    raises [AttributeError] when it starts with an element. On a text or
    comment node they all raise [AttributeError]. *)
Theorem helpers_read_the_first_element
    (xml_dom : node) (element attribute : string)
    (default_value : option string) :
  (is_parent xml_dom = true ->
   _get_dom_element xml_dom element
   = Ok (hd_error (elements_named element xml_dom))
   /\ _get_dom_element_attribute xml_dom element attribute default_value
      = Ok match elements_named element xml_dom with
           | [] => default_value
           | e :: _ => attribute_of attribute e
           end
   /\ _get_dom_element_value xml_dom element default_value
      = match elements_named element xml_dom with
        | [] => Ok default_value
        | e :: _ =>
            match firstChild e with
            | None => Ok default_value
            | Some (Text data) | Some (Comment data) => Ok (Some (strip data))
            | Some _ => Raise AttributeError
            end
        end)
  /\ (is_parent xml_dom = false ->
      _get_dom_element xml_dom element = Raise AttributeError
      /\ _get_dom_element_attribute xml_dom element attribute default_value
         = Raise AttributeError
      /\ _get_dom_element_value xml_dom element default_value
         = Raise AttributeError).
Proof.
  split; intros Hkind.
  - unfold _get_dom_element_attribute, _get_dom_element_value,
      _get_dom_element, _get_dom_elements.
    rewrite (getElementsByTagName_Ok xml_dom element Hkind). simpl rbind.
    pose proof (elements_named_are_elements element xml_dom) as Hall.
    destruct (elements_named element xml_dom) as [|e es]; simpl.
    + repeat split.
    + inversion Hall as [|? ? [a Ha] _]; subst.
      unfold attribute_of. rewrite Ha.
      repeat split.
      * destruct (lookup attribute a); reflexivity.
      * destruct (firstChild e) as [[| | |]|]; reflexivity.
  - destruct xml_dom; try discriminate Hkind; repeat split.
Qed.

Lemma drop_while_first (p : ascii -> bool) (s : string) (c : ascii) :
  first_char (drop_while p s) = Some c -> p c = false.
Proof.
  induction s as [|a s IH]; simpl; [discriminate|].
  destruct (p a) eqn:Ha; [exact IH|]. simpl. intros [= <-]. exact Ha.
Qed.

Lemma drop_while_last (p : ascii -> bool) (s : string) (c : ascii) :
  last_char (drop_while p s) = Some c -> last_char s = Some c.
Proof.
  induction s as [|a s IH]; simpl; [discriminate|].
  destruct (p a); [|exact (fun H => H)].
  intros H. rewrite (IH H). reflexivity.
Qed.

Lemma rev_string_first (s acc : string) :
  first_char (rev_string acc s)
  = match last_char s with
    | Some c => Some c
    | None => first_char acc
    end.
Proof.
  revert acc. induction s as [|a s IH]; intros acc; simpl; [reflexivity|].
  rewrite IH. destruct (last_char s); reflexivity.
Qed.

Lemma rev_string_last (s acc : string) :
  last_char (rev_string acc s)
  = match last_char acc with
    | Some c => Some c
    | None => first_char s
    end.
Proof.
  revert acc. induction s as [|a s IH]; intros acc; simpl.
  - destruct (last_char acc); reflexivity.
  - rewrite IH. simpl. destruct (last_char acc); reflexivity.
Qed.

Lemma rev_string_rev_string (s a b : string) :
  rev_string a (rev_string b s) = rev_string (s ++ a)%string b.
Proof.
  revert b. induction s as [|c s IH]; intros b; simpl; [reflexivity|].
  rewrite IH. reflexivity.
Qed.

Lemma append_empty (s : string) : (s ++ EmptyString)%string = s.
Proof. induction s as [|c s IH]; simpl; [|rewrite IH]; reflexivity. Qed.

Lemma drop_while_nothing (p : ascii -> bool) (s : string) :
  (forall c, first_char s = Some c -> p c = false) -> drop_while p s = s.
Proof.
  destruct s as [|a s]; simpl; [reflexivity|].
  intros H. rewrite (H a eq_refl). reflexivity.
Qed.

Lemma trim_ends (p : ascii -> bool) (s : string) :
  (forall c, first_char (trim p s) = Some c -> p c = false)
  /\ (forall c, last_char (trim p s) = Some c -> p c = false).
Proof.
  unfold trim. split; intros c H.
  - rewrite rev_string_first in H. simpl in H.
    destruct (last_char (drop_while p (rev_string EmptyString
                                         (drop_while p s)))) as [d|] eqn:Hd;
      [|discriminate].
    injection H as ->.
    apply drop_while_last in Hd. rewrite rev_string_last in Hd. simpl in Hd.
    exact (drop_while_first p s c Hd).
  - rewrite rev_string_last in H. simpl in H.
    exact (drop_while_first p _ c H).
Qed.

Lemma trim_trim (p : ascii -> bool) (s : string) : trim p (trim p s) = trim p s.
Proof.
  destruct (trim_ends p s) as [Hfirst Hlast].
  generalize dependent (trim p s). intros t Hfirst Hlast.
  unfold trim. rewrite (drop_while_nothing p t Hfirst).
  rewrite drop_while_nothing.
  - rewrite rev_string_rev_string. simpl. apply append_empty.
  - intros c H. rewrite rev_string_first in H. simpl in H.
    destruct (last_char t) as [d|] eqn:Hd; [|discriminate].
    injection H as ->. exact (Hlast c eq_refl).
Qed.

(** A text value read without a default neither starts nor ends with
    white space, and stripping it again changes nothing. *)
Theorem element_values_are_stripped
    (xml_dom : node) (element value : string) :
  _get_dom_element_value xml_dom element None = Ok (Some value) ->
  (forall c, first_char value = Some c -> py_isspace c = false)
  /\ (forall c, last_char value = Some c -> py_isspace c = false)
  /\ strip value = value.
Proof.
  intros H. unfold _get_dom_element_value in H.
  apply rbind_Ok in H. destruct H as (found & _ & H).
  destruct found as [e|]; [|discriminate].
  destruct (firstChild e) as [child|]; [|discriminate].
  destruct (nodeValue child) as [v|]; [|discriminate].
  injection H as <-. unfold strip.
  destruct (trim_ends py_isspace v) as [Hfirst Hlast].
  split; [exact Hfirst | split; [exact Hlast | apply trim_trim]].
Qed.

(** ** What the value objects hold *)

Lemma get_dom_element_first (xml_dom : node) (element : string)
    (found : option node) :
  _get_dom_element xml_dom element = Ok found ->
  is_parent xml_dom = true
  /\ found = hd_error (elements_named element xml_dom).
Proof.
  unfold _get_dom_element, _get_dom_elements. intros H.
  assert (Hkind : is_parent xml_dom = true)
    by (destruct xml_dom; try discriminate H; reflexivity).
  rewrite (getElementsByTagName_Ok _ _ Hkind) in H. simpl in H.
  split; [exact Hkind|].
  destruct (elements_named element xml_dom); injection H as <-; reflexivity.
Qed.

Lemma get_dom_element_attribute_first
    (xml_dom : node) (element attribute : string) (value : option string) :
  _get_dom_element_attribute xml_dom element attribute None = Ok value ->
  is_parent xml_dom = true
  /\ value = match elements_named element xml_dom with
             | [] => None
             | e :: _ => attribute_of attribute e
             end.
Proof.
  unfold _get_dom_element_attribute. intros H.
  apply rbind_Ok in H. destruct H as (found & Hfound & H).
  apply get_dom_element_first in Hfound. destruct Hfound as [Hkind ->].
  split; [exact Hkind|].
  destruct (elements_named element xml_dom) as [|e es]; simpl in *.
  - injection H as <-. reflexivity.
  - unfold attribute_of. destruct (attributes e) as [a|]; [|discriminate].
    destruct (lookup attribute a); injection H as <-; reflexivity.
Qed.

Lemma get_dom_attribute_read (xml_dom : node) (attribute : string)
    (value : option string) :
  _get_dom_attribute xml_dom attribute None = Ok value ->
  is_parent xml_dom = true /\ value = attribute_of attribute xml_dom.
Proof.
  unfold _get_dom_attribute, attribute_of. intros H.
  destruct xml_dom; try discriminate H. simpl in *. split; [reflexivity|].
  destruct (lookup attribute attrs); injection H as <-; reflexivity.
Qed.

Lemma ZoneSlave_init_reads (member_dom : node) (slave : ZoneSlave.t) :
  ZoneSlave.__init__ member_dom = Ok slave ->
  ZoneSlave._ip slave = attribute_of "ipaddress" member_dom
  /\ ZoneSlave._role slave = attribute_of "role" member_dom.
Proof.
  intros H. unfold ZoneSlave.__init__ in H. rinv H. injection H as <-.
  repeat match goal with
         | E : _get_dom_attribute _ _ None = Ok _ |- _ =>
             apply get_dom_attribute_read in E; destruct E as [_ ->]
         end.
  split; reflexivity.
Qed.

Lemma Forall2_map_eq {A B C : Type} (f : A -> C) (g : B -> C)
    (xs : list A) (ys : list B) :
  Forall2 (fun x y => g y = f x) xs ys -> map g ys = map f xs.
Proof. induction 1; simpl; [reflexivity | f_equal; assumption]. Qed.

(** A zone document always reads as a zone status: its master and the
    address of the sender come from the first [zone] element, the device
    counts as master exactly when that address is missing, and there is
    one slave per [member] element, in document order, with its
    [ipaddress] and [role] attributes. *)
Theorem zone_status_reads_the_zone (zone_dom : node) :
  is_parent zone_dom = true ->
  exists zone,
    ZoneStatus.__init__ zone_dom = Ok zone
    /\ ZoneStatus._master_id zone
       = match elements_named "zone" zone_dom with
         | [] => None
         | e :: _ => attribute_of "master" e
         end
    /\ ZoneStatus._master_ip zone
       = match elements_named "zone" zone_dom with
         | [] => None
         | e :: _ => attribute_of "senderIPAddress" e
         end
    /\ (ZoneStatus._is_master zone = true
        <-> ZoneStatus._master_ip zone = None)
    /\ map ZoneSlave._ip (ZoneStatus._slaves zone)
       = map (attribute_of "ipaddress") (elements_named "member" zone_dom)
    /\ map ZoneSlave._role (ZoneStatus._slaves zone)
       = map (attribute_of "role") (elements_named "member" zone_dom).
Proof.
  intros Hkind. destruct (ZoneStatus_init_total zone_dom Hkind) as [zone H].
  exists zone. split; [exact H|].
  unfold ZoneStatus.__init__ in H. rinv H. injection H as <-. simpl.
  repeat match goal with
         | E : _get_dom_element_attribute _ _ _ None = Ok _ |- _ =>
             apply get_dom_element_attribute_first in E; destruct E as [_ ->]
         end.
  match goal with
  | E : _get_dom_elements _ _ = Ok _ |- _ =>
      apply getElementsByTagName_spec in E; subst
  end.
  match goal with
  | E : rmap _ _ = Ok _ |- _ => apply rmap_Forall2 in E; rename E into Hall
  end.
  repeat split.
  - destruct (match elements_named "zone" zone_dom with
              | [] => None
              | e :: _ => attribute_of "senderIPAddress" e
              end); [discriminate | reflexivity].
  - intros ->. reflexivity.
  - apply Forall2_map_eq. eapply Forall2_impl; [|exact Hall].
    intros e s Hs. apply (ZoneSlave_init_reads e s Hs).
  - apply Forall2_map_eq. eapply Forall2_impl; [|exact Hall].
    intros e s Hs. apply (ZoneSlave_init_reads e s Hs).
Qed.

Lemma Network_init_reads (network_dom : node) (network : Network.t) :
  Network.__init__ network_dom = Ok network ->
  attribute_of "type" network_dom = Some (Network._type network).
Proof.
  intros H. unfold Network.__init__ in H. rinv H. injection H as <-. simpl.
  unfold attribute_of. destruct (attributes network_dom) as [a|];
    [|discriminate].
  destruct (lookup "type" a); [|discriminate].
  match goal with E : Ok _ = Ok _ |- _ => injection E as -> end.
  reflexivity.
Qed.

(** A configuration that reads has one network per [networkInfo]
    element, in document order, and each of these elements has the
    [type] attribute the network carries: one element without it makes
    the whole configuration fail. *)
Theorem config_reads_every_network (xml_dom : node) (config : Config.t) :
  Config.__init__ xml_dom = Ok config ->
  map (fun network => Some (Network._type network)) (Config._networks config)
  = map (attribute_of "type") (elements_named "networkInfo" xml_dom).
Proof.
  intros H. unfold Config.__init__ in H. rinv H. injection H as <-. simpl.
  match goal with
  | E : getElementsByTagName _ "networkInfo" = Ok _ |- _ =>
      apply getElementsByTagName_spec in E; subst
  end.
  match goal with
  | E : rmap Network.__init__ _ = Ok _ |- _ =>
      apply rmap_Forall2 in E; rename E into Hall
  end.
  apply (Forall2_map_eq (attribute_of "type")
           (fun network => Some (Network._type network))).
  eapply Forall2_impl; [|exact Hall].
  intros e n Hn. symmetry. exact (Network_init_reads e n Hn).
Qed.

Lemma find_first {A : Type} (p : A -> bool) (before : list A) (x : A)
    (after : list A) :
  Forall (fun y => p y = false) before -> p x = true ->
  find p (before ++ x :: after) = Some x.
Proof.
  induction 1 as [|y ys Hy _ IH]; simpl; intros Hx.
  - rewrite Hx. reflexivity.
  - rewrite Hy. exact (IH Hx).
Qed.

Lemma find_none {A : Type} (p : A -> bool) (xs : list A) :
  Forall (fun y => p y = false) xs -> find p xs = None.
Proof.
  induction 1 as [|y ys Hy _ IH]; simpl; [|rewrite Hy]; auto.
Qed.

(** The address and the MAC address of a configuration come from the
    same network: the first one of type SMSC when there is one, the
    first network otherwise, and both are absent without networks. *)
Theorem device_address_comes_from_one_network (config : Config.t) :
  (Config._networks config = [] ->
   Config_device_ip config = None /\ Config_mac_address config = None)
  /\ (forall before network after,
        Config._networks config = before ++ network :: after ->
        Forall (fun other => Network._type other <> "SMSC") before ->
        Network._type network = "SMSC" ->
        Config_device_ip config = Network._ip_address network
        /\ Config_mac_address config = Network._mac_address network)
  /\ (forall network others,
        Config._networks config = network :: others ->
        Forall (fun other => Network._type other <> "SMSC")
          (network :: others) ->
        Config_device_ip config = Network._ip_address network
        /\ Config_mac_address config = Network._mac_address network).
Proof.
  unfold Config_device_ip, Config_mac_address, Config_network.
  split; [|split].
  - intros ->. split; reflexivity.
  - intros before network after -> Hbefore Htype.
    rewrite (find_first _ before network after).
    + split; reflexivity.
    + eapply Forall_impl; [|exact Hbefore].
      intros other Hother. apply String.eqb_neq. exact Hother.
    + apply String.eqb_eq. exact Htype.
  - intros network others -> Hnone.
    rewrite find_none.
    + split; reflexivity.
    + eapply Forall_impl; [|exact Hnone].
      intros other Hother. apply String.eqb_neq. exact Hother.
Qed.

(** A preset that reads has a [ContentItem] element below its [preset]
    element; its source XML is the serialisation of the first one, and
    its source, type, location, account and presetable flag are those a
    content item read from that element has. *)
Theorem preset_embeds_its_content_item
    (toxml : node -> string) (preset_dom : node) (preset : Preset.t) :
  Preset.__init__ toxml preset_dom = Ok preset ->
  exists element,
    hd_error (elements_named "ContentItem" preset_dom) = Some element
    /\ Preset._source_xml preset = toxml element
    /\ Preset._id preset = attribute_of "id" preset_dom
    /\ forall item,
         ContentItem.__init__ element = Ok item ->
         Preset._source preset = ContentItem._source item
         /\ Preset._type preset = ContentItem._type item
         /\ Preset._location preset = ContentItem._location item
         /\ Preset._source_account preset = ContentItem._source_account item
         /\ Preset._is_presetable preset = ContentItem._is_presetable item.
Proof.
  intros H. unfold Preset.__init__ in H. rinv H. injection H as <-. simpl.
  repeat match goal with
         | E : _get_dom_element_attribute _ _ _ None = Ok _ |- _ =>
             apply get_dom_element_attribute_first in E; destruct E as [_ ->]
         | E : _get_dom_attribute _ _ None = Ok _ |- _ =>
             apply get_dom_attribute_read in E; destruct E as [_ ->]
         | E : _get_dom_element _ _ = Ok _ |- _ =>
             apply get_dom_element_first in E; destruct E as [_ ->]
         end.
  destruct (elements_named "ContentItem" preset_dom) as [|element rest];
    [discriminate|].
  match goal with E : deref _ _ = Ok _ |- _ => simpl in E; injection E as <- end.
  exists element. repeat split.
  all: unfold ContentItem.__init__ in H; rinv H; injection H as <-; simpl.
  all: repeat match goal with
         | E : _get_dom_attribute _ _ None = Ok _ |- _ =>
             apply get_dom_attribute_read in E; destruct E as [_ ->]
         end; reflexivity.
Qed.

(** A status that reads has a content item exactly when the payload has
    a [ContentItem] element, and it is the one read from the first such
    element. *)
Theorem status_embeds_the_first_content_item
    (xml_dom : node) (status : Status.t) :
  Status.__init__ xml_dom = Ok status ->
  match elements_named "ContentItem" xml_dom with
  | [] => Status._content_item status = None
  | element :: _ =>
      exists item,
        ContentItem.__init__ element = Ok item
        /\ Status._content_item status = Some item
  end.
Proof.
  intros H. unfold Status.__init__ in H.
  apply rbind_Ok in H. destruct H as (source & _ & H).
  apply rbind_Ok in H. destruct H as (found & Hfound & H).
  apply rbind_Ok in H. destruct H as (content_item & Hitem & H).
  rinv H. injection H as <-. simpl.
  pose proof Hfound as Hspec. apply getElementsByTagName_spec in Hspec.
  subst found.
  destruct (elements_named "ContentItem" xml_dom) as [|element rest] eqn:Hels.
  - injection Hitem as <-. reflexivity.
  - apply rbind_Ok in Hitem. destruct Hitem as (first & Hfirst & Hitem).
    apply get_dom_element_first in Hfirst. destruct Hfirst as [_ ->].
    rewrite Hels in Hitem. simpl in Hitem.
    destruct (ContentItem.__init__ element) as [item|e]; [|discriminate].
    injection Hitem as <-. exists item. split; reflexivity.
Qed.

(** ** Commands *)

Lemma session_eta (s : session) :
  {| state := state s; posted := posted s |} = s.
Proof. destruct s; reflexivity. Qed.

Lemma string_append_assoc (a b c : string) :
  ((a ++ b) ++ c)%string = (a ++ (b ++ c))%string.
Proof. induction a as [|x a IH]; simpl; [|rewrite IH]; reflexivity. Qed.

Lemma add_members_appends (slaves : list SoundTouchDevice) (request_body : string) :
  add_members request_body slaves
  = (request_body
     ++ fold_right String.append EmptyString (map member_xml slaves))%string.
Proof.
  revert request_body. induction slaves as [|slave rest IH];
    intros request_body; simpl.
  - symmetry. apply append_empty.
  - rewrite IH. apply string_append_assoc.
Qed.

(** The two zone requests list the slaves in the same way, one [member]
    element per slave in the order given, between an opening [zone] tag
    and its closing tag; they differ in the opening tag only, which
    names the sender's address for a new zone. An empty list of slaves
    raises [NoSlavesException] in both. *)
Theorem zone_request_bodies
    (self : SoundTouchDevice) (slaves : list SoundTouchDevice) :
  (slaves = [] ->
   _create_zone self slaves = Raised (Soundtouch NoSlavesException)
   /\ _get_zone_request_body self slaves
      = Raised (Soundtouch NoSlavesException))
  /\ (slaves <> [] ->
      _create_zone self slaves
      = Returned
          ("<zone master=" ++ quoted (fmt (Config._id (_config self)))
           ++ " senderIPAddress="
           ++ quoted (fmt (Config_device_ip (_config self))) ++ ">"
           ++ fold_right String.append EmptyString (map member_xml slaves)
           ++ "</zone>")%string
      /\ _get_zone_request_body self slaves
         = Returned
             ("<zone master=" ++ quoted (fmt (Config._id (_config self)))
              ++ ">"
              ++ fold_right String.append EmptyString (map member_xml slaves)
              ++ "</zone>")%string).
Proof.
  split.
  - intros ->. split; reflexivity.
  - intros Hslaves. destruct slaves as [|slave rest]; [contradiction|].
    unfold _create_zone, _get_zone_request_body.
    cbn [length Nat.leb]. rewrite !add_members_appends.
    split; f_equal; rewrite !string_append_assoc; reflexivity.
Qed.

Section Commanding.

Variable parseString : string -> result node.
Variable requests_get : string -> result string.
Variable requests_post : string -> string -> result unit.
Variable Key_value : Key -> string.
Variable Source_value : string -> option string.
Variable ET_tostring : string -> list (string * string) -> string.
Variable render_template : string -> result string.

Lemma cbind_self {A B : Type} (field : SoundTouchDevice -> A)
    (k : A -> Cmd B) (s : session) :
  cbind (self_ field) k s = k (field (device (state s))) s.
Proof.
  unfold cbind, self_, run, gets. rewrite session_eta. reflexivity.
Qed.

Lemma cbind_post {B : Type} (url data : string) (k : unit -> Cmd B)
    (s : session) :
  cbind (http_post requests_post url data) k s
  = match requests_post url data with
    | Ok _ => k tt {| state := state s; posted := posted s ++ [(url, data)] |}
    | Raise e =>
        (Raised (Builtin e),
         {| state := state s; posted := posted s ++ [(url, data)] |})
    end.
Proof.
  unfold cbind, http_post. destruct (requests_post url data) as [[]|e];
    reflexivity.
Qed.

Lemma post_eq (url data : string) (s : session) :
  http_post requests_post url data s
  = (match requests_post url data with
     | Ok _ => Returned tt
     | Raise e => Raised (Builtin e)
     end,
     {| state := state s; posted := posted s ++ [(url, data)] |}).
Proof. reflexivity. Qed.

(** What sending a key does, whatever the device answers. *)
Lemma send_key_eq (key : string) (s : session) :
  let url := (base_url (device (state s)) ++ "/key")%string in
  let press :=
    ("<key state=" ++ quoted "press" ++ " sender=" ++ quoted "Gabbo" ++ ">"
     ++ key ++ "</key>")%string in
  let release :=
    ("<key state=" ++ quoted "release" ++ " sender=" ++ quoted "Gabbo" ++ ">"
     ++ key ++ "</key>")%string in
  _send_key requests_post key s
  = match requests_post url press with
    | Ok _ =>
        (match requests_post url release with
         | Ok _ => Returned tt
         | Raise e => Raised (Builtin e)
         end,
         {| state := state s;
            posted := posted s ++ [(url, press); (url, release)] |})
    | Raise e =>
        (Raised (Builtin e),
         {| state := state s; posted := posted s ++ [(url, press)] |})
    end.
Proof.
  cbv zeta. unfold _send_key. rewrite cbind_self, cbind_post.
  destruct (requests_post _ _) as [[]|e]; [|reflexivity].
  rewrite cbind_self, post_eq. simpl. rewrite <- app_assoc. reflexivity.
Qed.

(** Sending a key posts its press and then its release, both to [/key],
    and nothing else; when the press is refused the release is not
    sent. The cached state is not touched. *)
Theorem send_key_presses_then_releases (key : string) (s : session) :
  let url := (base_url (device (state s)) ++ "/key")%string in
  let press :=
    ("<key state=" ++ quoted "press" ++ " sender=" ++ quoted "Gabbo" ++ ">"
     ++ key ++ "</key>")%string in
  let release :=
    ("<key state=" ++ quoted "release" ++ " sender=" ++ quoted "Gabbo" ++ ">"
     ++ key ++ "</key>")%string in
  (requests_post url press = Ok tt ->
   requests_post url release = Ok tt ->
   _send_key requests_post key s
   = (Returned tt,
      {| state := state s;
         posted := posted s ++ [(url, press); (url, release)] |}))
  /\ (forall e,
        requests_post url press = Raise e ->
        _send_key requests_post key s
        = (Raised (Builtin e),
           {| state := state s; posted := posted s ++ [(url, press)] |})).
Proof.
  cbv zeta. split.
  - intros Hpress Hrelease. rewrite send_key_eq. cbv zeta.
    rewrite Hpress, Hrelease. reflexivity.
  - intros e Hpress. rewrite send_key_eq. cbv zeta.
    rewrite Hpress. reflexivity.
Qed.

(** Reading the source of the fresh status posts nothing. *)
Lemma status_source_posts_nothing (s s' : session) (r : outcome (option string)) :
  status_source parseString requests_get s = (r, s') -> posted s' = posted s.
Proof.
  unfold status_source, cbind, run.
  destruct (status parseString requests_get true (state s)) as [[st|e] w];
    [destruct st as [st|]|]; intros [= <- <-]; reflexivity.
Qed.

(** [power_on] and [power_off] read a fresh status and divide the cases
    between them: on a device in standby only [power_on] sends the power
    key, on any other source only [power_off] does, and the other one
    returns without a post. *)
Theorem power_on_and_off_share_the_cases
    (s s' : session) (source : option string) :
  status_source parseString requests_get s = (Returned source, s') ->
  posted s' = posted s
  /\ (source = Some "STANDBY" ->
      power_on parseString requests_get requests_post Key_value s
      = _send_key requests_post (Key_value POWER) s'
      /\ power_off parseString requests_get requests_post Key_value s
         = (Returned tt, s'))
  /\ (source <> Some "STANDBY" ->
      power_on parseString requests_get requests_post Key_value s
      = (Returned tt, s')
      /\ power_off parseString requests_get requests_post Key_value s
         = _send_key requests_post (Key_value POWER) s').
Proof.
  intros Hsource. split; [exact (status_source_posts_nothing _ _ _ Hsource)|].
  unfold power_on, power_off, cbind. rewrite Hsource.
  split.
  - intros ->. split; reflexivity.
  - intros Hother.
    assert (Hno : py_eq_str source STATE_STANDBY = false).
    { destruct source as [src|]; [|reflexivity]. simpl.
      apply String.eqb_neq. intros ->. apply Hother. reflexivity. }
    rewrite Hno. split; reflexivity.
Qed.

(** The zone commands check before they post. Without slaves
    [create_zone] raises [NoSlavesException] and nothing is requested or
    posted. [add_zone_slave] and [remove_zone_slave] first fetch the
    zone status: without a zone they raise [NoExistingZoneException],
    with a zone but without slaves [NoSlavesException]; in neither case
    is anything posted. *)
Theorem zone_commands_check_first
    (slaves : list SoundTouchDevice) (s : session) :
  create_zone requests_post [] s = (Raised (Soundtouch NoSlavesException), s)
  /\ (forall w,
        zone_status parseString requests_get true (state s) = (Ok None, w) ->
        add_zone_slave parseString requests_get requests_post slaves s
        = (Raised (Soundtouch NoExistingZoneException),
           {| state := w; posted := posted s |})
        /\ remove_zone_slave parseString requests_get requests_post slaves s
           = (Raised (Soundtouch NoExistingZoneException),
              {| state := w; posted := posted s |}))
  /\ (forall zone w,
        zone_status parseString requests_get true (state s)
        = (Ok (Some zone), w) ->
        add_zone_slave parseString requests_get requests_post [] s
        = (Raised (Soundtouch NoSlavesException),
           {| state := w; posted := posted s |})
        /\ remove_zone_slave parseString requests_get requests_post [] s
           = (Raised (Soundtouch NoSlavesException),
              {| state := w; posted := posted s |})).
Proof.
  split; [|split].
  - unfold create_zone. rewrite cbind_self. reflexivity.
  - intros w Hzone. unfold add_zone_slave, remove_zone_slave, cbind, run.
    rewrite Hzone. split; reflexivity.
  - intros zone w Hzone.
    unfold add_zone_slave, remove_zone_slave, cbind at 1 3, run.
    rewrite Hzone. unfold is_None. rewrite !cbind_self.
    split; reflexivity.
Qed.

(** [play_url] accepts the URLs that start with [http://] only: any
    other URL, an [https://] one included, raises
    [SoundtouchInvalidUrlException] before anything is read or posted.
    An accepted URL is posted once, as the filled template, to the
    AVTransport control URL on the DLNA port. *)
Theorem play_url_needs_http (url : string) (s : session) :
  (String.prefix "http://" url = false ->
   play_url requests_post render_template url s
   = (Raised (Soundtouch SoundtouchInvalidUrlException), s))
  /\ (forall rest,
        play_url requests_post render_template ("https://" ++ rest)%string s
        = (Raised (Soundtouch SoundtouchInvalidUrlException), s))
  /\ (forall body,
        String.prefix "http://" url = true ->
        render_template url = Ok body ->
        play_url requests_post render_template url s
        = (match requests_post
                   ("http://" ++ _host (device (state s)) ++ ":"
                    ++ py_str (_dlna_port (device (state s)))
                    ++ "/AVTransport/Control")%string body with
           | Ok _ => Returned tt
           | Raise e => Raised (Builtin e)
           end,
           {| state := state s;
              posted :=
                posted s
                ++ [(("http://" ++ _host (device (state s)) ++ ":"
                      ++ py_str (_dlna_port (device (state s)))
                      ++ "/AVTransport/Control")%string, body)] |})).
Proof.
  split; [|split].
  - intros Hprefix. unfold play_url. rewrite Hprefix. reflexivity.
  - intros rest. reflexivity.
  - intros body Hprefix Hbody. unfold play_url. rewrite Hprefix.
    unfold negb, cbind at 1, run, lift. rewrite Hbody.
    rewrite session_eta, cbind_self. reflexivity.
Qed.

(** [snapshot] posts nothing and never clears a snapshot: when it
    returns, the snapshot is the content item of the status it has just
    fetched if that status has one, and the snapshot held before if it
    has none. *)
Lemma snapshot_keeps_or_replaces (s : session) (fresh : Status.t) (w : world) :
  status parseString requests_get true (state s) = (Ok (Some fresh), w) ->
  snapshot parseString requests_get s
  = (Returned tt,
     {| state :=
          {| device :=
               set_snapshot (device w)
                 match Status._content_item fresh with
                 | Some item => Some item
                 | None => _snapshot (device w)
                 end;
             requested := requested w; invoked := invoked w |};
        posted := posted s |}).
Proof.
  intros Hstatus. unfold snapshot, cbind, run. rewrite Hstatus.
  destruct (Status._content_item fresh) as [item|]; simpl.
  - reflexivity.
  - destruct w as [d r i]; destruct d; reflexivity.
Qed.

(** [select_content_item] posts to [/select] a [ContentItem] element
    whose attributes start with the source; the account, the location
    and the type follow in this order, each one left out when it is
    missing or empty. *)
Lemma select_content_item_leaves_out_empty_fields
    (source_value : string) (source_account location media_type : option string)
    (s : session) :
  exists attributes,
    select_content_item requests_post ET_tostring source_value
      source_account location media_type s
    = http_post requests_post
        (base_url (device (state s)) ++ "/select")%string
        (ET_tostring "ContentItem" attributes) s
    /\ attributes
       = [("source", source_value)]
         ++ (if truthy source_account
             then [("sourceAccount", fmt source_account)] else [])
         ++ (if truthy location then [("location", fmt location)] else [])
         ++ (if truthy media_type then [("type", fmt media_type)] else []).
Proof.
  eexists. split.
  - unfold select_content_item. rewrite cbind_self. reflexivity.
  - destruct (truthy source_account), (truthy location), (truthy media_type);
      reflexivity.
Qed.

(** [restore] without a snapshot does nothing. With a snapshot it
    selects the content item snapshotted, under the value [Source] has
    for the name of its source; when [Source] has no member of that
    name, or the snapshot has no source, it raises [KeyError] and posts
    nothing. *)
Lemma restore_selects_the_snapshot (s : session) :
  (_snapshot (device (state s)) = None ->
   restore requests_post Source_value ET_tostring s = (Returned tt, s))
  /\ (forall item name value,
        _snapshot (device (state s)) = Some item ->
        ContentItem._source item = Some name ->
        Source_value name = Some value ->
        restore requests_post Source_value ET_tostring s
        = select_content_item requests_post ET_tostring value
            (ContentItem._source_account item) (ContentItem._location item)
            (ContentItem._type item) s)
  /\ (forall item,
        _snapshot (device (state s)) = Some item ->
        match ContentItem._source item with
        | Some name => Source_value name = None
        | None => True
        end ->
        restore requests_post Source_value ET_tostring s
        = (Raised (Builtin KeyError), s)).
Proof.
  unfold restore. rewrite cbind_self.
  split; [|split].
  - intros ->. reflexivity.
  - intros item name value -> -> ->. reflexivity.
  - intros item -> Hsource.
    destruct (ContentItem._source item) as [name|];
      [rewrite Hsource|]; reflexivity.
Qed.

(** Selecting a preset read from a [preset] element posts to [/select]
    the serialisation of the first [ContentItem] element below it. *)
Theorem select_preset_posts_the_content_item
    (toxml : node -> string) (preset_dom : node) (preset : Preset.t)
    (s : session) :
  Preset.__init__ toxml preset_dom = Ok preset ->
  exists element,
    hd_error (elements_named "ContentItem" preset_dom) = Some element
    /\ select_preset requests_post preset s
       = http_post requests_post
           (base_url (device (state s)) ++ "/select")%string
           (toxml element) s.
Proof.
  intros H. unfold Preset.__init__ in H. rinv H. injection H as <-.
  match goal with
  | E : _get_dom_element _ "ContentItem" = Ok _ |- _ =>
      apply get_dom_element_first in E; destruct E as [_ ->]
  end.
  destruct (elements_named "ContentItem" preset_dom) as [|element rest];
    [discriminate|].
  match goal with E : deref _ _ = Ok _ |- _ => simpl in E; injection E as <- end.
  exists element. split; [reflexivity|].
  unfold select_preset. rewrite cbind_self. reflexivity.
Qed.

End Commanding.

(** ** Registering twice, and snapshots *)

Lemma remove_if_registered_first (x : callback) (before after : list callback) :
  ~ In x before ->
  remove_if_registered x (before ++ x :: after) = Ok (before ++ after).
Proof.
  intros Hnot. unfold remove_if_registered.
  rewrite (proj2 (py_in_spec x (before ++ x :: after)))
    by (apply in_or_app; right; left; reflexivity).
  induction before as [|y ys IH]; simpl.
  - rewrite Nat.eqb_refl. reflexivity.
  - destruct (Nat.eqb_spec y x) as [->|_].
    + exfalso. apply Hnot. left. reflexivity.
    + rewrite IH by (intros H; apply Hnot; right; exact H). reflexivity.
Qed.

(** Registering a callback and removing it again gives back the device
    when the callback was not registered before. When it was, the
    removal takes its oldest registration, not the new one: the registry
    has the same callbacks as before, with that registration moved to
    the end. *)
Theorem registering_again_moves_the_callback
    (self : SoundTouchDevice) (listener : callback) :
  exists added,
    add_volume_listener self listener = Ok added
    /\ (~ In listener (_volume_updated_listeners self) ->
        remove_volume_listener added listener = Ok self)
    /\ (forall before after,
          _volume_updated_listeners self = before ++ listener :: after ->
          ~ In listener before ->
          exists self',
            remove_volume_listener added listener = Ok self'
            /\ _volume_updated_listeners self'
               = before ++ after ++ [listener]).
Proof.
  eexists. split; [reflexivity|]. split.
  - intros Hnot. unfold remove_volume_listener. simpl.
    rewrite (remove_if_registered_first listener _ [] Hnot). simpl.
    rewrite app_nil_r. destruct self; reflexivity.
  - intros before after Hreg Hnot. unfold remove_volume_listener. simpl.
    rewrite Hreg, <- app_assoc. simpl.
    rewrite (remove_if_registered_first listener before _ Hnot). simpl.
    eexists. split; reflexivity.
Qed.

Section Snapshots.

Variable parseString : string -> result node.
Variable requests_get : string -> result string.
Variable requests_post : string -> string -> result unit.
Variable Source_value : string -> option string.
Variable ET_tostring : string -> list (string * string) -> string.

(** A snapshot followed by a restore selects again what the device was
    playing: the content item of the status fetched by the snapshot is
    posted to [/select] as a [ContentItem] element with its source,
    under the value [Source] has for it, and with its account, location
    and type, each left out when missing or empty. *)
Theorem snapshot_then_restore
    (s : session) (fresh : Status.t) (item : ContentItem.t)
    (name value : string) (w : world) :
  status parseString requests_get true (state s) = (Ok (Some fresh), w) ->
  Status._content_item fresh = Some item ->
  ContentItem._source item = Some name ->
  Source_value name = Some value ->
  cbind (snapshot parseString requests_get)
        (fun _ => restore requests_post Source_value ET_tostring) s
  = (match requests_post (base_url (device w) ++ "/select")%string
             (ET_tostring "ContentItem"
                ([("source", value)]
                 ++ (if truthy (ContentItem._source_account item)
                     then [("sourceAccount",
                            fmt (ContentItem._source_account item))]
                     else [])
                 ++ (if truthy (ContentItem._location item)
                     then [("location", fmt (ContentItem._location item))]
                     else [])
                 ++ (if truthy (ContentItem._type item)
                     then [("type", fmt (ContentItem._type item))]
                     else []))) with
     | Ok _ => Returned tt
     | Raise e => Raised (Builtin e)
     end,
     {| state :=
          {| device := set_snapshot (device w) (Some item);
             requested := requested w; invoked := invoked w |};
        posted :=
          posted s
          ++ [((base_url (device w) ++ "/select")%string,
               ET_tostring "ContentItem"
                 ([("source", value)]
                  ++ (if truthy (ContentItem._source_account item)
                      then [("sourceAccount",
                             fmt (ContentItem._source_account item))]
                      else [])
                  ++ (if truthy (ContentItem._location item)
                      then [("location", fmt (ContentItem._location item))]
                      else [])
                  ++ (if truthy (ContentItem._type item)
                      then [("type", fmt (ContentItem._type item))]
                      else [])))] |}).
Proof.
  intros Hstatus Hitem Hname Hvalue.
  unfold cbind at 1.
  rewrite (snapshot_keeps_or_replaces parseString requests_get s fresh w
             Hstatus).
  rewrite Hitem.
  destruct (restore_selects_the_snapshot requests_post Source_value
              ET_tostring
              {| state :=
                   {| device := set_snapshot (device w) (Some item);
                      requested := requested w; invoked := invoked w |};
                 posted := posted s |}) as (_ & Hrestore & _).
  rewrite (Hrestore item name value eq_refl Hname Hvalue).
  destruct (select_content_item_leaves_out_empty_fields requests_post
              ET_tostring value (ContentItem._source_account item)
              (ContentItem._location item) (ContentItem._type item)
              {| state :=
                   {| device := set_snapshot (device w) (Some item);
                      requested := requested w; invoked := invoked w |};
                 posted := posted s |}) as (attributes & -> & ->).
  reflexivity.
Qed.

End Snapshots.

Section SnapshotInvariant.

Variable parseString : string -> result node.
Variable requests_get : string -> result string.

Lemma status_keeps_the_snapshot (refresh : bool) (w : world) :
  _snapshot (device (snd (status parseString requests_get refresh w)))
  = _snapshot (device w).
Proof.
  unfold status. rewrite bind_gets.
  destruct (is_None (_status (device w)) || refresh); simpl when.
  - pose proof (refresh_status_outcome parseString requests_get w) as H.
    unfold mbind.
    destruct (refresh_status parseString requests_get w) as [[[]|e] w'];
      simpl.
    + destruct H as (fresh & ->). reflexivity.
    + rewrite H. reflexivity.
  - reflexivity.
Qed.

(** [snapshot] posts nothing and never clears a snapshot: whether it
    returns or raises, a device that held a snapshot still holds one. *)
Theorem snapshot_never_clears (s : session) :
  posted (snd (snapshot parseString requests_get s)) = posted s
  /\ (_snapshot (device (state s)) <> None ->
      _snapshot (device (state (snd (snapshot parseString requests_get s))))
      <> None).
Proof.
  pose proof (status_keeps_the_snapshot true (state s)) as Hkept.
  unfold snapshot, cbind, run.
  destruct (status parseString requests_get true (state s))
    as [[[fresh|]|e] w]; simpl in *.
  - destruct (Status._content_item fresh) as [item|]; simpl.
    + split; [reflexivity | discriminate].
    + split; [reflexivity | rewrite Hkept; exact (fun H => H)].
  - split; [reflexivity | rewrite Hkept; exact (fun H => H)].
  - split; [reflexivity | rewrite Hkept; exact (fun H => H)].
Qed.

End SnapshotInvariant.

(** ** The further theorems at the sample inputs *)

Lemma now_playing_updated_witness :
  exists status,
    Status._source status = Some "SPOTIFY"
    /\ Status._duration status = Some 237%Z
    /\ more_on_message now_playing_frame sample_world
       = (Ok tt,
          {| device := set_status sample_device (Some status);
             requested := [];
             invoked := [(3%nat, StatusValue (Some status))] |}).
Proof.
  eexists. split; [|split];
    [| | eapply (now_playing_updated more_parseString more_requests_get
                   sample_toxml sample_call now_playing_frame);
         [reflexivity | reflexivity | reflexivity | reflexivity | reflexivity
         | vm_compute; reflexivity
         | apply sample_callbacks_return; simpl; intuition discriminate]];
    reflexivity.
Defined.

Lemma info_updated_witness :
  more_on_message info_frame sample_world
  = (Ok tt,
     {| device := set_config sample_device sample_slave_config_read;
        requested := ["http://192.168.1.2:8090/info"];
        invoked := [(7%nat, ConfigValue sample_slave_config_read)] |}).
Proof.
  eapply (info_updated more_parseString more_requests_get sample_toxml
            sample_call info_frame info_frame_dom _ _ info_text info_dom);
    try reflexivity.
  apply sample_callbacks_return. simpl. intuition discriminate.
Defined.

Lemma volume_callback_raises_witness :
  _on_message sample_parseString sample_requests_get sample_toxml sample_call
    volume_frame
    {| device := set_volume_updated_listeners sample_device [1; 13; 2]%nat;
       requested := []; invoked := [] |}
  = (Raise (ListenerError 13),
     {| device :=
          set_volume (set_volume_updated_listeners sample_device [1; 13; 2]%nat)
            (Some sample_volume);
        requested := [];
        invoked := [(1, VolumeValue (Some sample_volume));
                    (13, VolumeValue (Some sample_volume))]%nat |}).
Proof.
  eapply (volume_callback_raises sample_parseString sample_requests_get
            sample_toxml sample_call volume_frame volume_dom _ _
            sample_volume [1%nat] [2%nat] 13%nat);
    try reflexivity.
  apply sample_callbacks_return. simpl. intuition discriminate.
Defined.

Lemma presets_updated_stops_at_bad_preset_witness :
  exists first,
    Preset._id first = Some "1"
    /\ more_on_message bad_presets_frame sample_world
       = (Raise AttributeError,
          {| device := set_presets sample_device (Some [first]);
             requested := []; invoked := [] |}).
Proof.
  eexists. split;
    [| eapply (presets_updated_stops_at_bad_preset more_parseString
                 more_requests_get sample_toxml sample_call bad_presets_frame
                 bad_presets_dom _ _
                 [Element "preset" [("id", "1")] [
                    Element "ContentItem" [("source", "TUNEIN")]
                      [Element "itemName" [] [Text "Radio"]]]]
                 (Element "preset" [("id", "2")] []) []);
       [reflexivity | reflexivity | reflexivity | reflexivity | reflexivity
       | discriminate | reflexivity | vm_compute; reflexivity | reflexivity]];
    reflexivity.
Defined.

Lemma zone_updated_fetch_fails_witness :
  _on_message sample_parseString (fun _ => Raise RequestException)
    sample_toxml sample_call zone_frame sample_world
  = (Raise RequestException,
     {| device := sample_device;
        requested := ["http://192.168.1.2:8090/getZone"];
        invoked := [] |}).
Proof.
  eapply (zone_updated_fetch_fails sample_parseString
            (fun _ => Raise RequestException) sample_toxml sample_call
            zone_frame zone_frame_dom);
    try reflexivity.
  left. reflexivity.
Defined.

Lemma failed_refresh_keeps_the_cache_witness :
  device (snd (volume sample_parseString sample_requests_get true
                 sample_world))
  = sample_device.
Proof.
  apply (proj1 (proj2 (failed_refresh_keeps_the_cache sample_parseString
                         sample_requests_get true sample_world
                         RequestException))).
  reflexivity.
Defined.

Lemma reads_use_the_cache_witness :
  volume more_parseString more_requests_get false
    {| device := set_volume sample_device (Some sample_volume);
       requested := []; invoked := [] |}
  = (Ok (Some sample_volume),
     {| device := set_volume sample_device (Some sample_volume);
        requested := []; invoked := [] |})
  /\ volume more_parseString more_requests_get false sample_world
     = volume more_parseString more_requests_get true sample_world.
Proof.
  split.
  - apply (proj1 (proj2 (reads_use_the_cache more_parseString
                           more_requests_get sample_toxml _))).
    reflexivity.
  - apply (proj1 (proj2 (proj2 (proj2 (proj2 (proj2
             (reads_use_the_cache more_parseString more_requests_get
                sample_toxml sample_world))))))).
    reflexivity.
Defined.

Lemma reads_return_a_value_witness :
  Some sample_volume
  = _volume (set_volume sample_device (Some sample_volume))
  /\ Some sample_volume <> None.
Proof.
  apply (proj1 (proj2 (reads_return_a_value more_parseString
                         more_requests_get sample_toxml true sample_world))
           (Some sample_volume)
           {| device := set_volume sample_device (Some sample_volume);
              requested := ["http://192.168.1.2:8090/volume"];
              invoked := [] |}).
  reflexivity.
Defined.

Lemma refresh_presets_reads_the_document_witness :
  refresh_presets more_parseString more_requests_get sample_toxml sample_world
  = (Ok tt,
     {| device := set_presets sample_device (Some [sample_preset]);
        requested := ["http://192.168.1.2:8090/presets"];
        invoked := [] |}).
Proof.
  apply (refresh_presets_reads_the_document more_parseString
           more_requests_get sample_toxml presets_frame presets_dom
           sample_world); reflexivity.
Defined.


Lemma helpers_read_the_first_element_witness :
  _get_dom_element_attribute info_dom "networkInfo" "type" None = Ok (Some "SCM")
  /\ _get_dom_element_attribute info_dom "networkInfo" "speed" (Some "fast")
     = Ok None
  /\ _get_dom_element_value (Text "Kitchen") "name" None
     = Raise AttributeError.
Proof.
  split; [|split].
  - apply (proj1 (proj2 (proj1 (helpers_read_the_first_element info_dom
                                  "networkInfo" "type" None) eq_refl))).
  - apply (proj1 (proj2 (proj1 (helpers_read_the_first_element info_dom
                                  "networkInfo" "speed" (Some "fast"))
                           eq_refl))).
  - apply (proj2 (proj2 (proj2 (helpers_read_the_first_element
                                  (Text "Kitchen") "name" "type" None)
                           eq_refl))).
Defined.

Lemma element_values_are_stripped_witness :
  strip "Kitchen" = "Kitchen".
Proof.
  apply (proj2 (proj2 (element_values_are_stripped
                         (Document [Element "name" [] [Text " Kitchen  "]])
                         "name" "Kitchen" eq_refl))).
Defined.

Lemma zone_status_reads_the_zone_witness :
  exists zone,
    ZoneStatus.__init__ zone_dom = Ok zone
    /\ ZoneStatus._master_id zone = Some "A0B1C2"
    /\ ZoneStatus._master_ip zone = None
    /\ map ZoneSlave._ip (ZoneStatus._slaves zone) = [Some "192.168.1.3"].
Proof.
  destruct (zone_status_reads_the_zone zone_dom eq_refl)
    as (zone & Hzone & Hid & Hip & _ & Hslaves & _).
  exists zone. repeat split; assumption.
Defined.

Lemma config_reads_every_network_witness :
  map (fun network => Some (Network._type network))
    (Config._networks sample_slave_config_read)
  = [Some "SCM"; Some "SMSC"].
Proof.
  apply (config_reads_every_network info_dom sample_slave_config_read).
  reflexivity.
Defined.

Lemma device_address_comes_from_one_network_witness :
  Config_device_ip sample_slave_config_read = Some "192.168.1.9"
  /\ Config_mac_address sample_slave_config_read = Some "D3E4F5".
Proof.
  apply (proj1 (proj2 (device_address_comes_from_one_network
                         sample_slave_config_read))
           [{| Network._type := "SCM"; Network._mac_address := Some "A0B1C2";
               Network._ip_address := Some "192.168.1.2" |}]
           {| Network._type := "SMSC"; Network._mac_address := Some "D3E4F5";
              Network._ip_address := Some "192.168.1.9" |}
           []).
  - reflexivity.
  - repeat constructor. discriminate.
  - reflexivity.
Defined.

Lemma preset_embeds_its_content_item_witness :
  exists element,
    hd_error (elements_named "ContentItem"
                (Element "preset" [("id", "1")] [
                   Element "ContentItem"
                     [("source", "TUNEIN");
                      ("location", "/v1/playback/station/s1")]
                     [Element "itemName" [] [Text "Radio"]]]))
    = Some element
    /\ Preset._source_xml sample_preset = sample_toxml element.
Proof.
  destruct (preset_embeds_its_content_item sample_toxml
              (Element "preset" [("id", "1")] [
                 Element "ContentItem"
                   [("source", "TUNEIN");
                    ("location", "/v1/playback/station/s1")]
                   [Element "itemName" [] [Text "Radio"]]])
              sample_preset eq_refl)
    as (element & Hfirst & Hxml & _).
  exists element. split; assumption.
Defined.

Lemma status_embeds_the_first_content_item_witness :
  exists status item,
    Status.__init__ standby_dom = Ok status
    /\ ContentItem.__init__
         (Element "ContentItem"
            [("source", "STANDBY"); ("isPresetable", "true")] [])
       = Ok item
    /\ Status._content_item status = Some item.
Proof.
  eexists.
  destruct (status_embeds_the_first_content_item standby_dom _ eq_refl)
    as (item & Hitem & Hstatus).
  exists item. split; [reflexivity | split; assumption].
Defined.

Lemma zone_request_bodies_witness :
  _create_zone sample_device [] = Raised (Soundtouch NoSlavesException)
  /\ _get_zone_request_body sample_device [sample_slave]
     = Returned
         ("<zone master=" ++ quoted "A0B1C2" ++ ">"
          ++ "<member ipaddress=" ++ quoted "192.168.1.9" ++ ">D3E4F5</member>"
          ++ "</zone>")%string.
Proof.
  split.
  - apply (proj1 (zone_request_bodies sample_device [])). reflexivity.
  - apply (proj2 (zone_request_bodies sample_device [sample_slave])).
    discriminate.
Defined.

Lemma send_key_presses_then_releases_witness :
  _send_key sample_requests_post "POWER" sample_session
  = (Returned tt,
     {| state := sample_world;
        posted :=
          [("http://192.168.1.2:8090/key",
            ("<key state=" ++ quoted "press" ++ " sender=" ++ quoted "Gabbo"
             ++ ">POWER</key>")%string);
           ("http://192.168.1.2:8090/key",
            ("<key state=" ++ quoted "release" ++ " sender=" ++ quoted "Gabbo"
             ++ ">POWER</key>")%string)] |})
  /\ _send_key refusing_requests_post "POWER" sample_session
     = (Raised (Builtin RequestException),
        {| state := sample_world;
           posted :=
             [("http://192.168.1.2:8090/key",
               ("<key state=" ++ quoted "press" ++ " sender="
                ++ quoted "Gabbo" ++ ">POWER</key>")%string)] |}).
Proof.
  split.
  - apply (proj1 (send_key_presses_then_releases sample_requests_post
                    "POWER" sample_session)); reflexivity.
  - apply (proj2 (send_key_presses_then_releases refusing_requests_post
                    "POWER" sample_session)). reflexivity.
Defined.

Lemma power_on_and_off_share_the_cases_witness :
  exists s',
    status_source more_parseString more_requests_get sample_session
    = (Returned (Some "STANDBY"), s')
    /\ posted s' = []
    /\ power_on more_parseString more_requests_get sample_requests_post
         sample_Key_value sample_session
       = _send_key sample_requests_post "POWER" s'
    /\ power_off more_parseString more_requests_get sample_requests_post
         sample_Key_value sample_session
       = (Returned tt, s').
Proof.
  eexists. split; [reflexivity|].
  destruct (power_on_and_off_share_the_cases more_parseString
              more_requests_get sample_requests_post sample_Key_value
              sample_session _ (Some "STANDBY") eq_refl)
    as (Hposted & Hstandby & _).
  split; [exact Hposted | exact (Hstandby eq_refl)].
Defined.

Lemma zone_commands_check_first_witness :
  create_zone sample_requests_post [] sample_session
  = (Raised (Soundtouch NoSlavesException), sample_session)
  /\ exists w,
       add_zone_slave sample_parseString sample_requests_get
         sample_requests_post [] sample_session
       = (Raised (Soundtouch NoSlavesException),
          {| state := w; posted := [] |}).
Proof.
  destruct (zone_commands_check_first sample_parseString sample_requests_get
              sample_requests_post [] sample_session)
    as (Hcreate & _ & Hzone).
  split; [exact Hcreate|].
  eexists. eapply Hzone. reflexivity.
Defined.

Lemma play_url_needs_http_witness :
  play_url sample_requests_post sample_render_template
    "ftp://192.168.1.5/song.mp3" sample_session
  = (Raised (Soundtouch SoundtouchInvalidUrlException), sample_session)
  /\ play_url sample_requests_post sample_render_template
       "http://192.168.1.5/song.mp3" sample_session
     = (Returned tt,
        {| state := sample_world;
           posted :=
             [("http://192.168.1.2:8091/AVTransport/Control",
               "<CurrentURI>http://192.168.1.5/song.mp3</CurrentURI>")] |}).
Proof.
  destruct (play_url_needs_http sample_requests_post sample_render_template
              "ftp://192.168.1.5/song.mp3" sample_session) as (Hother & _).
  destruct (play_url_needs_http sample_requests_post sample_render_template
              "http://192.168.1.5/song.mp3" sample_session) as (_ & _ & Hhttp).
  split; [apply Hother | apply Hhttp]; reflexivity.
Defined.

Lemma snapshot_never_clears_witness :
  _snapshot (device (state (snd (snapshot sample_parseString
    sample_requests_get
    {| state :=
         {| device :=
              set_snapshot sample_device
                (Some {| ContentItem._name := None;
                         ContentItem._source := Some "AUX";
                         ContentItem._type := None;
                         ContentItem._location := None;
                         ContentItem._source_account := None;
                         ContentItem._is_presetable := false |});
            requested := []; invoked := [] |};
       posted := [] |}))))
  <> None.
Proof.
  apply (proj2 (snapshot_never_clears sample_parseString sample_requests_get
                  _)).
  discriminate.
Defined.

Lemma snapshot_then_restore_witness :
  exists w,
    posted (snd (cbind (snapshot more_parseString more_requests_get)
                   (fun _ => restore sample_requests_post sample_Source_value
                               sample_ET_tostring)
                   sample_session))
    = [((base_url (device w) ++ "/select")%string, "<ContentItem source/>")].
Proof.
  eexists.
  pose proof (fun fresh item w H1 H2 H3 =>
                snapshot_then_restore more_parseString more_requests_get
                  sample_requests_post sample_Source_value sample_ET_tostring
                  sample_session fresh item "STANDBY" "STANDBY" w
                  H1 H2 H3 eq_refl) as H.
  specialize (H _ _ _ eq_refl eq_refl eq_refl).
  rewrite H. reflexivity.
Defined.

Lemma select_preset_posts_the_content_item_witness :
  exists element,
    select_preset sample_requests_post sample_preset sample_session
    = http_post sample_requests_post "http://192.168.1.2:8090/select"
        (sample_toxml element) sample_session.
Proof.
  destruct (select_preset_posts_the_content_item sample_requests_post
              sample_toxml
              (Element "preset" [("id", "1")] [
                 Element "ContentItem"
                   [("source", "TUNEIN");
                    ("location", "/v1/playback/station/s1")]
                   [Element "itemName" [] [Text "Radio"]]])
              sample_preset sample_session eq_refl)
    as (element & _ & Hpost).
  exists element. exact Hpost.
Defined.

Lemma registering_again_moves_the_callback_witness :
  exists added self',
    add_volume_listener sample_device 2 = Ok added
    /\ remove_volume_listener added 2 = Ok self'
    /\ _volume_updated_listeners self' = [1; 1; 2]%nat.
Proof.
  destruct (registering_again_moves_the_callback sample_device 2%nat)
    as (added & Hadd & _ & Hmove).
  destruct (Hmove [1%nat] [1%nat] eq_refl) as (self' & Hremove & Hreg).
  - simpl. intuition discriminate.
  - exists added, self'. repeat split; assumption.
Defined.
